(** * CityScape NYC guide: the dialogue engine of [query_data.py]

    A shallow embedding of the [NYCGuide] class and of one turn of the
    interactive loop, followed by the properties of the orchestration
    logic: classification parsing, preference and plan stores, retrieval
    fallback, query augmentation, follow-ups and input normalisation.

    Modelling conventions.
    - Text is a [string] whose characters are the code points below 256;
      [lower], [strip] and friends follow Python's [str] methods on them.
    - A value read from or written to a JSON file is a [json] tree; a file
      is absent ([open] raises [FileNotFoundError]), holds text that
      [json.load] rejects with [JSONDecodeError], or holds one such tree,
      and [json.dump] followed by [json.load] gives the tree back.  A file
      whose reading raises anything else (bytes that do not decode, nesting
      too deep, no permission) is not modelled: the loads catch none of it,
      so that [NYCGuide()] raises and no guide exists.
    - The completion service, the similarity search and the clock are
      outside the program.  They are a [Services] record of functions of
      the history of earlier external calls, so that successive calls may
      answer differently; [None] stands for a call that raises.
    - A prompt is kept as the name of its template with the named inputs
      rather than as the formatted text.
    - A method is a function from the state to a result and a new state;
      a raised exception keeps the mutations made before it. *)

From Stdlib Require Import PrimFloat ZArith Ascii String DecimalString.
From stdpp Require Import gmap strings list.

Set Warnings "-register-all,-inexact-float".
Local Open Scope list_scope.

(** ** Python's string methods *)

Module PyStr.

Definition newline : ascii := Ascii.ascii_of_N 10.

(** [str.lower] on one code point below 256: A-Z and the accented capitals
    U+00C0 to U+00DE (the multiplication sign U+00D7 apart) move up by 32. *)
Definition lower_char (c : ascii) : ascii :=
  let n := Ascii.N_of_ascii c in
  if ((65 <=? n)%N && (n <=? 90)%N)
     || ((192 <=? n)%N && (n <=? 222)%N && negb (n =? 215)%N)
  then Ascii.ascii_of_N (n + 32) else c.

Fixpoint lower (s : string) : string :=
  match s with
  | EmptyString => EmptyString
  | String c s' => String (lower_char c) (lower s')
  end.

(** The characters [str.strip] removes: U+0009 to U+000D, U+001C to U+0020,
    U+0085 and U+00A0. *)
Definition is_space (c : ascii) : bool :=
  let n := Ascii.N_of_ascii c in
  ((9 <=? n)%N && (n <=? 13)%N) || ((28 <=? n)%N && (n <=? 32)%N)
  || (n =? 133)%N || (n =? 160)%N.

Fixpoint lstrip (s : string) : string :=
  match s with
  | EmptyString => EmptyString
  | String c s' => if is_space c then lstrip s' else s
  end.

Fixpoint rstrip (s : string) : string :=
  match s with
  | EmptyString => EmptyString
  | String c s' =>
      match rstrip s' with
      | EmptyString => if is_space c then EmptyString else String c EmptyString
      | r => String c r
      end
  end.

Definition strip (s : string) : string := rstrip (lstrip s).

(** The first character, if any, is not one that [strip] removes. *)
Definition no_leading_space (s : string) : Prop :=
  match s with
  | EmptyString => True
  | String c _ => is_space c = false
  end.

(** [s.startswith(p)] *)
Fixpoint startswith (s p : string) {struct p} : bool :=
  match p, s with
  | EmptyString, _ => true
  | String _ _, EmptyString => false
  | String a p', String b s' => Ascii.eqb a b && startswith s' p'
  end.

(** [sub in s] *)
Fixpoint contains (s sub : string) : bool :=
  startswith s sub
  || match s with
     | EmptyString => false
     | String _ s' => contains s' sub
     end.

(** [s.split(sep)] for a one-character separator: never empty. *)
Fixpoint split (sep : ascii) (s : string) : list string :=
  match s with
  | EmptyString => [EmptyString]
  | String c s' =>
      if Ascii.eqb c sep then EmptyString :: split sep s'
      else match split sep s' with
           | [] => [String c EmptyString]
           | w :: ws => String c w :: ws
           end
  end.

(** [s.split(sep, 1)] when [sep] occurs in [s]: the text before the first
    separator and the text after it. *)
Fixpoint split_once (sep : ascii) (s : string) : option (string * string) :=
  match s with
  | EmptyString => None
  | String c s' =>
      if Ascii.eqb c sep then Some (EmptyString, s')
      else match split_once sep s' with
           | Some (a, b) => Some (String c a, b)
           | None => None
           end
  end.

(** [s.replace(old, new)] for a non-empty [old]: occurrences are replaced
    from the left and do not overlap; [skip] counts the characters of the
    occurrence being replaced that are still to be passed over. *)
Fixpoint replace_from (old new : string) (skip : nat) (s : string) : string :=
  match s with
  | EmptyString => EmptyString
  | String c s' =>
      match skip with
      | S k => replace_from old new k s'
      | O =>
          if startswith s old
          then new +:+ replace_from old new (String.length old - 1) s'
          else String c (replace_from old new 0 s')
      end
  end.

Definition replace (old new s : string) : string := replace_from old new 0 s.

(** [sep.join(parts)] *)
Fixpoint join (sep : string) (parts : list string) : string :=
  match parts with
  | [] => EmptyString
  | [p] => p
  | p :: rest => p +:+ sep +:+ join sep rest
  end.

(** [str(n)] for an integer. *)
Definition of_Z (n : Z) : string := NilEmpty.string_of_int (Z.to_int n).

End PyStr.

(** ** JSON values and Python dictionaries *)

(** What [json.load] returns and [json.dump] accepts (numbers: integers). *)
Inductive json : Type :=
  | JNull
  | JBool (b : bool)
  | JInt (n : Z)
  | JStr (s : string)
  | JList (l : list json)
  | JDict (d : list (string * json)).

(** A [dict] with string keys keeps its keys in insertion order; assigning
    to a key that is present replaces the value where it stands. *)
Fixpoint dict_get {V : Type} (k : string) (d : list (string * V)) : option V :=
  match d with
  | [] => None
  | (k', v) :: d' => if String.eqb k' k then Some v else dict_get k d'
  end.

Fixpoint dict_set {V : Type} (k : string) (v : V) (d : list (string * V))
  : list (string * V) :=
  match d with
  | [] => [(k, v)]
  | (k', v') :: d' =>
      if String.eqb k' k then (k, v) :: d' else (k', v') :: dict_set k v d'
  end.

Definition dict_has {V : Type} (k : string) (d : list (string * V)) : bool :=
  match dict_get k d with Some _ => true | None => false end.

(** Python's truth value of an object. *)
Definition truthy (j : json) : bool :=
  match j with
  | JNull => false
  | JBool b => b
  | JInt n => negb (n =? 0)%Z
  | JStr s => negb (String.eqb s "")
  | JList l => match l with [] => false | _ => true end
  | JDict d => match d with [] => false | _ => true end
  end.

(** Truth value of an attribute that is [None] or a text. *)
Definition truthy_text (o : option string) : bool :=
  match o with
  | None => false
  | Some s => negb (String.eqb s "")
  end.

Module PyRepr.

Definition hex_digit (n : N) : ascii :=
  if (n <? 10)%N then Ascii.ascii_of_N (48 + n) else Ascii.ascii_of_N (87 + n).

Definition printable (n : N) : bool :=
  ((32 <=? n)%N && (n <? 127)%N) || ((161 <=? n)%N && negb (n =? 173)%N).

(** One character inside [repr] of a text delimited by [quote]. *)
Definition escape_char (quote : ascii) (c : ascii) : string :=
  let n := Ascii.N_of_ascii c in
  if Ascii.eqb c quote || (n =? 92)%N then String (Ascii.ascii_of_N 92) (String c "")
  else if (n =? 9)%N then "\t"
  else if (n =? 10)%N then "\n"
  else if (n =? 13)%N then "\r"
  else if printable n then String c ""
  else String (Ascii.ascii_of_N 92)
         (String "x" (String (hex_digit (n / 16)) (String (hex_digit (n mod 16)) ""))).

Fixpoint escape (quote : ascii) (s : string) : string :=
  match s with
  | EmptyString => EmptyString
  | String c s' => escape_char quote c +:+ escape quote s'
  end.

(** [repr(s)]: double quotes only when [s] has a single quote and no double
    quote. *)
Definition repr_str (s : string) : string :=
  let quote :=
    if PyStr.contains s "'" && negb (PyStr.contains s (String (Ascii.ascii_of_N 34) ""))
    then Ascii.ascii_of_N 34 else "'"%char in
  String quote (escape quote s +:+ String quote "").

Fixpoint repr (j : json) : string :=
  match j with
  | JNull => "None"
  | JBool true => "True"
  | JBool false => "False"
  | JInt n => PyStr.of_Z n
  | JStr s => repr_str s
  | JList l => "[" +:+ PyStr.join ", " (map repr l) +:+ "]"
  | JDict d =>
      "{" +:+ PyStr.join ", " (map (fun kv : string * json =>
                                   let (k, v) := kv in repr_str k +:+ ": " +:+ repr v) d)
          +:+ "}"
  end.

(** The text an f-string puts for [{value}]: [str(value)]. *)
Definition str (j : json) : string :=
  match j with
  | JStr s => s
  | _ => repr j
  end.

End PyRepr.

(** ** Prompts, external calls and the state of a guide *)

(** The templates of the source with their named inputs; [preferences] and
    [venues] stand for the [json.dumps] text of the value. *)
Inductive prompt : Type :=
  | ClassificationPrompt (query : string)
  | InitialPrompt (context question category intent key_terms : string)
                  (preferences : json)
  | FollowUpPrompt (context previous_response question category intent : string)
                   (preferences : json)
  | ExtractionPrompt (context : string)
  | SummaryPrompt (venues : json)
  | DayPlanPrompt (venues : json).

Inductive event : Type :=
  | Invoked (p : prompt)
  | Searched (query : string) (k : nat)
  | ClockRead.

(** [model.invoke], [db.similarity_search_with_relevance_scores] and
    [datetime.now().isoformat()]. *)
Record Services : Type := {
  complete : list event -> prompt -> option string;
  search : list event -> string -> nat -> option (list (string * float));
  now : list event -> string
}.

(** A store file as the two loads see it: [Missing] makes [open] raise
    [FileNotFoundError], [Corrupt] makes [json.load] raise
    [JSONDecodeError], [Doc j] is parsed to [j]. *)
Inductive file : Type :=
  | Missing
  | Corrupt
  | Doc (j : json).

(** The attributes of an [NYCGuide], the two store files and the history of
    external calls. [plan] is always a [dict]: [__init__] and [load_plan]
    assign nothing else. *)
Record state : Type := mkState {
  last_response : option string;
  last_context : option string;
  last_classification : option (gmap string string);
  plan : list (string * json);
  preferences : json;
  preferences_file : file;
  plan_file : file;
  trace : list event
}.

Definition set_last_response (x : option string) (st : state) : state :=
  mkState x (last_context st) (last_classification st) (plan st)
          (preferences st) (preferences_file st) (plan_file st) (trace st).
Definition set_last_context (x : option string) (st : state) : state :=
  mkState (last_response st) x (last_classification st) (plan st)
          (preferences st) (preferences_file st) (plan_file st) (trace st).
Definition set_last_classification (x : option (gmap string string)) (st : state)
  : state :=
  mkState (last_response st) (last_context st) x (plan st)
          (preferences st) (preferences_file st) (plan_file st) (trace st).
Definition set_plan (x : list (string * json)) (st : state) : state :=
  mkState (last_response st) (last_context st) (last_classification st) x
          (preferences st) (preferences_file st) (plan_file st) (trace st).
Definition set_preferences (x : json) (st : state) : state :=
  mkState (last_response st) (last_context st) (last_classification st) (plan st)
          x (preferences_file st) (plan_file st) (trace st).
Definition set_preferences_file (x : file) (st : state) : state :=
  mkState (last_response st) (last_context st) (last_classification st) (plan st)
          (preferences st) x (plan_file st) (trace st).
Definition set_plan_file (x : file) (st : state) : state :=
  mkState (last_response st) (last_context st) (last_classification st) (plan st)
          (preferences st) (preferences_file st) x (trace st).
Definition log (e : event) (st : state) : state :=
  mkState (last_response st) (last_context st) (last_classification st) (plan st)
          (preferences st) (preferences_file st) (plan_file st) (trace st ++ [e]).

(** ** Computations that may raise *)

Inductive exn : Type := ServiceError | KeyError | TypeError | AttributeError.

Inductive res (A : Type) : Type :=
  | Ok (a : A)
  | Raised (e : exn).
Arguments Ok {A} a.
Arguments Raised {A} e.

Definition M (A : Type) : Type := state -> res A * state.

Definition ret {A : Type} (a : A) : M A := fun st => (Ok a, st).

Definition bind {A B : Type} (m : M A) (k : A -> M B) : M B :=
  fun st =>
    match m st with
    | (Ok a, st') => k a st'
    | (Raised e, st') => (Raised e, st')
    end.

(** A pure step that may raise. *)
Definition lift {A : Type} (r : res A) : M A := fun st => (r, st).

Definition gets {A : Type} (f : state -> A) : M A := fun st => (Ok (f st), st).

Definition modify (f : state -> state) : M unit := fun st => (Ok tt, f st).

(** [try: m except Exception: handler] *)
Definition catch {A : Type} (m : M A) (handler : M A) : M A :=
  fun st =>
    match m st with
    | (Ok a, st') => (Ok a, st')
    | (Raised _, st') => handler st'
    end.

Declare Scope guide_scope.
Delimit Scope guide_scope with guide.
Notation "'let*' x ':=' m 'in' k" := (bind m (fun x => k))
  (at level 10, x name, m at level 100, k at level 200) : guide_scope.
Notation "m ';;;' k" := (bind m (fun _ => k))
  (at level 100, k at level 200, right associativity) : guide_scope.
Local Open Scope guide_scope.

Fixpoint mapM {A B : Type} (f : A -> res B) (l : list A) : res (list B) :=
  match l with
  | [] => Ok []
  | a :: l' =>
      match f a with
      | Raised e => Raised e
      | Ok b => match mapM f l' with
                | Raised e => Raised e
                | Ok bs => Ok (b :: bs)
                end
      end
  end.

(** ** Constants of the source *)

Definition default_preferences : json := JDict [("cuisine", JNull)].
Definition default_plan : list (string * json) := [("venues", JList [])].

Definition plan_add_phrases : list string :=
  ["add to plan"; "add it to"; "save this"; "adding it"].

Definition no_venue_message : string :=
  "No venue to add to plan. Please ask about a place first.".
Definition sorry_add_message : string :=
  "Sorry, I couldn't add this place to your plan. Please try asking about the venue again.".
Definition empty_plan_message : string :=
  "Your NYC plan is empty! Ask me about places you'd like to visit.".
Definition no_saved_venues_message : string := "No venues saved in your plan!".
Definition sorry_day_plan_message : string :=
  "Sorry, I couldn't generate a day plan with your saved venues.".
Definition no_match_message : string :=
  "I couldn't find any matching venues for that request. Could you try rephrasing or being more specific?".
Definition no_previous_message : string :=
  "I don't have any previous recommendations to reference. Please ask about a specific place first.".
Definition context_separator : string :=
  String PyStr.newline (String PyStr.newline
    ("---" +:+ String PyStr.newline (String PyStr.newline ""))).
Definition recommendation_categories : list string :=
  ["Food and Dining"; "Recommendations"].
Definition follow_up_categories : list string :=
  ["Location/Navigation"; "Price/Budget Inquiry"; "Details/Information"].
Definition relevance_floor : float := 0.7%float.

(** [x in categories] *)
Definition in_list (x : string) (l : list string) : bool :=
  existsb (String.eqb x) l.

(** ** The methods of [NYCGuide] *)

Section Guide.

Variable srv : Services.

(** [self.model.invoke(prompt).content] *)
Definition invoke (p : prompt) : M string :=
  fun st =>
    match complete srv (trace st) p with
    | Some content => (Ok content, log (Invoked p) st)
    | None => (Raised ServiceError, log (Invoked p) st)
    end.

(** [self.db.similarity_search_with_relevance_scores(query, k=k)], each
    document reduced to its [page_content]. *)
Definition similarity_search (query : string) (k : nat)
  : M (list (string * float)) :=
  fun st =>
    match search srv (trace st) query k with
    | Some results => (Ok results, log (Searched query k) st)
    | None => (Raised ServiceError, log (Searched query k) st)
    end.

(** [datetime.now().isoformat()] *)
Definition clock : M string :=
  fun st => (Ok (now srv (trace st)), log ClockRead st).

(** [save_preferences] (lines 159-161): [json.dump(self.preferences, f)]. *)
Definition save_preferences : M unit :=
  modify (fun st => set_preferences_file (Doc (preferences st)) st).

(** [load_preferences] (lines 151-157): any JSON document is taken as it
    is; [FileNotFoundError] and [JSONDecodeError] give the default, saved. *)
Definition load_preferences : M unit :=
  fun st =>
    match preferences_file st with
    | Doc j => (Ok tt, set_preferences j st)
    | Missing | Corrupt =>
        (modify (set_preferences default_preferences) ;;; save_preferences) st
    end.

(** [save_plan] (lines 175-177). *)
Definition save_plan : M unit :=
  modify (fun st => set_plan_file (Doc (JDict (plan st))) st).

(** [load_plan] (lines 163-173): only the [except] branch saves. *)
Definition load_plan : M unit :=
  fun st =>
    match plan_file st with
    | Doc loaded_plan =>
        match loaded_plan with
        | JDict d =>
            if dict_has "venues" d then (Ok tt, set_plan d st)
            else (Ok tt, set_plan default_plan st)
        | _ => (Ok tt, set_plan default_plan st)
        end
    | Missing | Corrupt => (modify (set_plan default_plan) ;;; save_plan) st
    end.

(** [NYCGuide()] (lines 140-149) on the store files and the history [tr].
    [self.preferences] does not exist before [load_preferences] assigns it;
    [JNull] stands for it until then. *)
Definition NYCGuide_init (prefs plans : file) (tr : list event) : state :=
  let st0 := mkState None None None default_plan JNull prefs plans tr in
  snd ((load_preferences ;;; load_plan) st0).

(** [self.preferences[preference_type] = value] *)
Definition setitem (k : string) (v : json) (target : json) : res json :=
  match target with
  | JDict d => Ok (JDict (dict_set k v d))
  | _ => Raised TypeError
  end.

(** [self.preferences[key]] *)
Definition getitem (k : string) (target : json) : res json :=
  match target with
  | JDict d => match dict_get k d with
               | Some v => Ok v
               | None => Raised KeyError
               end
  | _ => Raised TypeError
  end.

(** [update_preference] (lines 179-181). *)
Definition update_preference (preference_type : string) (value : json) : M unit :=
  let* prefs := gets preferences in
  let* updated := lift (setitem preference_type value prefs) in
  modify (set_preferences updated) ;;;
  save_preferences.

(** One line of the extraction answer: [key, value = line.split(':', 1)]. *)
Definition extract_line (info : list (string * string)) (line : string)
  : list (string * string) :=
  if PyStr.contains line ":" then
    match PyStr.split_once ":" line with
    | Some (key, value) =>
        dict_set (PyStr.lower (PyStr.strip key)) (PyStr.strip value) info
    | None => info
    end
  else info.

Definition parse_venue_info (content : string) : list (string * string) :=
  fold_left extract_line (PyStr.split PyStr.newline content) [].

(** [extract_venue_info] (lines 183-208). *)
Definition extract_venue_info (context : string) : M (list (string * string)) :=
  let* content := invoke (ExtractionPrompt context) in
  ret (parse_venue_info content).

(** [for v in x]: a list gives its items, a text its characters, a dict its
    keys; nothing else can be iterated. *)
Definition iterate (x : json) : res (list json) :=
  match x with
  | JList l => Ok l
  | JStr s => Ok (map (fun c => JStr (String c "")) (list_ascii_of_string s))
  | JDict d => Ok (map (fun kv : string * json => JStr (fst kv)) d)
  | _ => Raised TypeError
  end.

(** [v.get('name', '').lower()] *)
Definition entry_name_lower (v : json) : res string :=
  match v with
  | JDict d =>
      match dict_get "name" d with
      | None => Ok (PyStr.lower "")
      | Some (JStr s) => Ok (PyStr.lower s)
      | Some _ => Raised AttributeError
      end
  | _ => Raised AttributeError
  end.

(** [any(v.get('name', '').lower() == target for v in venues)]: stops at
    the first equal name, raises at the first entry it cannot read. *)
Fixpoint any_same_name (target : string) (venues : list json) : res bool :=
  match venues with
  | [] => Ok false
  | v :: rest =>
      match entry_name_lower v with
      | Raised e => Raised e
      | Ok name => if String.eqb name target then Ok true
                   else any_same_name target rest
      end
  end.

(** [self.plan.get('venues', [])] *)
Definition plan_venues (st : state) : json :=
  default (JList []) (dict_get "venues" (plan st)).

(** [self.plan['venues'].append(venue_entry)] *)
Definition append_venue (venue_entry : json) : M unit :=
  fun st =>
    match dict_get "venues" (plan st) with
    | Some (JList l) =>
        (Ok tt, set_plan (dict_set "venues" (JList (l ++ [venue_entry])) (plan st)) st)
    | Some _ => (Raised AttributeError, st)
    | None => (Raised KeyError, st)
    end.

(** [if 'venues' not in self.plan: self.plan['venues'] = []] *)
Definition ensure_venues : M unit :=
  fun st =>
    if dict_has "venues" (plan st) then (Ok tt, st)
    else (Ok tt, set_plan (dict_set "venues" (JList []) (plan st)) st).

(** [{**venue_info, 'added_at': ..., 'context': ...}] *)
Definition venue_entry_of (venue_info : list (string * string))
    (added_at context : string) : json :=
  JDict (map (fun kv : string * string => (fst kv, JStr (snd kv)))
             (dict_set "context" context (dict_set "added_at" added_at venue_info))).

(** The body of the [try] of [add_to_plan] (lines 215-233). *)
Definition add_to_plan_try (context : string) : M string :=
  let* venue_info := extract_venue_info context in
  let* venues := gets plan_venues in
  let* items := lift (iterate venues) in
  let* known :=
    lift (any_same_name
            (PyStr.lower (default "" (dict_get "name" venue_info))) items) in
  if known then
    ret (default "This venue" (dict_get "name" venue_info) +:+ " is already in your plan!")
  else
    let* added_at := clock in
    let venue_entry := venue_entry_of venue_info added_at context in
    ensure_venues ;;;
    append_venue venue_entry ;;;
    save_plan ;;;
    ret ("Added " +:+ default "the venue" (dict_get "name" venue_info)
           +:+ " to your NYC plan!").

(** [add_to_plan] (lines 210-237): whatever the [try] raises becomes the
    apology; the printed diagnostic is not modelled. *)
Definition add_to_plan : M string :=
  fun st =>
    if negb (truthy_text (last_context st)) then (Ok no_venue_message, st)
    else catch (add_to_plan_try (default "" (last_context st)))
               (ret sorry_add_message) st.

(** The four fields of a venue sent to the summary and day-plan prompts. *)
Definition project_venue (venue : json) : res json :=
  match venue with
  | JDict d =>
      Ok (JDict
            [("name", default (JStr "Unknown Venue") (dict_get "name" d));
             ("type", default (JStr "Unknown Type") (dict_get "type" d));
             ("location", default (JStr "Location not specified") (dict_get "location" d));
             ("budget", default (JStr "Budget not specified") (dict_get "budget" d))])
  | _ => Raised AttributeError
  end.

(** [len(x)] *)
Definition py_len (x : json) : res nat :=
  match x with
  | JList l => Ok (length l)
  | JStr s => Ok (String.length s)
  | JDict d => Ok (length d)
  | _ => Raised TypeError
  end.

(** [get_plan_summary] (lines 239-269): the projection runs outside the
    [try], the completion inside it. *)
Definition get_plan_summary : M string :=
  let* venues := gets plan_venues in
  if negb (truthy venues) then ret empty_plan_message
  else
    let* items := lift (iterate venues) in
    let* venues_for_summary := lift (mapM project_venue items) in
    catch (invoke (SummaryPrompt (JList venues_for_summary)))
          (let* venues := gets plan_venues in
           let* n := lift (py_len venues) in
           ret ("Sorry, I couldn't generate your plan summary. You have "
                  +:+ PyStr.of_Z (Z.of_nat n) +:+ " venues saved.")).

(** The banner, with the first characters as the source file has them. *)
Definition day_plan_banner : string :=
  String PyStr.newline
    ("ðŸ—½ Here's a suggested day plan with your saved places:"
       +:+ String PyStr.newline (String PyStr.newline "")).

(** [generate_day_plan] (lines 271-295). *)
Definition generate_day_plan : M string :=
  let* venues := gets plan_venues in
  if negb (truthy venues) then ret no_saved_venues_message
  else
    let* items := lift (iterate venues) in
    let* venues_for_planning := lift (mapM project_venue items) in
    catch (let* content := invoke (DayPlanPrompt (JList venues_for_planning)) in
           ret (day_plan_banner +:+ content))
          (ret sorry_day_plan_message).

(** *** Classification *)

Definition default_classification : gmap string string :=
  <["category" := ""]>
    (<["intent" := ""]>
      (<["key_terms" := ""]>
        (<["is_preference" := "no"]>
          (<["preference_type" := "none"]>
            (<["preference_value" := "none"]>
              (<["is_generic_food_question" := "none"]> ∅)))))).

(** [line.replace(label, '').strip()] *)
Definition value_after (label line : string) : string :=
  PyStr.strip (PyStr.replace label "" line).

(** The [if]/[elif] chain of [classify_query] (lines 313-327). *)
Definition classify_line (classification : gmap string string) (line : string)
  : gmap string string :=
  if PyStr.startswith line "Category:" then
    <["category" := value_after "Category:" line]> classification
  else if PyStr.startswith line "Intent:" then
    <["intent" := value_after "Intent:" line]> classification
  else if PyStr.startswith line "Key Terms:" then
    <["key_terms" := value_after "Key Terms:" line]> classification
  else if PyStr.startswith line "Is Preference:" then
    <["is_preference" := PyStr.lower (value_after "Is Preference:" line)]> classification
  else if PyStr.startswith line "Preference Type:" then
    <["preference_type" := PyStr.lower (value_after "Preference Type:" line)]> classification
  else if PyStr.startswith line "Preference Value:" then
    <["preference_value" := PyStr.lower (value_after "Preference Value:" line)]> classification
  else if PyStr.startswith line "Is Generic Food Question:" then
    <["is_generic_food_question" :=
        PyStr.lower (value_after "Is Generic Food Question:" line)]> classification
  else classification.

Definition parse_classification (content : string) : gmap string string :=
  fold_left classify_line (PyStr.split PyStr.newline (PyStr.strip content))
            default_classification.

(** [classify_query] (lines 297-329). *)
Definition classify_query (query : string) : M (gmap string string) :=
  let* content := invoke (ClassificationPrompt query) in
  ret (parse_classification content).

(** [classification[key]]; every key read below is set by
    [default_classification]. *)
Definition field (classification : gmap string string) (key : string) : string :=
  default "" (classification !! key).

(** *** Recommendations and follow-ups *)

(** [any(phrase in query.lower() for phrase in [...])] *)
Definition has_plan_phrase (query : string) : bool :=
  existsb (fun phrase => PyStr.contains (PyStr.lower query) phrase) plan_add_phrases.

Definition is_cuisine_preference (classification : gmap string string) : bool :=
  String.eqb (field classification "is_preference") "yes"
  && String.eqb (field classification "preference_type") "cuisine".

(** The query sent to retrieval; [and] reads [self.preferences['cuisine']]
    only for a category of the list, and the flag only for a true cuisine. *)
Definition enhance_query (query : string) (classification : gmap string string)
    (prefs : json) : res string :=
  if in_list (field classification "category") recommendation_categories then
    match getitem "cuisine" prefs with
    | Raised e => Raised e
    | Ok cuisine =>
        if truthy cuisine
           && String.eqb (field classification "is_generic_food_question") "yes"
        then Ok (query +:+ " " +:+ PyRepr.str cuisine +:+ " restaurant")
        else Ok query
    end
  else Ok query.

(** [len(results) == 0 or results[0][1] < 0.7] *)
Definition no_usable_match (results : list (string * float)) : bool :=
  match results with
  | [] => true
  | (_, score) :: _ => PrimFloat.ltb score relevance_floor
  end.

Definition preferences_to_pass (classification : gmap string string) (prefs : json)
  : json :=
  if in_list (field classification "category") recommendation_categories
     && String.eqb (field classification "is_generic_food_question") "yes"
  then prefs else JDict [("cuisine", JNull)].

(** [get_recommendations] (lines 331-367). *)
Definition get_recommendations (query : string) : M string :=
  if has_plan_phrase query then add_to_plan
  else
    let* classification := classify_query query in
    modify (set_last_classification (Some classification)) ;;;
    if is_cuisine_preference classification then
      update_preference "cuisine" (JStr (field classification "preference_value")) ;;;
      ret ("I've noted that you like " +:+ field classification "preference_value"
             +:+ " food. I'll remember this for future recommendations!")
    else
      let* prefs := gets preferences in
      let* enhanced_query := lift (enhance_query query classification prefs) in
      let* results := similarity_search enhanced_query 4 in
      if no_usable_match results then ret no_match_message
      else
        let context := PyStr.join context_separator (map fst results) in
        modify (set_last_context (Some context)) ;;;
        let* response :=
          invoke (InitialPrompt context query
                    (field classification "category")
                    (field classification "intent")
                    (field classification "key_terms")
                    (preferences_to_pass classification prefs)) in
        modify (set_last_response (Some response)) ;;;
        ret response.

(** [handle_follow_up] (lines 369-389); past the test both attributes are
    texts, so the defaults of [default] are never used. *)
Definition handle_follow_up (question : string) : M string :=
  if has_plan_phrase question then add_to_plan
  else
    let* previous_response := gets last_response in
    let* context := gets last_context in
    if negb (truthy_text previous_response) || negb (truthy_text context)
    then ret no_previous_message
    else
      let* classification := classify_query question in
      let* prefs := gets preferences in
      invoke (FollowUpPrompt (default "" context) (default "" previous_response)
                question
                (field classification "category")
                (field classification "intent")
                prefs).

(** [is_follow_up_question] (lines 391-397). *)
Definition is_follow_up_question (question : string) : M bool :=
  if has_plan_phrase question then ret true
  else
    let* classification := classify_query question in
    let* previous_response := gets last_response in
    ret (in_list (field classification "category") follow_up_categories
         && match previous_response with Some _ => true | None => false end).

(** *** One iteration of the loop of [main] *)

Inductive turn : Type :=
  | Stop (printed : list string)
  | Next (printed : list string).

Definition exit_words : list string := ["quit"; "exit"; "bye"; "done"].

Definition farewell : string :=
  String PyStr.newline
    "Thanks for exploring NYC! I'll remember your preferences and plan for next time! ðŸ‘‹".

Definition answer_line (response : string) : string :=
  String PyStr.newline ("NYC Guide: " +:+ response +:+ String PyStr.newline "").

(** The body of [while True] (lines 413-435) for the text that [input]
    returned; the result lists what the iteration prints. *)
Definition main_turn (line : string) : M turn :=
  let user_input := PyStr.lower (PyStr.strip line) in
  if in_list user_input exit_words then
    let* venues := gets plan_venues in
    if truthy venues then
      let* summary := get_plan_summary in
      let* day_plan := generate_day_plan in
      ret (Stop [String PyStr.newline "Here's your final NYC plan:"; summary;
                 String PyStr.newline
                   "Let me organize these places into a day plan for you...";
                 day_plan; farewell])
    else ret (Stop [farewell])
  else if String.eqb user_input "show plan" then
    let* summary := get_plan_summary in
    ret (Next [answer_line summary])
  else
    let* response :=
      (if String.eqb user_input "add to plan" then add_to_plan
       else
         let* follow_up := is_follow_up_question user_input in
         if follow_up then handle_follow_up user_input
         else get_recommendations user_input) in
    ret (Next [answer_line response]).

End Guide.

(** ** Vocabulary of the properties *)

(** [q] contains [phrase] up to the case of its letters. *)
Definition mentions (q phrase : string) : Prop :=
  exists pre mid post : string,
    q = pre +:+ mid +:+ post /\ PyStr.lower mid = PyStr.lower phrase.

(** [q] is one of the utterances that ask to save the last venue. *)
Definition plan_add_utterance (q : string) : Prop :=
  exists phrase : string, In phrase plan_add_phrases /\ mentions q phrase.

(** The venues of a plan are a list of records with a text (or no) name,
    and no two of them have the same name up to the case of its letters. *)
Definition distinct_names (p : list (string * json)) : Prop :=
  exists venues : list json,
    dict_get "venues" p = Some (JList venues) /\
    forall (i j : nat) (v w : json),
      venues !! i = Some v -> venues !! j = Some w -> i <> j ->
      exists n m : string,
        entry_name_lower v = Ok n /\ entry_name_lower w = Ok m /\ n <> m.

(** The same, with the lowered names listed. *)
Definition plan_ok (p : list (string * json)) : Prop :=
  exists (venues : list json) (names : list string),
    dict_get "venues" p = Some (JList venues) /\
    mapM entry_name_lower venues = Ok names /\ NoDup names.

(** A plan file that [load_plan] accepts holds a plan with distinct names:
    true of an absent file and of every file [save_plan] wrote. *)
Definition plan_file_ok (f : file) : Prop :=
  match f with
  | Doc (JDict d) => dict_has "venues" d = true -> plan_ok d
  | _ => True
  end.

(** The last value given to [key] in a sequence of updates. *)
Fixpoint last_update (key : string) (updates : list (string * json)) : option json :=
  match updates with
  | [] => None
  | (k, v) :: rest =>
      match last_update key rest with
      | Some v' => Some v'
      | None => if String.eqb k key then Some v else None
      end
  end.

(** The query a turn's external call carries, when it carries one, is the
    text [u] or [u] with a cuisine appended. *)
Definition carries (u : string) (e : event) : Prop :=
  match e with
  | Invoked (ClassificationPrompt q) => q = u
  | Invoked (InitialPrompt _ q _ _ _ _) => q = u
  | Invoked (FollowUpPrompt _ _ q _ _ _) => q = u
  | Searched q _ => q = u \/ exists cuisine : string, q = u +:+ " " +:+ cuisine +:+ " restaurant"
  | _ => True
  end.

Definition is_classification (e : event) : Prop :=
  match e with
  | Invoked (ClassificationPrompt _) => True
  | _ => False
  end.

(** The fields of a classification: key, label in the answer, default and
    the normalisation applied to a parsed value. *)
Definition classification_fields : list (string * string * string * (string -> string)) :=
  [("category", "Category:", "", id);
   ("intent", "Intent:", "", id);
   ("key_terms", "Key Terms:", "", id);
   ("is_preference", "Is Preference:", "no", PyStr.lower);
   ("preference_type", "Preference Type:", "none", PyStr.lower);
   ("preference_value", "Preference Value:", "none", PyStr.lower);
   ("is_generic_food_question", "Is Generic Food Question:", "none", PyStr.lower)].

Section Reachability.

Variable srv : Services.

Inductive call : Type :=
  | CallAddToPlan
  | CallGetRecommendations (query : string)
  | CallHandleFollowUp (question : string)
  | CallIsFollowUpQuestion (question : string)
  | CallClassifyQuery (query : string)
  | CallExtractVenueInfo (context : string)
  | CallGetPlanSummary
  | CallGenerateDayPlan
  | CallUpdatePreference (preference_type : string) (value : json)
  | CallLoadPreferences
  | CallSavePreferences
  | CallLoadPlan
  | CallSavePlan
  | CallMainTurn (line : string)
  | CallRestart.

(** The state after a call, whether it returned or raised. *)
Definition run (c : call) (st : state) : state :=
  match c with
  | CallAddToPlan => snd (add_to_plan srv st)
  | CallGetRecommendations q => snd (get_recommendations srv q st)
  | CallHandleFollowUp q => snd (handle_follow_up srv q st)
  | CallIsFollowUpQuestion q => snd (is_follow_up_question srv q st)
  | CallClassifyQuery q => snd (classify_query srv q st)
  | CallExtractVenueInfo c => snd (extract_venue_info srv c st)
  | CallGetPlanSummary => snd (get_plan_summary srv st)
  | CallGenerateDayPlan => snd (generate_day_plan srv st)
  | CallUpdatePreference t v => snd (update_preference t v st)
  | CallLoadPreferences => snd (load_preferences st)
  | CallSavePreferences => snd (save_preferences st)
  | CallLoadPlan => snd (load_plan st)
  | CallSavePlan => snd (save_plan st)
  | CallMainTurn line => snd (main_turn srv line st)
  | CallRestart => NYCGuide_init (preferences_file st) (plan_file st) (trace st)
  end.

(** The states of a guide created on a sound plan file, after any calls of
    its methods, turns of the loop and restarts on the files as they are. *)
Inductive reachable : state -> Prop :=
  | reach_start (prefs plans : file) (tr : list event) :
      plan_file_ok plans -> reachable (NYCGuide_init prefs plans tr)
  | reach_call (c : call) (st : state) :
      reachable st -> reachable (run c st).

Fixpoint run_updates (updates : list (string * json)) : M unit :=
  match updates with
  | [] => ret tt
  | (preference_type, value) :: rest =>
      update_preference preference_type value ;;; run_updates rest
  end.

End Reachability.

(** A store file on which a load takes its [except] branch: [open] raises
    [FileNotFoundError] or [json.load] raises [JSONDecodeError]. *)
Definition unreadable (f : file) : Prop := f = Missing \/ f = Corrupt.

(** A plan file that is JSON but not an object with a "venues" key. *)
Definition misshapen_plan (f : file) : Prop :=
  exists j : json,
    f = Doc j /\ forall d, j = JDict d -> dict_has "venues" d = false.

(** ** Frames: what a computation leaves as it is *)

(** [m] takes every state to one related to it by [R], whether it returns
    or raises. *)
Definition keeps {A : Type} (R : state -> state -> Prop) (m : M A) : Prop :=
  forall st : state, R st (snd (m st)).

Definition same_session (st st' : state) : Prop :=
  last_response st' = last_response st /\
  last_context st' = last_context st /\
  last_classification st' = last_classification st.

Definition same_answer_memory (st st' : state) : Prop :=
  last_response st' = last_response st /\ last_context st' = last_context st.

Definition same_plan (st st' : state) : Prop :=
  plan st' = plan st /\ plan_file st' = plan_file st.

(** The external calls made between two states all satisfy [E]. *)
Definition calls_only (E : event -> Prop) (st st' : state) : Prop :=
  exists evs : list event, trace st' = trace st ++ evs /\ Forall E evs.

Definition sound_plan (st : state) : Prop :=
  plan_ok (plan st) /\ plan_file_ok (plan_file st).

Definition keeps_sound_plan (st st' : state) : Prop :=
  sound_plan st -> sound_plan st'.

(** The calls of the plan commands: extraction, clock, summary, day plan. *)
Definition is_plan_event (e : event) : Prop :=
  match e with
  | Invoked (ExtractionPrompt _) | Invoked (SummaryPrompt _)
  | Invoked (DayPlanPrompt _) | ClockRead => True
  | _ => False
  end.

(** The calls that carry the user's text [u]. *)
Definition is_query_event (u : string) (e : event) : Prop :=
  match e with
  | Invoked (ClassificationPrompt q) => q = u
  | Invoked (InitialPrompt _ q _ _ _ _) => q = u
  | Invoked (FollowUpPrompt _ _ q _ _ _) => q = u
  | Searched q k =>
      k = 4 /\
      (q = u \/ exists cuisine : string, q = u +:+ " " +:+ cuisine +:+ " restaurant")
  | _ => False
  end.

(** [add_to_plan] consults the extraction prompt on [last_context] and the
    clock, and nothing else. *)
Definition add_to_plan_event (st : state) (e : event) : Prop :=
  e = ClockRead \/
  exists context : string,
    last_context st = Some context /\ e = Invoked (ExtractionPrompt context).

(** ** Services with fixed answers, for examples *)

Definition fixed_services (classification extraction answer : option string)
    (results : option (list (string * float))) (stamp : string) : Services :=
  {| complete := fun _ p =>
       match p with
       | ClassificationPrompt _ => classification
       | ExtractionPrompt _ => extraction
       | _ => answer
       end;
     search := fun _ _ _ => results;
     now := fun _ => stamp |}.

Definition lines (l : list string) : string :=
  PyStr.join (String PyStr.newline "") l.

(** A guide started with no store files. *)
Definition fresh_guide : state := NYCGuide_init Missing Missing [].

(** A guide that has given the recommendation [response] on [context]. *)
Definition advised_guide (context response : string) : state :=
  set_last_response (Some response) (set_last_context (Some context) fresh_guide).

(** Services that answer the n-th external call of a history with the
    n-th completion of a script, whatever the prompt. *)
Definition scripted_services (script : list (option string))
    (results : option (list (string * float))) (stamp : string) : Services :=
  {| complete := fun tr _ => nth (length tr) script None;
     search := fun _ _ _ => results;
     now := fun _ => stamp |}.

(** A guide that recommended Joe's Pizza and saved it to the plan. *)
Definition pizza_services : Services :=
  fixed_services (Some "Category: Food and Dining") (Some "Name: Joe's Pizza")
                 (Some "Try Joe's Pizza") (Some [("Joe's Pizza, Soho", 0.9%float)])
                 "2024-05-01T12:00:00".

Definition planned_guide : state :=
  run pizza_services CallAddToPlan
    (run pizza_services (CallGetRecommendations "where to eat?") fresh_guide).

(** ** Vocabulary of the further properties *)

(** What one line of the extraction answer contributes: the normalised key
    and the stripped value, split at the first colon. *)
Definition line_entry (line : string) : option (string * string) :=
  match PyStr.split_once ":" line with
  | Some (key, value) => Some (PyStr.lower (PyStr.strip key), PyStr.strip value)
  | None => None
  end.

(** The preference file holds the preferences in memory. *)
Definition preferences_synced (st : state) : Prop :=
  preferences_file st = Doc (preferences st).

(** The plan file holds the plan in memory, which has its "venues" key. *)
Definition plan_synced (st : state) : Prop :=
  plan_file st = Doc (JDict (plan st)) /\ dict_has "venues" (plan st) = true.

Definition keeps_preferences_synced (st st' : state) : Prop :=
  preferences_synced st -> preferences_synced st'.

Definition keeps_plan_synced (st st' : state) : Prop :=
  plan_synced st -> plan_synced st'.

Definition same_preferences (st st' : state) : Prop :=
  preferences st' = preferences st /\ preferences_file st' = preferences_file st.

(** The fields of a classification that [classify_query] puts in lower
    case. *)
Definition lowered_fields : list string :=
  ["is_preference"; "preference_type"; "preference_value"; "is_generic_food_question"].

(** Every venue is a record: what the summary and day-plan projections
    can read. *)
Definition all_records (venues : list json) : Prop :=
  Forall (fun v => exists d : list (string * json), v = JDict d) venues.

(** * Properties *)

(** ** The model on small inputs *)

Example lower_mixed : PyStr.lower "Add It To my PLAN" = "add it to my plan".
Proof. reflexivity. Qed.

Example strip_both : PyStr.strip "  Show Plan  " = "Show Plan".
Proof. reflexivity. Qed.

Example replace_all :
  PyStr.replace "Category:" "" "Category: a Category: b" = " a  b".
Proof. reflexivity. Qed.

Example split_lines_ex :
  PyStr.split PyStr.newline (String "a" (String PyStr.newline "b")) = ["a"; "b"].
Proof. reflexivity. Qed.

Example of_Z_ex : PyStr.of_Z 12 = "12" /\ PyStr.of_Z (-3) = "-3" /\ PyStr.of_Z 0 = "0".
Proof. repeat split; reflexivity. Qed.

Example repr_nested :
  PyRepr.str (JList [JStr "thai"; JNull; JDict [("a", JInt 1)]])
  = "['thai', None, {'a': 1}]".
Proof. reflexivity. Qed.

Example repr_quotes : PyRepr.repr (JStr "joe's") = String (Ascii.ascii_of_N 34) ("joe's" +:+ String (Ascii.ascii_of_N 34) "").
Proof. reflexivity. Qed.

(** A preference statement is stored and acknowledged. *)
Example preference_statement_is_learned :
  let srv := fixed_services
               (Some (lines ["Category: Food and Dining"; "Is Preference: Yes";
                             "Preference Type: Cuisine"; "Preference Value: Mexican"]))
               None None None "t" in
  let r := get_recommendations srv "i like mexican food" fresh_guide in
  fst r = Ok "I've noted that you like mexican food. I'll remember this for future recommendations!" /\
  preferences (snd r) = JDict [("cuisine", JStr "mexican")] /\
  preferences_file (snd r) = Doc (JDict [("cuisine", JStr "mexican")]) /\
  trace (snd r) = [Invoked (ClassificationPrompt "i like mexican food")].
Proof. cbv zeta. repeat split. Qed.

(** Saving with no previous recommendation: nothing is asked, nothing is
    written. *)
Example add_without_context :
  add_to_plan pizza_services fresh_guide = (Ok no_venue_message, fresh_guide).
Proof. reflexivity. Qed.

(** A recommendation, then "add it to my plan" through the loop. *)
Example recommendation_then_add :
  plan planned_guide
  = [("venues",
      JList [JDict [("name", JStr "Joe's Pizza");
                    ("added_at", JStr "2024-05-01T12:00:00");
                    ("context", JStr "Joe's Pizza, Soho")]])] /\
  plan_file planned_guide = Doc (JDict (plan planned_guide)) /\
  fst (main_turn pizza_services "  Add It To my plan"
         (run pizza_services (CallGetRecommendations "where to eat?") fresh_guide))
  = Ok (Next [answer_line "Added Joe's Pizza to your NYC plan!"]).
Proof. repeat split. Qed.

(** The day plan starts with the banner; the prompt gets the four projected
    fields of each venue. *)
Example day_plan_of_one_venue :
  fst (generate_day_plan pizza_services planned_guide)
  = Ok (day_plan_banner +:+ "Try Joe's Pizza") /\
  last (trace (snd (generate_day_plan pizza_services planned_guide)))
  = Some (Invoked (DayPlanPrompt
                     (JList [JDict [("name", JStr "Joe's Pizza");
                                    ("type", JStr "Unknown Type");
                                    ("location", JStr "Location not specified");
                                    ("budget", JStr "Budget not specified")]]))).
Proof. split; reflexivity. Qed.

(** A score is compared as a binary64 number: NaN is not below the floor. *)
Example relevance_floor_cases :
  no_usable_match [] = true /\
  no_usable_match [("a", 0.69%float)] = true /\
  no_usable_match [("a", 0.7%float)] = false /\
  no_usable_match [("a", nan)] = false.
Proof. repeat split. Qed.

(** A plan whose venues are not a list makes [add_to_plan] apologise. *)
Example add_to_unreadable_plan :
  fst (add_to_plan pizza_services
         (set_plan [("venues", JInt 5)] (advised_guide "Joe's Pizza, Soho" "Try Joe's")))
  = Ok sorry_add_message.
Proof. reflexivity. Qed.

(** ** Facts about the string methods *)

Module PyStrFacts.
Import PyStr.

Lemma lower_char_idem (c : ascii) : lower_char (lower_char c) = lower_char c.
Proof. destruct c as [[] [] [] [] [] [] [] []]; reflexivity. Qed.

Lemma is_space_lower_char (c : ascii) : is_space (lower_char c) = is_space c.
Proof. destruct c as [[] [] [] [] [] [] [] []]; reflexivity. Qed.

Lemma lower_idem (s : string) : lower (lower s) = lower s.
Proof.
  induction s as [|c s IH]; simpl; [reflexivity|].
  now rewrite lower_char_idem, IH.
Qed.

Lemma lower_app (a b : string) : lower (a +:+ b) = lower a +:+ lower b.
Proof. induction a as [|c a IH]; simpl; [reflexivity | now rewrite IH]. Qed.

(** A split of [lower q] comes from a split of [q] at the same place. *)
Lemma lower_app_inv (q a b : string) :
  lower q = a +:+ b ->
  exists qa qb : string, q = qa +:+ qb /\ lower qa = a /\ lower qb = b.
Proof.
  revert q. induction a as [|c a IH]; intros q H.
  - exists EmptyString, q. now repeat split.
  - destruct q as [|d q]; simpl in H; [discriminate|].
    injection H as Hc Hq. destruct (IH q Hq) as (qa & qb & -> & Ha & Hb).
    exists (String d qa), qb. simpl. now rewrite Hc, Ha.
Qed.

Lemma lstrip_lower (s : string) : lstrip (lower s) = lower (lstrip s).
Proof.
  induction s as [|c s IH]; simpl; [reflexivity|].
  rewrite is_space_lower_char. now destruct (is_space c).
Qed.

Lemma rstrip_lower (s : string) : rstrip (lower s) = lower (rstrip s).
Proof.
  induction s as [|c s IH]; simpl; [reflexivity|].
  rewrite IH, is_space_lower_char.
  destruct (rstrip s); simpl; [now destruct (is_space c) | reflexivity].
Qed.

Lemma strip_lower (s : string) : strip (lower s) = lower (strip s).
Proof. unfold strip. now rewrite lstrip_lower, rstrip_lower. Qed.

Lemma lstrip_no_leading_space (s : string) : no_leading_space (lstrip s).
Proof.
  induction s as [|c s IH]; simpl; [exact I|].
  destruct (is_space c) eqn:E; [exact IH | exact E].
Qed.

Lemma lstrip_fixed (s : string) : no_leading_space s -> lstrip s = s.
Proof. destruct s as [|c s]; simpl; [reflexivity | now intros ->]. Qed.

Lemma rstrip_no_leading_space (s : string) :
  no_leading_space s -> no_leading_space (rstrip s).
Proof.
  destruct s as [|c s]; simpl; [trivial|]. intros E.
  destruct (rstrip s); simpl; [now rewrite E | exact E].
Qed.

Lemma rstrip_idem (s : string) : rstrip (rstrip s) = rstrip s.
Proof.
  induction s as [|c s IH]; simpl; [reflexivity|].
  destruct (rstrip s) as [|d r] eqn:E.
  - destruct (is_space c) eqn:Ec; simpl; [reflexivity | now rewrite Ec].
  - simpl. simpl in IH. now rewrite IH.
Qed.

Lemma strip_idem (s : string) : strip (strip s) = strip s.
Proof.
  unfold strip.
  rewrite (lstrip_fixed (rstrip (lstrip s))).
  - apply rstrip_idem.
  - apply rstrip_no_leading_space, lstrip_no_leading_space.
Qed.

(** The text the loop routes is a fixed point of the normalisation. *)
Lemma normalise_idem (s : string) :
  lower (strip (lower (strip s))) = lower (strip s).
Proof. now rewrite strip_lower, strip_idem, lower_idem. Qed.

Lemma startswith_app (p t : string) : startswith (p +:+ t) p = true.
Proof.
  induction p as [|c p IH]; simpl; [reflexivity|].
  now rewrite Ascii.eqb_refl, IH.
Qed.

Lemma startswith_inv (s p : string) :
  startswith s p = true -> exists t : string, s = p +:+ t.
Proof.
  revert s. induction p as [|c p IH]; intros s H.
  - now exists s.
  - destruct s as [|d s]; simpl in H; [discriminate|].
    apply andb_prop in H as [Hc Hs]. apply Ascii.eqb_eq in Hc as ->.
    destruct (IH s Hs) as [t ->]. now exists t.
Qed.

Lemma contains_unfold (s sub : string) :
  contains s sub
  = startswith s sub
    || match s with EmptyString => false | String _ s' => contains s' sub end.
Proof. destruct s; reflexivity. Qed.

Lemma contains_iff (s sub : string) :
  contains s sub = true <-> exists pre post : string, s = pre +:+ sub +:+ post.
Proof.
  split.
  - induction s as [|c s IH]; simpl; intros H.
    + rewrite orb_false_r in H. destruct (startswith_inv _ _ H) as [t Ht].
      now exists EmptyString, t.
    + apply orb_prop in H as [H|H].
      * destruct (startswith_inv _ _ H) as [t Ht]. now exists EmptyString, t.
      * destruct (IH H) as (pre & post & ->). now exists (String c pre), post.
  - intros (pre & post & ->). induction pre as [|c pre IH].
    + change (EmptyString +:+ sub +:+ post) with (sub +:+ post).
      rewrite contains_unfold, startswith_app. reflexivity.
    + change (String c pre +:+ sub +:+ post) with (String c (pre +:+ sub +:+ post)).
      rewrite contains_unfold, IH. apply orb_true_r.
Qed.

(** The test of the source is containment up to case, for a phrase that is
    already in lower case. *)
Lemma contains_lower_iff (q phrase : string) :
  lower phrase = phrase ->
  (contains (lower q) phrase = true <-> mentions q phrase).
Proof.
  intros Hp. rewrite contains_iff. unfold mentions. split.
  - intros (pre & post & H).
    destruct (lower_app_inv _ _ _ H) as (qa & qr & -> & Ha & Hr).
    destruct (lower_app_inv _ _ _ Hr) as (qm & qb & -> & Hm & Hb).
    exists qa, qm, qb. split; [reflexivity | congruence].
  - intros (pre & mid & post & -> & Hm).
    exists (lower pre), (lower post). rewrite !lower_app. congruence.
Qed.

Lemma split_once_contains (s : string) :
  contains s ":" = true <-> exists key value, split_once ":" s = Some (key, value).
Proof.
  induction s as [|c s IH].
  - simpl. split; [discriminate | now intros (? & ? & ?)].
  - rewrite contains_unfold. cbn [split_once startswith].
    rewrite (Ascii.eqb_sym ":" c). destruct (Ascii.eqb c ":") eqn:E.
    + simpl. split; [eauto | reflexivity].
    + simpl. rewrite IH. split.
      * intros (k & v & ->). eauto.
      * intros (k & v & H).
        destruct (split_once ":" s) as [[a b]|]; [eauto | discriminate].
Qed.

End PyStrFacts.

(** ** Classification *)

Section Classification.

Import PyStr PyStrFacts.

(** In the true branch of a test on a label: the line is the label followed
    by some text, so that the test on another label computes to [false]. *)
Local Ltac other_label H :=
  let t := fresh "t" in
  apply startswith_inv in H as [t ->];
  repeat match goal with
         | |- context [startswith (?L +:+ t) ?label] =>
             change (startswith (L +:+ t) label) with false
         end.

Local Ltac label_chain :=
  match goal with
  | |- context [if startswith ?l ?L then _ else _] =>
      let H := fresh "H" in
      destruct (startswith l L) eqn:H;
      [ first [ rewrite lookup_insert_eq; reflexivity
              | other_label H; rewrite lookup_insert_ne by discriminate; reflexivity ]
      | try label_chain ]
  | |- _ => reflexivity
  end.

(** What one line does to one field. *)
Lemma classify_line_lookup (key label dflt : string) (post : string -> string)
    (c : gmap string string) (line : string) :
  In (key, label, dflt, post) classification_fields ->
  classify_line c line !! key
  = if startswith line label then Some (post (value_after label line)) else c !! key.
Proof.
  intros Hin. unfold classification_fields in Hin. simpl in Hin.
  repeat (destruct Hin as [Hin | Hin]; [inversion Hin; subst; clear Hin|]);
    [..|contradiction];
    unfold classify_line, id; label_chain.
Qed.

Lemma default_classification_lookup (key label dflt : string) (post : string -> string) :
  In (key, label, dflt, post) classification_fields ->
  default_classification !! key = Some dflt.
Proof.
  intros Hin. unfold classification_fields in Hin. simpl in Hin.
  repeat (destruct Hin as [Hin | Hin]; [inversion Hin; subst; clear Hin|]);
    [..|contradiction]; reflexivity.
Qed.

(** A field after all lines: set by the last line that carries its label. *)
Lemma fold_classify_lookup (key label dflt : string) (post : string -> string)
    (lines : list string) (c : gmap string string) :
  In (key, label, dflt, post) classification_fields ->
  fold_left classify_line lines c !! key
  = match last (List.filter (fun l => startswith l label) lines) with
    | Some l => Some (post (value_after label l))
    | None => c !! key
    end.
Proof.
  intros Hin. revert c. induction lines as [|x lines IH]; intros c; [reflexivity|].
  cbn [fold_left List.filter]. rewrite IH, (classify_line_lookup _ _ _ _ _ _ Hin).
  destruct (startswith x label) eqn:E.
  - rewrite last_cons. now destruct (last _).
  - reflexivity.
Qed.

End Classification.

(** C3. Whatever text the completion service answers with, the empty text
    and texts with broken [Key:] lines included, [classify_query] returns a
    classification (it does not raise) in which each of the seven fields is
    present: it holds the value parsed from the last line that starts with
    the field's label, or the field's default when no line does. *)
Theorem classify_query_populates_every_field
    (srv : Services) (query content : string) (st : state) :
  complete srv (trace st) (ClassificationPrompt query) = Some content ->
  exists c : gmap string string,
    classify_query srv query st
    = (Ok c, log (Invoked (ClassificationPrompt query)) st) /\
    forall (key label dflt : string) (post : string -> string),
      In (key, label, dflt, post) classification_fields ->
      c !! key
      = Some match last (List.filter (fun l => PyStr.startswith l label)
                           (PyStr.split PyStr.newline (PyStr.strip content))) with
             | Some line => post (value_after label line)
             | None => dflt
             end.
Proof.
  intros Hsrv. exists (parse_classification content). split.
  - unfold classify_query, bind, invoke, ret. now rewrite Hsrv.
  - intros key label dflt post Hin. unfold parse_classification.
    rewrite (fold_classify_lookup _ _ _ _ _ _ Hin).
    rewrite (default_classification_lookup _ _ _ _ Hin).
    now destruct (last _).
Qed.

Lemma classify_query_populates_every_field_witness :
  complete (fixed_services (Some "Intent") None None None "") (trace fresh_guide)
    (ClassificationPrompt "hello") = Some "Intent" /\
  exists c : gmap string string,
    classify_query (fixed_services (Some "Intent") None None None "") "hello" fresh_guide
    = (Ok c, log (Invoked (ClassificationPrompt "hello")) fresh_guide) /\
    forall (key label dflt : string) (post : string -> string),
      In (key, label, dflt, post) classification_fields ->
      c !! key
      = Some match last (List.filter (fun l => PyStr.startswith l label)
                           (PyStr.split PyStr.newline (PyStr.strip "Intent"))) with
             | Some line => post (value_after label line)
             | None => dflt
             end.
Proof.
  split; [reflexivity|].
  apply (classify_query_populates_every_field
           (fixed_services (Some "Intent") None None None "") "hello" "Intent" fresh_guide).
  reflexivity.
Defined.

(** ** Frame rules *)

Section Frames.

Variable srv : Services.
Variable R : state -> state -> Prop.
Variable E : event -> Prop.

Hypothesis R_pre : PreOrder R.
Hypothesis R_log : forall e st, E e -> R st (log e st).
Hypothesis R_last_response : forall x st, R st (set_last_response x st).
Hypothesis R_last_context : forall x st, R st (set_last_context x st).
Hypothesis R_last_classification : forall x st, R st (set_last_classification x st).
Hypothesis R_preferences : forall x st, R st (set_preferences x st).
Hypothesis R_preferences_file : forall x st, R st (set_preferences_file x st).
Hypothesis R_plan : forall x st, R st (set_plan x st).
Hypothesis R_plan_file : forall x st, R st (set_plan_file x st).

Lemma keeps_ret {A : Type} (a : A) : keeps R (ret a).
Proof. intros st. reflexivity. Qed.

Lemma keeps_lift {A : Type} (r : res A) : keeps R (lift r).
Proof. intros st. reflexivity. Qed.

Lemma keeps_gets {A : Type} (f : state -> A) : keeps R (gets f).
Proof. intros st. reflexivity. Qed.

Lemma keeps_modify (f : state -> state) :
  (forall st, R st (f st)) -> keeps R (modify f).
Proof. intros Hf st. apply Hf. Qed.

Lemma keeps_bind {A B : Type} (m : M A) (k : A -> M B) :
  keeps R m -> (forall a, keeps R (k a)) -> keeps R (bind m k).
Proof.
  intros Hm Hk st. unfold bind. specialize (Hm st).
  destruct (m st) as [[a|e] st']; simpl in *; [|exact Hm].
  transitivity st'; [exact Hm | apply Hk].
Qed.

Lemma keeps_bind_lift {A B : Type} (r : res A) (k : A -> M B) :
  (forall a, r = Ok a -> keeps R (k a)) -> keeps R (bind (lift r) k).
Proof.
  intros Hk st. unfold bind, lift. destruct r as [a|e]; [now apply Hk | reflexivity].
Qed.

Lemma keeps_catch {A : Type} (m handler : M A) :
  keeps R m -> keeps R handler -> keeps R (catch m handler).
Proof.
  intros Hm Hh st. unfold catch. specialize (Hm st).
  destruct (m st) as [[a|e] st']; simpl in *; [exact Hm|].
  transitivity st'; [exact Hm | apply Hh].
Qed.

Lemma keeps_invoke (p : prompt) : E (Invoked p) -> keeps R (invoke srv p).
Proof. intros He st. unfold invoke. destruct (complete _ _ _); now apply R_log. Qed.

Lemma keeps_similarity_search (q : string) (k : nat) :
  E (Searched q k) -> keeps R (similarity_search srv q k).
Proof.
  intros He st. unfold similarity_search. destruct (search _ _ _ _); now apply R_log.
Qed.

Lemma keeps_clock : E ClockRead -> keeps R (clock srv).
Proof. intros He st. now apply R_log. Qed.

Local Ltac frame :=
  repeat match goal with
    | |- _ => assumption
    | |- keeps _ (ret _) => apply keeps_ret
    | |- keeps _ (lift _) => apply keeps_lift
    | |- keeps _ (gets _) => apply keeps_gets
    | |- keeps _ (bind (lift _) _) => apply keeps_bind_lift; intros ? ?
    | |- keeps _ (bind _ _) => apply keeps_bind; [|intros ?]
    | |- keeps _ (catch _ _) => apply keeps_catch
    | |- keeps _ (modify _) => apply keeps_modify; intros ?
    | |- keeps _ (invoke _ _) => apply keeps_invoke
    | |- keeps _ (similarity_search _ _ _) => apply keeps_similarity_search
    | |- keeps _ (clock _) => apply keeps_clock
    | |- keeps _ (if ?b then _ else _) => destruct b
    | |- keeps _ (match ?x with _ => _ end) => destruct x
    end.

Lemma keeps_save_preferences : keeps R save_preferences.
Proof. unfold save_preferences. frame. apply R_preferences_file. Qed.

Lemma keeps_save_plan : keeps R save_plan.
Proof. unfold save_plan. frame. apply R_plan_file. Qed.

Lemma keeps_load_preferences : keeps R load_preferences.
Proof.
  intros st. unfold load_preferences.
  destruct (preferences_file st); simpl;
    try apply R_preferences;
    (transitivity (set_preferences default_preferences st);
     [apply R_preferences | apply R_preferences_file]).
Qed.

Lemma keeps_load_plan : keeps R load_plan.
Proof.
  intros st. unfold load_plan.
  destruct (plan_file st) as [| |[]]; simpl;
    try destruct (dict_has _ _); simpl; try apply R_plan;
    (transitivity (set_plan default_plan st); [apply R_plan | apply R_plan_file]).
Qed.

Lemma keeps_update_preference (t : string) (v : json) :
  keeps R (update_preference t v).
Proof. unfold update_preference. frame; [apply R_preferences | apply keeps_save_preferences]. Qed.

Lemma keeps_classify_query (q : string) :
  E (Invoked (ClassificationPrompt q)) -> keeps R (classify_query srv q).
Proof. intros He. unfold classify_query. frame. Qed.

Lemma keeps_extract_venue_info (c : string) :
  E (Invoked (ExtractionPrompt c)) -> keeps R (extract_venue_info srv c).
Proof. intros He. unfold extract_venue_info. frame. Qed.

Section PlanCommands.

Hypothesis E_plan : forall e, is_plan_event e -> E e.

Lemma keeps_get_plan_summary : keeps R (get_plan_summary srv).
Proof. unfold get_plan_summary. frame; now apply E_plan. Qed.

Lemma keeps_generate_day_plan : keeps R (generate_day_plan srv).
Proof. unfold generate_day_plan. frame; now apply E_plan. Qed.

Lemma keeps_ensure_venues : keeps R ensure_venues.
Proof.
  intros st. unfold ensure_venues.
  destruct (dict_has _ _); simpl; [reflexivity | apply R_plan].
Qed.

Lemma keeps_append_venue (entry : json) : keeps R (append_venue entry).
Proof.
  intros st. unfold append_venue.
  destruct (dict_get _ _) as [[]|]; simpl; try reflexivity. apply R_plan.
Qed.

Lemma keeps_add_to_plan_try (context : string) :
  E (Invoked (ExtractionPrompt context)) -> E ClockRead ->
  keeps R (add_to_plan_try srv context).
Proof.
  intros He Hc. unfold add_to_plan_try, extract_venue_info. frame.
  - apply keeps_ensure_venues.
  - apply keeps_append_venue.
  - apply keeps_save_plan.
Qed.

(** [add_to_plan] where writing the plan is allowed by [R]. *)
Lemma keeps_add_to_plan : keeps R (add_to_plan srv).
Proof.
  intros st. unfold add_to_plan.
  destruct (negb (truthy_text (last_context st))); [reflexivity|].
  apply keeps_catch; [|apply keeps_ret].
  apply keeps_add_to_plan_try; now apply E_plan.
Qed.

End PlanCommands.

(** The methods that reach [add_to_plan], whatever it keeps. *)
Section Turns.

Hypothesis E_plan : forall e, is_plan_event e -> E e.
Hypothesis R_add_to_plan : keeps R (add_to_plan srv).

Lemma enhance_query_form (q : string) (c : gmap string string) (prefs : json)
    (qd : string) :
  enhance_query q c prefs = Ok qd ->
  qd = q \/ exists cuisine : string, qd = q +:+ " " +:+ cuisine +:+ " restaurant".
Proof.
  unfold enhance_query. destruct (in_list _ _); [|intros [= <-]; now left].
  destruct (getitem _ _) as [cuisine|]; [|discriminate].
  destruct (_ && _); intros [= <-]; [right; now exists (PyRepr.str cuisine) | now left].
Qed.

Lemma keeps_is_follow_up_question (q : string) :
  (forall e, is_query_event q e -> E e) ->
  keeps R (is_follow_up_question srv q).
Proof.
  intros Hq. unfold is_follow_up_question, classify_query. frame.
  apply Hq. reflexivity.
Qed.

Lemma keeps_handle_follow_up (q : string) :
  (forall e, is_query_event q e -> E e) ->
  keeps R (handle_follow_up srv q).
Proof.
  intros Hq. unfold handle_follow_up, classify_query. frame; apply Hq; reflexivity.
Qed.

Lemma keeps_get_recommendations (q : string) :
  (forall e, is_query_event q e -> E e) ->
  keeps R (get_recommendations srv q).
Proof.
  intros Hq. unfold get_recommendations, classify_query.
  frame; try (apply Hq; reflexivity);
    try apply R_last_classification; try apply R_last_context;
    try apply R_last_response; try apply keeps_update_preference.
  apply Hq. split; [reflexivity|]. eapply enhance_query_form; eassumption.
Qed.

Lemma keeps_main_turn (line : string) :
  (forall e, is_query_event (PyStr.lower (PyStr.strip line)) e -> E e) ->
  keeps R (main_turn srv line).
Proof.
  intros Hq. unfold main_turn.
  frame; auto using keeps_get_plan_summary, keeps_generate_day_plan,
    keeps_is_follow_up_question, keeps_handle_follow_up, keeps_get_recommendations.
Qed.

End Turns.

End Frames.

(** ** The frames used below *)

Global Instance same_session_preorder : PreOrder same_session.
Proof.
  split; [now intros st | intros a b c (?&?&?) (?&?&?)].
  repeat split; congruence.
Qed.

Global Instance same_answer_memory_preorder : PreOrder same_answer_memory.
Proof.
  split; [now intros st | intros a b c (?&?) (?&?)].
  split; congruence.
Qed.

Global Instance same_plan_preorder : PreOrder same_plan.
Proof.
  split; [now intros st | intros a b c (?&?) (?&?)].
  split; congruence.
Qed.

Global Instance calls_only_preorder (E : event -> Prop) : PreOrder (calls_only E).
Proof.
  split.
  - intros st. exists []. now rewrite app_nil_r.
  - intros a b c (e1 & H1 & F1) (e2 & H2 & F2). exists (e1 ++ e2). split.
    + now rewrite H2, H1, app_assoc.
    + now apply Forall_app.
Qed.

Global Instance keeps_sound_plan_preorder : PreOrder keeps_sound_plan.
Proof. split; [now intros st | intros a b c Hab Hbc H; auto]. Qed.

Lemma calls_only_log (E : event -> Prop) (e : event) (st : state) :
  E e -> calls_only E st (log e st).
Proof. intros He. exists [e]. split; [reflexivity | now constructor]. Qed.

Lemma calls_only_silent (E : event -> Prop) (st st' : state) :
  trace st' = trace st -> calls_only E st st'.
Proof. intros H. exists []. now rewrite app_nil_r. Qed.

Lemma calls_only_weaken (E E' : event -> Prop) (st st' : state) :
  (forall e, E e -> E' e) -> calls_only E st st' -> calls_only E' st st'.
Proof.
  intros HE (evs & H & F). exists evs. split; [exact H|].
  eapply Forall_impl; [exact F | exact HE].
Qed.

Section Plan_add_phrases.

Import PyStr PyStrFacts.

(** The test at the head of the three entry points is the containment up
    to case of one of the four phrases. *)
Lemma has_plan_phrase_iff (q : string) :
  has_plan_phrase q = true <-> plan_add_utterance q.
Proof.
  unfold has_plan_phrase, plan_add_utterance. rewrite existsb_exists.
  split; intros (phrase & Hin & H); exists phrase; (split; [exact Hin|]);
    apply contains_lower_iff; try exact H;
    simpl in Hin; decompose [or] Hin; subst; try reflexivity; contradiction.
Qed.

Lemma has_plan_phrase_false (q : string) :
  ~ plan_add_utterance q -> has_plan_phrase q = false.
Proof.
  intros H. destruct (has_plan_phrase q) eqn:E; [|reflexivity].
  now apply has_plan_phrase_iff in E.
Qed.

End Plan_add_phrases.

Section Add_to_plan_calls.

Variable srv : Services.

Lemma add_to_plan_calls (st : state) :
  calls_only (add_to_plan_event st) st (snd (add_to_plan srv st)).
Proof.
  unfold add_to_plan.
  destruct (negb (truthy_text (last_context st))) eqn:Ht; [reflexivity|].
  destruct (last_context st) as [context|] eqn:Hc; [|discriminate].
  assert (Htry : keeps (calls_only (add_to_plan_event st))
                       (add_to_plan_try srv context)).
  { apply (keeps_add_to_plan_try srv _ (add_to_plan_event st)).
    - typeclasses eauto.
    - intros e s He. now apply calls_only_log.
    - intros x s. now apply calls_only_silent.
    - intros x s. now apply calls_only_silent.
    - right. now exists context.
    - now left. }
  exact (keeps_catch _ _ _ _ Htry (keeps_ret _ _ _) st).
Qed.

End Add_to_plan_calls.

(** ** Running a computation step by step *)

Section Stepping.

Variable srv : Services.
Context {A B : Type}.

Lemma bind_ret (a : A) (k : A -> M B) (st : state) : bind (ret a) k st = k a st.
Proof. reflexivity. Qed.

Lemma bind_gets (f : state -> A) (k : A -> M B) (st : state) :
  bind (gets f) k st = k (f st) st.
Proof. reflexivity. Qed.

Lemma bind_lift_ok (a : A) (k : A -> M B) (st : state) :
  bind (lift (Ok a)) k st = k a st.
Proof. reflexivity. Qed.

Lemma bind_lift_raised (e : exn) (k : A -> M B) (st : state) :
  bind (lift (Raised e)) k st = (Raised e, st).
Proof. reflexivity. Qed.

Lemma bind_modify (f : state -> state) (k : unit -> M B) (st : state) :
  bind (modify f) k st = k tt (f st).
Proof. reflexivity. Qed.

Lemma bind_bind {C : Type} (m : M A) (k : A -> M B) (h : B -> M C) (st : state) :
  bind (bind m k) h st = bind m (fun a => bind (k a) h) st.
Proof. unfold bind. now destruct (m st) as [[a|e] st']. Qed.

End Stepping.

Section Stepping_services.

Variable srv : Services.
Context {B : Type}.

Lemma bind_invoke (p : prompt) (content : string) (k : string -> M B) (st : state) :
  complete srv (trace st) p = Some content ->
  bind (invoke srv p) k st = k content (log (Invoked p) st).
Proof. intros H. unfold bind, invoke. now rewrite H. Qed.

Lemma bind_invoke_raised (p : prompt) (k : string -> M B) (st : state) :
  complete srv (trace st) p = None ->
  bind (invoke srv p) k st = (Raised ServiceError, log (Invoked p) st).
Proof. intros H. unfold bind, invoke. now rewrite H. Qed.

Lemma bind_classify_query (q content : string) (k : gmap string string -> M B)
    (st : state) :
  complete srv (trace st) (ClassificationPrompt q) = Some content ->
  bind (classify_query srv q) k st
  = k (parse_classification content) (log (Invoked (ClassificationPrompt q)) st).
Proof.
  intros H. unfold classify_query. rewrite bind_bind, (bind_invoke _ _ _ _ H).
  reflexivity.
Qed.

Lemma bind_similarity_search (q : string) (n : nat) (results : list (string * float))
    (k : list (string * float) -> M B) (st : state) :
  search srv (trace st) q n = Some results ->
  bind (similarity_search srv q n) k st = k results (log (Searched q n) st).
Proof. intros H. unfold bind, similarity_search. now rewrite H. Qed.

Lemma bind_similarity_search_raised (q : string) (n : nat)
    (k : list (string * float) -> M B) (st : state) :
  search srv (trace st) q n = None ->
  bind (similarity_search srv q n) k st = (Raised ServiceError, log (Searched q n) st).
Proof. intros H. unfold bind, similarity_search. now rewrite H. Qed.

End Stepping_services.

(** ** Session memory *)

Section Session.

Variable srv : Services.

Lemma same_session_silent (st st' : state) :
  last_response st' = last_response st ->
  last_context st' = last_context st ->
  last_classification st' = last_classification st ->
  same_session st st'.
Proof. now repeat split. Qed.

Lemma add_to_plan_same_session : keeps same_session (add_to_plan srv).
Proof.
  apply (keeps_add_to_plan srv same_session (fun _ => True));
    try typeclasses eauto; try (intros; now apply same_session_silent); trivial.
Qed.

Lemma get_plan_summary_same_session : keeps same_session (get_plan_summary srv).
Proof.
  apply (keeps_get_plan_summary srv same_session (fun _ => True));
    try typeclasses eauto; try (intros; now apply same_session_silent); trivial.
Qed.

Lemma generate_day_plan_same_session : keeps same_session (generate_day_plan srv).
Proof.
  apply (keeps_generate_day_plan srv same_session (fun _ => True));
    try typeclasses eauto; try (intros; now apply same_session_silent); trivial.
Qed.

Lemma handle_follow_up_same_session (q : string) :
  keeps same_session (handle_follow_up srv q).
Proof.
  apply (keeps_handle_follow_up srv same_session (fun _ => True));
    try typeclasses eauto; try (intros; now apply same_session_silent); trivial.
  apply add_to_plan_same_session.
Qed.

Lemma is_follow_up_question_same_session (q : string) :
  keeps same_session (is_follow_up_question srv q).
Proof.
  apply (keeps_is_follow_up_question srv same_session (fun _ => True));
    try typeclasses eauto; try (intros; now apply same_session_silent); trivial.
Qed.

Lemma update_preference_same_session (t : string) (v : json) :
  keeps same_session (update_preference t v).
Proof.
  apply (keeps_update_preference same_session);
    try typeclasses eauto; intros; now apply same_session_silent.
Qed.

Lemma truthy_text_some (s : string) : s <> "" -> truthy_text (Some s) = true.
Proof. intros H. simpl. now apply String.eqb_neq in H as ->. Qed.

End Session.

(** C7. An utterance that contains, up to case, one of the phrases
    "add to plan", "add it to", "save this", "adding it" is short-circuited
    by each entry point: [get_recommendations] and [handle_follow_up] are
    [add_to_plan] on the same state, [is_follow_up_question] answers [True]
    without touching the state, and the only external calls then made are
    the extraction on [last_context] and the clock: no classification. *)
Theorem plan_add_phrase_short_circuits (srv : Services) (q : string) (st : state) :
  plan_add_utterance q ->
  get_recommendations srv q st = add_to_plan srv st /\
  handle_follow_up srv q st = add_to_plan srv st /\
  is_follow_up_question srv q st = (Ok true, st) /\
  calls_only (fun e => add_to_plan_event st e /\ ~ is_classification e)
             st (snd (add_to_plan srv st)).
Proof.
  intros H. apply has_plan_phrase_iff in H.
  unfold get_recommendations, handle_follow_up, is_follow_up_question.
  rewrite H. repeat split.
  eapply calls_only_weaken; [|apply add_to_plan_calls].
  intros e He. split; [exact He|].
  destruct He as [->|(c & _ & ->)]; simpl; tauto.
Qed.

Lemma plan_add_phrase_short_circuits_witness :
  plan_add_utterance "Please ADD IT TO my list" /\
  get_recommendations (fixed_services None (Some "Name: Joe's") None None "t")
    "Please ADD IT TO my list" (advised_guide "Joe's Pizza, Soho" "Try Joe's")
  = add_to_plan (fixed_services None (Some "Name: Joe's") None None "t")
      (advised_guide "Joe's Pizza, Soho" "Try Joe's").
Proof.
  assert (H : plan_add_utterance "Please ADD IT TO my list").
  { exists "add it to". split; [simpl; auto|].
    exists "Please ", "ADD IT TO", " my list". split; reflexivity. }
  split; [exact H|].
  exact (proj1 (plan_add_phrase_short_circuits
                  (fixed_services None (Some "Name: Joe's") None None "t")
                  "Please ADD IT TO my list"
                  (advised_guide "Joe's Pizza, Soho" "Try Joe's") H)).
Defined.

(** C8. A follow-up that is not a plan-add utterance leaves [last_context]
    and [last_response] (and [last_classification]) as they were, whatever
    the services do; when a previous response and context exist and the
    completion service answers the classification and the follow-up prompt
    built on that previous context and response, the call returns that
    answer. *)
Theorem follow_up_answers_on_original_context
    (srv : Services) (q : string) (st : state) :
  ~ plan_add_utterance q ->
  same_session st (snd (handle_follow_up srv q st)) /\
  forall (response context content answer : string),
    last_response st = Some response -> response <> "" ->
    last_context st = Some context -> context <> "" ->
    complete srv (trace st) (ClassificationPrompt q) = Some content ->
    complete srv (trace st ++ [Invoked (ClassificationPrompt q)])
      (FollowUpPrompt context response q
         (field (parse_classification content) "category")
         (field (parse_classification content) "intent")
         (preferences st)) = Some answer ->
    fst (handle_follow_up srv q st) = Ok answer.
Proof.
  intros Hq. split; [apply handle_follow_up_same_session|].
  intros response context content answer Hr Hrne Hc Hcne Hcl Hans.
  unfold handle_follow_up. rewrite (has_plan_phrase_false _ Hq).
  rewrite !bind_gets, Hr, Hc, !truthy_text_some by assumption.
  cbn [negb orb default]. rewrite (bind_classify_query _ _ _ _ _ Hcl), bind_gets.
  unfold invoke, log, default, id. cbn [trace preferences from_option].
  rewrite Hans. reflexivity.
Qed.

Lemma follow_up_answers_on_original_context_witness :
  ~ plan_add_utterance "how much is it?" /\
  same_session (advised_guide "Joe's Pizza, Soho" "Try Joe's")
    (snd (handle_follow_up
            (fixed_services (Some "Category: Price/Budget Inquiry") None
                            (Some "About $5 a slice") None "t")
            "how much is it?" (advised_guide "Joe's Pizza, Soho" "Try Joe's"))) /\
  fst (handle_follow_up
         (fixed_services (Some "Category: Price/Budget Inquiry") None
                         (Some "About $5 a slice") None "t")
         "how much is it?" (advised_guide "Joe's Pizza, Soho" "Try Joe's"))
  = Ok "About $5 a slice".
Proof.
  assert (H : ~ plan_add_utterance "how much is it?").
  { intros H. apply has_plan_phrase_iff in H. discriminate H. }
  split; [exact H|].
  destruct (follow_up_answers_on_original_context
              (fixed_services (Some "Category: Price/Budget Inquiry") None
                              (Some "About $5 a slice") None "t")
              "how much is it?" (advised_guide "Joe's Pizza, Soho" "Try Joe's") H)
    as [Hframe Hanswer].
  split; [exact Hframe|].
  apply (Hanswer "Try Joe's" "Joe's Pizza, Soho" "Category: Price/Budget Inquiry"
                 "About $5 a slice"); try reflexivity; discriminate.
Defined.

(** ** Retrieval *)

Section Retrieval.

Variable srv : Services.

(** A recommendation turn up to the answer of the retrieval. *)
Lemma get_recommendations_retrieved (q content qd : string)
    (results : list (string * float)) (st : state) :
  ~ plan_add_utterance q ->
  complete srv (trace st) (ClassificationPrompt q) = Some content ->
  is_cuisine_preference (parse_classification content) = false ->
  enhance_query q (parse_classification content) (preferences st) = Ok qd ->
  search srv (trace st ++ [Invoked (ClassificationPrompt q)]) qd 4 = Some results ->
  get_recommendations srv q st
  = let c := parse_classification content in
    let st2 := log (Searched qd 4)
                 (set_last_classification (Some c)
                    (log (Invoked (ClassificationPrompt q)) st)) in
    if no_usable_match results then (Ok no_match_message, st2)
    else
      let context := PyStr.join context_separator (map fst results) in
      (let* response :=
         invoke srv (InitialPrompt context q (field c "category") (field c "intent")
                       (field c "key_terms") (preferences_to_pass c (preferences st))) in
       modify (set_last_response (Some response)) ;;; ret response)
        (set_last_context (Some context) st2).
Proof.
  intros Hq Hcl Hpref Henh Hsearch.
  unfold get_recommendations. rewrite (has_plan_phrase_false _ Hq).
  rewrite (bind_classify_query _ _ _ _ _ Hcl), bind_modify, Hpref, bind_gets.
  cbn [preferences set_last_classification log]. rewrite Henh, bind_lift_ok.
  rewrite (bind_similarity_search srv qd 4 results); [|exact Hsearch].
  cbv zeta. destruct (no_usable_match results); [reflexivity|].
  rewrite bind_modify. reflexivity.
Qed.

End Retrieval.

(** C1. In a recommendation turn whose retrieval returns no result, or a
    first result with a relevance score below 0.7, [get_recommendations]
    returns the fixed no-match message and [last_context] and
    [last_response] are what they were before the call. *)
Theorem no_match_keeps_answer_memory
    (srv : Services) (q content qd : string) (results : list (string * float))
    (st : state) :
  ~ plan_add_utterance q ->
  complete srv (trace st) (ClassificationPrompt q) = Some content ->
  is_cuisine_preference (parse_classification content) = false ->
  enhance_query q (parse_classification content) (preferences st) = Ok qd ->
  search srv (trace st ++ [Invoked (ClassificationPrompt q)]) qd 4 = Some results ->
  (results = [] \/
   exists doc score rest,
     results = (doc, score) :: rest /\ PrimFloat.ltb score relevance_floor = true) ->
  fst (get_recommendations srv q st) = Ok no_match_message /\
  last_context (snd (get_recommendations srv q st)) = last_context st /\
  last_response (snd (get_recommendations srv q st)) = last_response st.
Proof.
  intros Hq Hcl Hpref Henh Hsearch Hlow.
  rewrite (get_recommendations_retrieved srv q content qd results st) by assumption.
  assert (no_usable_match results = true) as ->.
  { destruct Hlow as [->|(doc & score & rest & -> & Hs)]; [reflexivity | exact Hs]. }
  repeat split.
Qed.

Lemma no_match_keeps_answer_memory_witness :
  fst (get_recommendations
         (fixed_services (Some "Category: Entertainment") None (Some "Go there")
                         (Some [("Some bar", 0.5%float)]) "t")
         "live jazz tonight" (advised_guide "Joe's Pizza, Soho" "Try Joe's"))
  = Ok no_match_message /\
  last_context
    (snd (get_recommendations
            (fixed_services (Some "Category: Entertainment") None (Some "Go there")
                            (Some [("Some bar", 0.5%float)]) "t")
            "live jazz tonight" (advised_guide "Joe's Pizza, Soho" "Try Joe's")))
  = Some "Joe's Pizza, Soho" /\
  last_response
    (snd (get_recommendations
            (fixed_services (Some "Category: Entertainment") None (Some "Go there")
                            (Some [("Some bar", 0.5%float)]) "t")
            "live jazz tonight" (advised_guide "Joe's Pizza, Soho" "Try Joe's")))
  = Some "Try Joe's".
Proof.
  apply (no_match_keeps_answer_memory
           (fixed_services (Some "Category: Entertainment") None (Some "Go there")
                           (Some [("Some bar", 0.5%float)]) "t")
           "live jazz tonight" "Category: Entertainment" "live jazz tonight"
           [("Some bar", 0.5%float)] (advised_guide "Joe's Pizza, Soho" "Try Joe's")).
  - intros H. apply has_plan_phrase_iff in H. discriminate H.
  - reflexivity.
  - reflexivity.
  - reflexivity.
  - reflexivity.
  - right. exists "Some bar", 0.5%float, []. split; reflexivity.
Defined.

(** ** Query augmentation *)

Section Augmentation.

Variable srv : Services.

Lemma in_list_iff (x : string) (l : list string) : in_list x l = true <-> In x l.
Proof.
  unfold in_list. rewrite existsb_exists. split.
  - intros (y & Hy & E). apply String.eqb_eq in E. now subst.
  - intros H. exists x. split; [exact H | apply String.eqb_refl].
Qed.

Lemma length_append (s t : string) :
  String.length (s +:+ t) = String.length s + String.length t.
Proof. induction s as [|c s IH]; simpl; [reflexivity | now rewrite IH]. Qed.

Lemma append_longer (s t : string) : t <> "" -> s +:+ t <> s.
Proof.
  intros Ht H. apply (f_equal String.length) in H.
  rewrite length_append in H. destruct t; [congruence | simpl in H; lia].
Qed.

Lemma enhance_query_stored (q : string) (c : gmap string string) (prefs cuisine : json) :
  getitem "cuisine" prefs = Ok cuisine ->
  enhance_query q c prefs
  = Ok (if in_list (field c "category") recommendation_categories
           && truthy cuisine
           && String.eqb (field c "is_generic_food_question") "yes"
        then q +:+ " " +:+ PyRepr.str cuisine +:+ " restaurant" else q).
Proof.
  intros H. unfold enhance_query. rewrite H.
  destruct (in_list _ _); [|reflexivity]. now destruct (_ && _).
Qed.

(** The events of a recommendation turn that reaches retrieval. *)
Lemma get_recommendations_searches (q content qd : string) (st : state) :
  ~ plan_add_utterance q ->
  complete srv (trace st) (ClassificationPrompt q) = Some content ->
  is_cuisine_preference (parse_classification content) = false ->
  enhance_query q (parse_classification content) (preferences st) = Ok qd ->
  exists rest : list event,
    trace (snd (get_recommendations srv q st))
    = trace st ++ Invoked (ClassificationPrompt q) :: Searched qd 4 :: rest.
Proof.
  intros Hq Hcl Hpref Henh.
  destruct (search srv (trace st ++ [Invoked (ClassificationPrompt q)]) qd 4)
    as [results|] eqn:Hs.
  - rewrite (get_recommendations_retrieved srv q content qd results st) by assumption.
    cbv zeta. destruct (no_usable_match results).
    + exists []. cbn. now rewrite <- app_assoc.
    + unfold bind, invoke, modify, ret.
      destruct (complete srv _ (InitialPrompt _ _ _ _ _ _));
        eexists; cbn; rewrite <- !app_assoc; reflexivity.
  - unfold get_recommendations. rewrite (has_plan_phrase_false _ Hq).
    rewrite (bind_classify_query _ _ _ _ _ Hcl), bind_modify, Hpref, bind_gets.
    cbn [preferences set_last_classification log]. rewrite Henh, bind_lift_ok.
    rewrite (bind_similarity_search_raised srv qd 4); [|exact Hs].
    exists []. cbn. now rewrite <- app_assoc.
Qed.

End Augmentation.

(** C6, as the code has it. In a recommendation turn that reaches
    retrieval with a cuisine entry in the stored preferences, the query sent
    to retrieval is the original query followed by [" <cuisine> restaurant"]
    if and only if the category is "Food and Dining" or "Recommendations",
    the stored cuisine is true in Python's sense (neither null nor the empty
    text) and the question is flagged generic; in every other case it is
    the original query. *)
Theorem retrieval_query_augmented_iff
    (srv : Services) (q content : string) (cuisine : json) (st : state) :
  ~ plan_add_utterance q ->
  complete srv (trace st) (ClassificationPrompt q) = Some content ->
  is_cuisine_preference (parse_classification content) = false ->
  getitem "cuisine" (preferences st) = Ok cuisine ->
  exists (qd : string) (rest : list event),
    trace (snd (get_recommendations srv q st))
    = trace st ++ Invoked (ClassificationPrompt q) :: Searched qd 4 :: rest /\
    (qd = q +:+ " " +:+ PyRepr.str cuisine +:+ " restaurant" <->
     In (field (parse_classification content) "category") recommendation_categories /\
     truthy cuisine = true /\
     field (parse_classification content) "is_generic_food_question" = "yes") /\
    (qd = q +:+ " " +:+ PyRepr.str cuisine +:+ " restaurant" \/ qd = q).
Proof.
  intros Hq Hcl Hpref Hcuisine.
  pose proof (enhance_query_stored q (parse_classification content) _ _ Hcuisine) as Henh.
  destruct (get_recommendations_searches srv q content _ st Hq Hcl Hpref Henh)
    as [rest Htrace].
  eexists; exists rest. split; [exact Htrace|].
  assert (Hne : q <> q +:+ " " +:+ PyRepr.str cuisine +:+ " restaurant").
  { intros H. symmetry in H. apply append_longer in H; [exact H | discriminate]. }
  rewrite <- in_list_iff.
  rewrite <- (String.eqb_eq (field (parse_classification content)
                               "is_generic_food_question") "yes").
  destruct (in_list _ _), (truthy cuisine), (String.eqb _ "yes"); cbn [andb];
    (split;
     [ split; [ intros H; try (now repeat split); now destruct (Hne H)
              | intros (? & ? & ?); try reflexivity; discriminate ]
     | (now left) || (now right) ]).
Qed.

Lemma retrieval_query_augmented_iff_witness :
  exists (qd : string) (rest : list event),
    trace (snd (get_recommendations
                  (fixed_services
                     (Some (lines ["Category: Food and Dining";
                                   "Is Generic Food Question: Yes"]))
                     None (Some "Try the taqueria") (Some [("Taqueria", 0.9%float)]) "t")
                  "where can i grab a quick bite?"
                  (set_preferences (JDict [("cuisine", JStr "mexican")]) fresh_guide)))
    = [] ++ Invoked (ClassificationPrompt "where can i grab a quick bite?")
         :: Searched qd 4 :: rest /\
    qd = "where can i grab a quick bite? mexican restaurant".
Proof.
  destruct (retrieval_query_augmented_iff
              (fixed_services
                 (Some (lines ["Category: Food and Dining";
                               "Is Generic Food Question: Yes"]))
                 None (Some "Try the taqueria") (Some [("Taqueria", 0.9%float)]) "t")
              "where can i grab a quick bite?"
              (lines ["Category: Food and Dining"; "Is Generic Food Question: Yes"])
              (JStr "mexican")
              (set_preferences (JDict [("cuisine", JStr "mexican")]) fresh_guide))
    as (qd & rest & Htrace & Hiff & _).
  - intros H. apply has_plan_phrase_iff in H. discriminate H.
  - reflexivity.
  - reflexivity.
  - reflexivity.
  - exists qd, rest. split; [exact Htrace|].
    apply Hiff. split; [left; reflexivity | split; reflexivity].
Defined.

(** C6 as claimed fails: a stored cuisine that is the empty text is not
    null, yet it is not appended. The empty cuisine is stored by a first
    turn whose classification has a blank "Preference Value:". *)
Lemma empty_cuisine_is_not_appended :
  let srv :=
    scripted_services
      [Some (lines ["Is Preference: yes"; "Preference Type: cuisine";
                    "Preference Value:"]);
       Some (lines ["Category: Food and Dining"; "Is Generic Food Question: yes"]);
       None; Some "Try the diner"]
      (Some [("Diner", 0.9%float)]) "t" in
  let st1 := snd (get_recommendations srv "i like food" fresh_guide) in
  let q := "where can i grab a quick bite?" in
  let st2 := snd (get_recommendations srv q st1) in
  getitem "cuisine" (preferences st1) = Ok (JStr "") /\
  JStr "" <> JNull /\
  option_map (fun c => (field c "category", field c "is_generic_food_question"))
             (last_classification st2)
  = Some ("Food and Dining", "yes") /\
  trace st2
  = [Invoked (ClassificationPrompt "i like food");
     Invoked (ClassificationPrompt q);
     Searched q 4;
     Invoked (InitialPrompt "Diner" q "Food and Dining" "" ""
                (JDict [("cuisine", JStr "")]))] /\
  q <> q +:+ " " +:+ PyRepr.str (JStr "") +:+ " restaurant".
Proof.
  cbv zeta. split; [reflexivity|]. split; [discriminate|].
  split; [reflexivity|]. split; [reflexivity | discriminate].
Qed.

(** ** The stores *)

Section Dictionaries.

Context {V : Type}.

Lemma dict_get_set_eq (k : string) (v : V) (d : list (string * V)) :
  dict_get k (dict_set k v d) = Some v.
Proof.
  induction d as [|[k' v'] d IH]; simpl.
  - now rewrite String.eqb_refl.
  - destruct (String.eqb k' k) eqn:E; simpl; [now rewrite String.eqb_refl|].
    now rewrite E.
Qed.

Lemma dict_get_set_ne (k k' : string) (v : V) (d : list (string * V)) :
  k <> k' -> dict_get k' (dict_set k v d) = dict_get k' d.
Proof.
  intros Hne. induction d as [|[k0 v0] d IH]; simpl.
  - apply String.eqb_neq in Hne. now rewrite Hne.
  - destruct (String.eqb k0 k) eqn:E; simpl.
    + apply String.eqb_eq in E as ->. apply String.eqb_neq in Hne. now rewrite Hne.
    + now rewrite IH.
Qed.

Lemma dict_get_map {W : Type} (f : V -> W) (k : string) (d : list (string * V)) :
  dict_get k (map (fun kv : string * V => (fst kv, f (snd kv))) d)
  = option_map f (dict_get k d).
Proof.
  induction d as [|[k' v'] d IH]; simpl; [reflexivity|].
  now destruct (String.eqb k' k).
Qed.

End Dictionaries.

Section Preference_store.

Lemma update_preference_dict (t : string) (v : json) (d : list (string * json))
    (st : state) :
  preferences st = JDict d ->
  update_preference t v st
  = (Ok tt, set_preferences_file (Doc (JDict (dict_set t v d)))
              (set_preferences (JDict (dict_set t v d)) st)).
Proof.
  intros H. unfold update_preference. rewrite bind_gets, H. reflexivity.
Qed.

(** A run of updates on a dictionary: each key holds its last update. *)
Lemma run_updates_dict (updates : list (string * json)) :
  forall (d : list (string * json)) (st : state),
    preferences st = JDict d ->
    exists d' : list (string * json),
      fst (run_updates updates st) = Ok tt /\
      preferences (snd (run_updates updates st)) = JDict d' /\
      (updates <> [] ->
       preferences_file (snd (run_updates updates st)) = Doc (JDict d')) /\
      plan_file (snd (run_updates updates st)) = plan_file st /\
      forall key : string,
        dict_get key d'
        = match last_update key updates with
          | Some v => Some v
          | None => dict_get key d
          end.
Proof.
  induction updates as [|[t v] updates IH]; intros d st Hd.
  - exists d. repeat split; [exact Hd | congruence].
  - cbn [run_updates]. unfold bind at 1 2 3 4.
    rewrite (update_preference_dict t v d st Hd).
    set (st1 := set_preferences_file _ _).
    destruct (IH (dict_set t v d) st1 eq_refl) as (d' & Hok & Hp & Hf & Hpf & Hget).
    exists d'. repeat split; try assumption.
    + intros _. destruct updates as [|u updates]; [|apply Hf; discriminate].
      cbn in Hp |- *. congruence.
    + intros key. rewrite Hget. cbn [last_update].
      destruct (last_update key updates); [reflexivity|].
      destruct (String.eqb t key) eqn:E.
      * apply String.eqb_eq in E as ->. apply dict_get_set_eq.
      * apply String.eqb_neq in E. now apply dict_get_set_ne.
Qed.

End Preference_store.

(** C4. After any sequence of [update_preference] calls on a guide whose
    preferences are a dictionary, the preference stored for a type is the
    value of the last call for that type; a reload of the store
    ([load_preferences] after [save_preferences]) and a new guide on the
    files give the same value. *)
Theorem last_preference_update_wins
    (updates : list (string * json)) (key : string) (v : json)
    (d : list (string * json)) (st : state) :
  preferences st = JDict d ->
  last_update key updates = Some v ->
  fst (run_updates updates st) = Ok tt /\
  getitem key (preferences (snd (run_updates updates st))) = Ok v /\
  getitem key (preferences
                 (snd (load_preferences
                         (snd (save_preferences (snd (run_updates updates st)))))))
  = Ok v /\
  getitem key (preferences
                 (NYCGuide_init (preferences_file (snd (run_updates updates st)))
                                (plan_file (snd (run_updates updates st)))
                                (trace (snd (run_updates updates st)))))
  = Ok v.
Proof.
  intros Hd Hlast.
  destruct (run_updates_dict updates d st Hd) as (d' & Hok & Hp & Hf & _ & Hget).
  assert (Hne : updates <> []) by (intros ->; discriminate).
  specialize (Hf Hne). specialize (Hget key). rewrite Hlast in Hget.
  split; [exact Hok|]. split; [|split].
  - rewrite Hp. cbn. now rewrite Hget.
  - cbn. rewrite Hp. cbn. now rewrite Hget.
  - unfold NYCGuide_init. rewrite Hf. unfold bind, load_preferences.
    cbn [preferences_file fst snd set_preferences].
    assert (Hkeep : forall s, preferences (snd (load_plan s)) = preferences s).
    { intros s. unfold load_plan.
      destruct (plan_file s) as [| |[]]; try reflexivity.
      now destruct (dict_has _ _). }
    rewrite Hkeep. cbn. now rewrite Hget.
Qed.

Lemma last_preference_update_wins_witness :
  getitem "cuisine"
    (preferences
       (snd (run_updates [("cuisine", JStr "thai"); ("budget", JStr "low");
                          ("cuisine", JStr "mexican")] fresh_guide)))
  = Ok (JStr "mexican") /\
  getitem "cuisine"
    (preferences
       (NYCGuide_init
          (preferences_file
             (snd (run_updates [("cuisine", JStr "thai"); ("budget", JStr "low");
                                ("cuisine", JStr "mexican")] fresh_guide)))
          (plan_file
             (snd (run_updates [("cuisine", JStr "thai"); ("budget", JStr "low");
                                ("cuisine", JStr "mexican")] fresh_guide)))
          (trace
             (snd (run_updates [("cuisine", JStr "thai"); ("budget", JStr "low");
                                ("cuisine", JStr "mexican")] fresh_guide)))))
  = Ok (JStr "mexican").
Proof.
  destruct (last_preference_update_wins
              [("cuisine", JStr "thai"); ("budget", JStr "low");
               ("cuisine", JStr "mexican")]
              "cuisine" (JStr "mexican") [("cuisine", JNull)] fresh_guide
              eq_refl eq_refl) as (_ & Hnow & _ & Hnew).
  split; [exact Hnow | exact Hnew].
Defined.

(** The [except] branches of the two loads: on a file that is missing or
    that [json.load] rejects with [JSONDecodeError], the state in memory
    becomes the default ([{"cuisine": null}], [{"venues": []}]) and that
    default is written to the file at once; the [else] branch of
    [load_plan] resets the plan in memory. *)
Theorem unreadable_store_is_reset (st1 st2 st3 : state) :
  unreadable (preferences_file st1) ->
  unreadable (plan_file st2) ->
  misshapen_plan (plan_file st3) ->
  (fst (load_preferences st1) = Ok tt /\
   preferences (snd (load_preferences st1)) = JDict [("cuisine", JNull)] /\
   preferences_file (snd (load_preferences st1)) = Doc (JDict [("cuisine", JNull)])) /\
  (fst (load_plan st2) = Ok tt /\
   plan (snd (load_plan st2)) = [("venues", JList [])] /\
   plan_file (snd (load_plan st2)) = Doc (JDict [("venues", JList [])])) /\
  (fst (load_plan st3) = Ok tt /\ plan (snd (load_plan st3)) = [("venues", JList [])]).
Proof.
  intros H1 H2 (j & Hj & Hshape). split; [|split].
  - unfold load_preferences. destruct H1 as [-> | ->]; repeat split.
  - unfold load_plan. destruct H2 as [-> | ->]; repeat split.
  - unfold load_plan. rewrite Hj. destruct j as [| | | | |d]; try (split; reflexivity).
    rewrite (Hshape d eq_refl). split; reflexivity.
Qed.

Lemma unreadable_store_is_reset_witness :
  preferences (snd (load_preferences
                      (mkState None None None [] JNull Missing Corrupt [])))
  = JDict [("cuisine", JNull)] /\
  plan_file (snd (load_plan (mkState None None None [] JNull Missing Corrupt [])))
  = Doc (JDict [("venues", JList [])]) /\
  plan (snd (load_plan (mkState None None None [] JNull Missing (Doc (JList [])) [])))
  = [("venues", JList [])].
Proof.
  destruct (unreadable_store_is_reset
              (mkState None None None [] JNull Missing Corrupt [])
              (mkState None None None [] JNull Missing Corrupt [])
              (mkState None None None [] JNull Missing (Doc (JList [])) []))
    as ((_ & Hp & _) & (_ & _ & Hf) & (_ & Hm)).
  - now left.
  - now right.
  - exists (JList []). split; [reflexivity | discriminate].
  - split; [exact Hp | split; [exact Hf | exact Hm]].
Defined.

(** C9. The code at the inputs where it breaks the claim: store files that
    are JSON but not of the expected structure. [load_preferences] has no
    check of the structure: a list is taken as the preferences, neither
    reset nor rewritten, and the next preference update raises [TypeError];
    its sibling [load_plan] rejects the same document. [load_plan] resets
    the plan in memory on such a file but, unlike its own [except] branch,
    does not save: the file keeps the rejected document. *)
Theorem misshapen_store_files_are_not_repaired :
  let thai := JList [JStr "thai"] in
  let st := mkState None None None [("venues", JList [])] JNull
                    (Doc thai) (Doc thai) [] in
  (* preferences: kept as they are, in memory and on file *)
  (fst (load_preferences st) = Ok tt /\
   preferences (snd (load_preferences st)) = thai /\
   preferences (snd (load_preferences st)) <> JDict [("cuisine", JNull)] /\
   preferences_file (snd (load_preferences st)) = Doc thai /\
   fst (update_preference "cuisine" (JStr "mexican") (snd (load_preferences st)))
   = Raised TypeError) /\
  (* plan: reset in memory, the file left as it is *)
  (fst (load_plan st) = Ok tt /\
   plan (snd (load_plan st)) = [("venues", JList [])] /\
   plan_file (snd (load_plan st)) = Doc thai /\
   plan_file (snd (load_plan st)) <> Doc (JDict [("venues", JList [])])) /\
  (* the same through [NYCGuide()] *)
  (preferences (NYCGuide_init (Doc thai) (Doc thai) []) = thai /\
   preferences_file (NYCGuide_init (Doc thai) (Doc thai) []) = Doc thai /\
   plan (NYCGuide_init (Doc thai) (Doc thai) []) = [("venues", JList [])] /\
   plan_file (NYCGuide_init (Doc thai) (Doc thai) []) = Doc thai) /\
  (* the [except] branches, for comparison, do save the default *)
  (preferences_file (NYCGuide_init Corrupt Corrupt [])
   = Doc (JDict [("cuisine", JNull)]) /\
   plan_file (NYCGuide_init Corrupt Corrupt []) = Doc (JDict [("venues", JList [])])).
Proof.
  cbv zeta. split; [|split; [|split]].
  - repeat split. discriminate.
  - repeat split. discriminate.
  - repeat split.
  - split; reflexivity.
Qed.

(** ** Lifecycle of the session memory *)

Section Lifecycle.

Variable srv : Services.

Lemma NYCGuide_init_session (prefs plans : file) (tr : list event) :
  last_response (NYCGuide_init prefs plans tr) = None /\
  last_context (NYCGuide_init prefs plans tr) = None /\
  last_classification (NYCGuide_init prefs plans tr) = None.
Proof.
  unfold NYCGuide_init, bind, load_preferences, load_plan.
  destruct prefs as [| |j]; destruct plans as [| |[| | | | |d]]; cbn;
    try destruct (dict_has _ _); repeat split.
Qed.

Local Ltac all_paths :=
  repeat (cbv beta iota;
          match goal with
          | |- context [match ?x with _ => _ end] =>
              match type of x with
              | prod _ _ => fail 1
              | _ => destruct x
              end
          end).

(** Once the classification is back, a recommendation turn stores it,
    whatever happens next. *)
Lemma get_recommendations_stores_classification (q content : string) (st : state) :
  ~ plan_add_utterance q ->
  complete srv (trace st) (ClassificationPrompt q) = Some content ->
  last_classification (snd (get_recommendations srv q st))
  = Some (parse_classification content).
Proof.
  intros Hq Hcl. unfold get_recommendations. rewrite (has_plan_phrase_false _ Hq).
  rewrite (bind_classify_query _ _ _ _ _ Hcl), bind_modify.
  generalize (parse_classification content). intros c.
  unfold update_preference, save_preferences, similarity_search, invoke,
    bind, gets, lift, modify, ret.
  cbn [preferences set_last_classification log trace].
  all_paths; reflexivity.
Qed.

(** A preference statement leaves the answer memory alone. *)
Lemma get_recommendations_preference (q content : string) (st : state) :
  ~ plan_add_utterance q ->
  complete srv (trace st) (ClassificationPrompt q) = Some content ->
  is_cuisine_preference (parse_classification content) = true ->
  same_answer_memory st (snd (get_recommendations srv q st)).
Proof.
  intros Hq Hcl Hpref. unfold get_recommendations. rewrite (has_plan_phrase_false _ Hq).
  rewrite (bind_classify_query _ _ _ _ _ Hcl), bind_modify, Hpref.
  unfold update_preference, save_preferences, bind, gets, lift, modify, ret.
  cbn [preferences set_last_classification log].
  destruct (setitem _ _ _); split; reflexivity.
Qed.

End Lifecycle.

(** C5, as the code has it. The three session fields are empty after
    start-up. The plan commands and the follow-up methods change none of
    them. A recommendation turn whose classification comes back stores that
    classification in [last_classification] whatever the outcome; a
    preference statement and a retrieval without usable match leave
    [last_response] and [last_context] as they were; a successful
    recommendation overwrites them with the joined passages and the
    answer. *)
Theorem session_memory_lifecycle
    (srv : Services) (q content : string) (st : state) :
  ~ plan_add_utterance q ->
  complete srv (trace st) (ClassificationPrompt q) = Some content ->
  (forall prefs plans tr,
      last_response (NYCGuide_init prefs plans tr) = None /\
      last_context (NYCGuide_init prefs plans tr) = None /\
      last_classification (NYCGuide_init prefs plans tr) = None) /\
  (same_session st (snd (add_to_plan srv st)) /\
   same_session st (snd (get_plan_summary srv st)) /\
   same_session st (snd (generate_day_plan srv st)) /\
   (forall q', same_session st (snd (is_follow_up_question srv q' st))) /\
   (forall q', same_session st (snd (handle_follow_up srv q' st)))) /\
  last_classification (snd (get_recommendations srv q st))
  = Some (parse_classification content) /\
  (is_cuisine_preference (parse_classification content) = true ->
   same_answer_memory st (snd (get_recommendations srv q st))) /\
  (forall qd results,
      is_cuisine_preference (parse_classification content) = false ->
      enhance_query q (parse_classification content) (preferences st) = Ok qd ->
      search srv (trace st ++ [Invoked (ClassificationPrompt q)]) qd 4 = Some results ->
      (no_usable_match results = true ->
       same_answer_memory st (snd (get_recommendations srv q st))) /\
      (no_usable_match results = false ->
       forall answer,
         complete srv (trace st ++ [Invoked (ClassificationPrompt q)] ++ [Searched qd 4])
           (InitialPrompt (PyStr.join context_separator (map fst results)) q
              (field (parse_classification content) "category")
              (field (parse_classification content) "intent")
              (field (parse_classification content) "key_terms")
              (preferences_to_pass (parse_classification content) (preferences st)))
         = Some answer ->
         fst (get_recommendations srv q st) = Ok answer /\
         last_context (snd (get_recommendations srv q st))
         = Some (PyStr.join context_separator (map fst results)) /\
         last_response (snd (get_recommendations srv q st)) = Some answer)).
Proof.
  intros Hq Hcl. split; [apply NYCGuide_init_session|]. split.
  { split; [apply add_to_plan_same_session|].
    split; [apply get_plan_summary_same_session|].
    split; [apply generate_day_plan_same_session|].
    split; intros q'.
    - apply is_follow_up_question_same_session.
    - apply handle_follow_up_same_session. }
  split; [now apply get_recommendations_stores_classification|].
  split; [now apply get_recommendations_preference|].
  intros qd results Hpref Henh Hsearch.
  rewrite (get_recommendations_retrieved srv q content qd results st) by assumption.
  cbv zeta. split; intros Hmatch; rewrite Hmatch.
  - split; reflexivity.
  - intros answer Hans. rewrite (bind_invoke srv _ answer).
    + repeat split.
    + cbn [trace log set_last_context set_last_classification].
      rewrite <- app_assoc. exact Hans.
Qed.

Lemma session_memory_lifecycle_witness :
  last_classification
    (snd (get_recommendations
            (fixed_services (Some "Category: Entertainment") None (Some "Go to Smalls")
                            (Some [("Smalls Jazz Club", 0.9%float)]) "t")
            "live jazz tonight" fresh_guide))
  = Some (parse_classification "Category: Entertainment") /\
  last_context
    (snd (get_recommendations
            (fixed_services (Some "Category: Entertainment") None (Some "Go to Smalls")
                            (Some [("Smalls Jazz Club", 0.9%float)]) "t")
            "live jazz tonight" fresh_guide))
  = Some "Smalls Jazz Club" /\
  last_response
    (snd (get_recommendations
            (fixed_services (Some "Category: Entertainment") None (Some "Go to Smalls")
                            (Some [("Smalls Jazz Club", 0.9%float)]) "t")
            "live jazz tonight" fresh_guide))
  = Some "Go to Smalls".
Proof.
  assert (Hq : ~ plan_add_utterance "live jazz tonight").
  { intros H. apply has_plan_phrase_iff in H. discriminate H. }
  destruct (session_memory_lifecycle
              (fixed_services (Some "Category: Entertainment") None (Some "Go to Smalls")
                              (Some [("Smalls Jazz Club", 0.9%float)]) "t")
              "live jazz tonight" "Category: Entertainment" fresh_guide Hq eq_refl)
    as (_ & _ & Hcl & _ & Hret).
  split; [exact Hcl|].
  destruct (Hret "live jazz tonight" [("Smalls Jazz Club", 0.9%float)]
                 eq_refl eq_refl eq_refl) as [_ Hsuccess].
  destruct (Hsuccess eq_refl "Go to Smalls" eq_refl) as (_ & Hctx & Hresp).
  split; [exact Hctx | exact Hresp].
Defined.

(** C5 as claimed fails twice: a follow-up returns an answer and leaves
    the session fields as they were, and a turn whose retrieval finds no
    match does modify [last_classification]. *)
Lemma follow_up_keeps_and_no_match_touches_session :
  let srv := fixed_services (Some "Category: Price/Budget Inquiry") None
                            (Some "About $5 a slice") (Some []) "t" in
  let st := advised_guide "Joe's Pizza, Soho" "Try Joe's" in
  (fst (handle_follow_up srv "how much is it?" st) = Ok "About $5 a slice" /\
   last_response (snd (handle_follow_up srv "how much is it?" st)) = Some "Try Joe's" /\
   last_context (snd (handle_follow_up srv "how much is it?" st))
   = Some "Joe's Pizza, Soho" /\
   last_classification (snd (handle_follow_up srv "how much is it?" st)) = None) /\
  (fst (get_recommendations srv "a place on the moon" st) = Ok no_match_message /\
   last_classification st = None /\
   last_classification (snd (get_recommendations srv "a place on the moon" st))
   = Some (parse_classification "Category: Price/Budget Inquiry")).
Proof. cbv zeta. repeat split. Qed.

(** ** Normalisation of the input line *)

Section Normalisation.

Variable srv : Services.

Lemma carries_plan_event (u : string) (e : event) : is_plan_event e -> carries u e.
Proof. destruct e as [[]| |]; simpl; tauto. Qed.

Lemma carries_query_event (u : string) (e : event) : is_query_event u e -> carries u e.
Proof. destruct e as [[]| |]; simpl; tauto. Qed.

Lemma main_turn_calls (line : string) :
  keeps (calls_only (carries (PyStr.lower (PyStr.strip line)))) (main_turn srv line).
Proof.
  set (u := PyStr.lower (PyStr.strip line)).
  assert (Hsilent : forall s s', trace s' = trace s -> calls_only (carries u) s s').
  { intros s s'. apply calls_only_silent. }
  apply (keeps_main_turn srv _ (carries u)); try typeclasses eauto;
    try (intros; now apply Hsilent).
  - intros e s He. now apply calls_only_log.
  - apply carries_plan_event.
  - apply (keeps_add_to_plan srv _ (carries u)); try typeclasses eauto;
      try (intros; now apply Hsilent).
    + intros e s He. now apply calls_only_log.
    + apply carries_plan_event.
  - apply carries_query_event.
Qed.

End Normalisation.

(** C10. The loop routes the line stripped of surrounding whitespace and
    put in lower case: a turn on a line is the turn on its normal form, so
    that two lines with the same normal form cannot be told apart, and every
    external call of the turn that carries a query (classification,
    retrieval, recommendation and follow-up prompts) carries that normal
    form, for retrieval possibly with the cuisine suffix. *)
Theorem input_is_normalised_before_routing
    (srv : Services) (line : string) (st : state) :
  main_turn srv line st = main_turn srv (PyStr.lower (PyStr.strip line)) st /\
  (forall line' : string,
      PyStr.lower (PyStr.strip line') = PyStr.lower (PyStr.strip line) ->
      main_turn srv line' st = main_turn srv line st) /\
  calls_only (carries (PyStr.lower (PyStr.strip line))) st (snd (main_turn srv line st)).
Proof.
  split; [|split].
  - unfold main_turn. now rewrite PyStrFacts.normalise_idem.
  - intros line' H. unfold main_turn. now rewrite H.
  - apply main_turn_calls.
Qed.

Lemma input_is_normalised_before_routing_witness :
  main_turn (fixed_services None None (Some "Your plan") None "t")
    "show plan" (advised_guide "Joe's Pizza, Soho" "Try Joe's")
  = main_turn (fixed_services None None (Some "Your plan") None "t")
      "  SHOW Plan " (advised_guide "Joe's Pizza, Soho" "Try Joe's").
Proof.
  apply (proj1 (proj2 (input_is_normalised_before_routing
                         (fixed_services None None (Some "Your plan") None "t")
                         "  SHOW Plan " (advised_guide "Joe's Pizza, Soho" "Try Joe's")))).
  reflexivity.
Defined.

(** ** The plan *)

Section Plan_entries.

Lemma mapM_snoc {A B : Type} (f : A -> res B) (l : list A) (a : A)
    (bs : list B) (b : B) :
  mapM f l = Ok bs -> f a = Ok b -> mapM f (l ++ [a]) = Ok (bs ++ [b]).
Proof.
  revert bs. induction l as [|x l IH]; intros bs Hl Ha; simpl in *.
  - injection Hl as <-. now rewrite Ha.
  - destruct (f x) as [y|]; [|discriminate].
    destruct (mapM f l) as [ys|]; [|discriminate].
    injection Hl as <-. now rewrite (IH ys eq_refl Ha).
Qed.

Lemma mapM_lookup {A B : Type} (f : A -> res B) (l : list A) (bs : list B)
    (i : nat) (a : A) :
  mapM f l = Ok bs -> l !! i = Some a ->
  exists b : B, f a = Ok b /\ bs !! i = Some b.
Proof.
  revert bs i. induction l as [|x l IH]; intros bs i Hl Hi; [discriminate|].
  simpl in Hl. destruct (f x) as [y|] eqn:Hx; [|discriminate].
  destruct (mapM f l) as [ys|]; [|discriminate]. injection Hl as <-.
  destruct i as [|i]; simpl in Hi.
  - injection Hi as <-. now exists y.
  - destruct (IH ys i eq_refl Hi) as (b & Hb & Hbs). now exists b.
Qed.

(** On readable entries the test of [add_to_plan] is membership of the
    lowered name among the lowered names of the plan. *)
Lemma any_same_name_readable (target : string) (venues : list json)
    (names : list string) :
  mapM entry_name_lower venues = Ok names ->
  any_same_name target venues = Ok (existsb (fun n => String.eqb n target) names).
Proof.
  revert names. induction venues as [|v venues IH]; intros names H; simpl in *.
  - now injection H as <-.
  - destruct (entry_name_lower v) as [n|]; [|discriminate].
    destruct (mapM entry_name_lower venues) as [ns|]; [|discriminate].
    injection H as <-. simpl. destruct (String.eqb n target); [reflexivity|].
    now apply IH.
Qed.

Lemma existsb_eqb_false (target : string) (names : list string) :
  existsb (fun n => String.eqb n target) names = false -> ~ In target names.
Proof.
  intros H Hin. assert (existsb (fun n => String.eqb n target) names = true).
  { apply existsb_exists. exists target. split; [exact Hin | apply String.eqb_refl]. }
  congruence.
Qed.

Lemma venue_entry_name (info : list (string * string)) (added_at context : string) :
  entry_name_lower (venue_entry_of info added_at context)
  = Ok (PyStr.lower (default "" (dict_get "name" info))).
Proof.
  unfold venue_entry_of, entry_name_lower.
  rewrite (dict_get_map JStr), !dict_get_set_ne by discriminate.
  now destruct (dict_get "name" info).
Qed.

Lemma plan_ok_distinct (p : list (string * json)) : plan_ok p -> distinct_names p.
Proof.
  intros (venues & names & Hv & Hnames & Hnodup). exists venues. split; [exact Hv|].
  intros i j v w Hi Hj Hij.
  destruct (mapM_lookup _ _ _ _ _ Hnames Hi) as (n & Hn & Hni).
  destruct (mapM_lookup _ _ _ _ _ Hnames Hj) as (m & Hm & Hmj).
  exists n, m. repeat split; try assumption.
  intros ->. apply Hij. eapply NoDup_lookup; eassumption.
Qed.

End Plan_entries.

Section Plan_invariant.

Variable srv : Services.

Lemma bind_clock {B : Type} (k : string -> M B) (st : state) :
  bind (clock srv) k st = k (now srv (trace st)) (log ClockRead st).
Proof. reflexivity. Qed.

Lemma plan_log (e : event) (st : state) : plan (log e st) = plan st.
Proof. reflexivity. Qed.

Lemma catch_ok {A : Type} (m handler : M A) (st st' : state) (a : A) :
  m st = (Ok a, st') -> catch m handler st = (Ok a, st').
Proof. intros H. unfold catch. now rewrite H. Qed.

(** [add_to_plan] on a plan with readable entries, when the extraction
    answers: either the name is known and nothing is written, or the entry
    is appended and the plan saved. *)
Lemma add_to_plan_run (context content : string) (venues : list json)
    (names : list string) (st : state) :
  last_context st = Some context -> context <> "" ->
  complete srv (trace st) (ExtractionPrompt context) = Some content ->
  dict_get "venues" (plan st) = Some (JList venues) ->
  mapM entry_name_lower venues = Ok names ->
  let info := parse_venue_info content in
  let st1 := log (Invoked (ExtractionPrompt context)) st in
  add_to_plan srv st
  = if existsb (fun n => String.eqb n (PyStr.lower (default "" (dict_get "name" info))))
               names
    then (Ok (default "This venue" (dict_get "name" info) +:+ " is already in your plan!"),
          st1)
    else
      let plan' :=
        dict_set "venues"
          (JList (venues ++ [venue_entry_of info (now srv (trace st1)) context]))
          (plan st) in
      (Ok ("Added " +:+ default "the venue" (dict_get "name" info)
             +:+ " to your NYC plan!"),
       set_plan_file (Doc (JDict plan')) (set_plan plan' (log ClockRead st1))).
Proof.
  intros Hctx Hne Hsrv Hvenues Hnames. cbv zeta.
  unfold add_to_plan. rewrite Hctx, (truthy_text_some _ Hne). cbn [negb default from_option id].
  destruct (existsb _ names) eqn:Hknown; apply catch_ok;
    unfold add_to_plan_try, extract_venue_info;
    rewrite bind_bind, (bind_invoke srv _ content) by exact Hsrv;
    rewrite bind_ret, bind_gets; unfold plan_venues; cbn [plan log];
    rewrite Hvenues; cbn [default from_option id iterate]; rewrite bind_lift_ok;
    rewrite (any_same_name_readable _ _ _ Hnames), Hknown, bind_lift_ok;
    [reflexivity|].
  rewrite bind_clock. unfold bind, ensure_venues, append_venue, dict_has.
  rewrite !plan_log, Hvenues. cbv beta iota. rewrite !plan_log, Hvenues. reflexivity.
Qed.

Lemma sound_plan_same (st st' : state) :
  same_plan st st' -> keeps_sound_plan st st'.
Proof. intros [Hp Hf] [H1 H2]. split; congruence. Qed.

Lemma sound_plan_silent (st st' : state) :
  plan st' = plan st -> plan_file st' = plan_file st -> keeps_sound_plan st st'.
Proof. intros Hp Hf. apply sound_plan_same. now split. Qed.

(** Whatever the services do, [add_to_plan] leaves the plan as it was or
    appends one entry with a new name. *)
Lemma add_to_plan_sound : keeps keeps_sound_plan (add_to_plan srv).
Proof.
  intros st Hsound. pose proof Hsound as [(venues & names & Hv & Hn & Hnd) Hfile].
  destruct (truthy_text (last_context st)) eqn:Ht.
  - destruct (last_context st) as [context|] eqn:Hctx; [|discriminate].
    assert (Hne : context <> "").
    { intros ->. discriminate Ht. }
    destruct (complete srv (trace st) (ExtractionPrompt context)) as [content|] eqn:Hsrv.
    + rewrite (add_to_plan_run context content venues names st) by assumption.
      cbv zeta. destruct (existsb _ names) eqn:Hknown; [exact Hsound|].
      apply existsb_eqb_false in Hknown.
      assert (Hok : plan_ok
                      (dict_set "venues"
                         (JList (venues ++
                                   [venue_entry_of (parse_venue_info content)
                                      (now srv (trace (log (Invoked (ExtractionPrompt context)) st)))
                                      context]))
                         (plan st))).
      { eexists; eexists. split; [apply dict_get_set_eq|]. split.
        - eapply mapM_snoc; [exact Hn | apply venue_entry_name].
        - apply NoDup_app. split; [exact Hnd|]. split.
          + intros x Hx Hx'. apply list_elem_of_In in Hx, Hx'.
            destruct Hx' as [<-|[]]. contradiction.
          + apply NoDup_singleton. }
      split; [exact Hok | intros _; exact Hok].
    + unfold add_to_plan. rewrite Hctx, Ht. cbn [negb].
      unfold catch, add_to_plan_try, extract_venue_info.
      rewrite bind_bind, (bind_invoke_raised srv) by exact Hsrv. exact Hsound.
  - unfold add_to_plan. rewrite Ht. exact Hsound.
Qed.

Lemma load_plan_sound : keeps keeps_sound_plan load_plan.
Proof.
  intros st [Hplan Hfile]. unfold load_plan.
  assert (Hdefault : plan_ok default_plan).
  { exists [], []. repeat split. constructor. }
  destruct (plan_file st) as [| |j] eqn:Hf; rewrite ?Hf in Hfile.
  - split; [exact Hdefault | intros _; exact Hdefault].
  - split; [exact Hdefault | intros _; exact Hdefault].
  - destruct j as [| | | | |d];
      try (split; [exact Hdefault | cbn; rewrite Hf; exact I]).
    destruct (dict_has "venues" d) eqn:Hhas.
    + split; [apply Hfile; exact Hhas | cbn; rewrite Hf; exact Hfile].
    + split; [exact Hdefault | cbn; rewrite Hf; exact Hfile].
Qed.

Lemma save_plan_sound : keeps keeps_sound_plan save_plan.
Proof. intros st [Hplan Hfile]. split; [exact Hplan | intros _; exact Hplan]. Qed.

Lemma load_preferences_same_plan : keeps same_plan load_preferences.
Proof.
  apply keeps_load_preferences; try typeclasses eauto; intros; now split.
Qed.

Lemma NYCGuide_init_sound (prefs plans : file) (tr : list event) :
  plan_file_ok plans -> sound_plan (NYCGuide_init prefs plans tr).
Proof.
  intros Hok. unfold NYCGuide_init.
  set (st0 := mkState None None None default_plan JNull prefs plans tr).
  assert (H0 : sound_plan st0).
  { split; [|exact Hok]. exists [], []. repeat split. constructor. }
  unfold bind. pose proof (load_preferences_same_plan st0) as Hsame.
  destruct (load_preferences st0) as [[[]|e] st1]; cbn [snd] in *.
  - apply load_plan_sound, (sound_plan_same _ _ Hsame), H0.
  - apply (sound_plan_same _ _ Hsame), H0.
Qed.

Lemma run_sound (c : call) (st : state) : sound_plan st -> sound_plan (run srv c st).
Proof.
  assert (Hsilent : forall s s', plan s' = plan s -> plan_file s' = plan_file s ->
                                 keeps_sound_plan s s') by apply sound_plan_silent.
  assert (Hlog : forall (e : event) s, True -> keeps_sound_plan s (log e s)).
  { intros e s _. now apply Hsilent. }
  revert st. destruct c; cbn [run];
    try match goal with
        | |- forall st, sound_plan st -> sound_plan (snd (?m st)) =>
            change (keeps keeps_sound_plan m)
        end.
  - apply add_to_plan_sound.
  - apply (keeps_get_recommendations srv _ (fun _ => True)); try typeclasses eauto;
      try (intros; now apply Hsilent); trivial. apply add_to_plan_sound.
  - apply (keeps_handle_follow_up srv _ (fun _ => True)); try typeclasses eauto;
      try (intros; now apply Hsilent); trivial. apply add_to_plan_sound.
  - apply (keeps_is_follow_up_question srv _ (fun _ => True)); try typeclasses eauto;
      try (intros; now apply Hsilent); trivial.
  - apply (keeps_classify_query srv _ (fun _ => True)); try typeclasses eauto;
      try (intros; now apply Hsilent); trivial.
  - apply (keeps_extract_venue_info srv _ (fun _ => True)); try typeclasses eauto;
      try (intros; now apply Hsilent); trivial.
  - apply (keeps_get_plan_summary srv _ (fun _ => True)); try typeclasses eauto;
      try (intros; now apply Hsilent); trivial.
  - apply (keeps_generate_day_plan srv _ (fun _ => True)); try typeclasses eauto;
      try (intros; now apply Hsilent); trivial.
  - apply keeps_update_preference; try typeclasses eauto; intros; now apply Hsilent.
  - apply keeps_load_preferences; try typeclasses eauto; intros; now apply Hsilent.
  - apply keeps_save_preferences; try typeclasses eauto; intros; now apply Hsilent.
  - apply load_plan_sound.
  - apply save_plan_sound.
  - apply (keeps_main_turn srv _ (fun _ => True)); try typeclasses eauto;
      try (intros; now apply Hsilent); trivial. apply add_to_plan_sound.
  - intros st [_ Hfile]. now apply NYCGuide_init_sound.
Qed.

Lemma reachable_sound (st : state) : reachable srv st -> sound_plan st.
Proof.
  induction 1 as [prefs plans tr Hok | c st _ IH].
  - now apply NYCGuide_init_sound.
  - now apply run_sound.
Qed.

End Plan_invariant.

Lemma mapM_In {A B : Type} (f : A -> res B) (l : list A) (bs : list B) (a : A) (b : B) :
  mapM f l = Ok bs -> In a l -> f a = Ok b -> In b bs.
Proof.
  intros Hl Ha Hb. apply list_elem_of_In, list_elem_of_lookup in Ha as [i Hi].
  destruct (mapM_lookup _ _ _ _ _ Hl Hi) as (b' & Hb' & Hbs).
  assert (b' = b) as -> by congruence.
  apply list_elem_of_In, list_elem_of_lookup. now exists i.
Qed.

(** C2. In every reachable state the venues of the plan are readable
    records no two of which have the same name up to case; and when the
    name extracted from [last_context] equals, up to case, the name of an
    entry of the plan, [add_to_plan] answers that the venue is already in
    the plan and changes nothing but the history of calls: the plan, its
    length and the plan file are as they were. *)
Theorem plan_names_stay_distinct
    (srv : Services) (st : state) (context content : string) :
  reachable srv st ->
  distinct_names (plan st) /\
  (last_context st = Some context -> context <> "" ->
   complete srv (trace st) (ExtractionPrompt context) = Some content ->
   (exists (venues : list json) (v : json),
       dict_get "venues" (plan st) = Some (JList venues) /\ In v venues /\
       entry_name_lower v
       = Ok (PyStr.lower (default "" (dict_get "name" (parse_venue_info content))))) ->
   fst (add_to_plan srv st)
   = Ok (default "This venue" (dict_get "name" (parse_venue_info content))
           +:+ " is already in your plan!") /\
   snd (add_to_plan srv st) = log (Invoked (ExtractionPrompt context)) st /\
   plan (snd (add_to_plan srv st)) = plan st /\
   plan_file (snd (add_to_plan srv st)) = plan_file st).
Proof.
  intros Hreach. destruct (reachable_sound srv st Hreach) as [Hok _].
  split; [now apply plan_ok_distinct|].
  intros Hctx Hne Hsrv (venues & v & Hvenues & Hv & Hname).
  destruct Hok as (venues' & names & Hvenues' & Hnames & _).
  assert (venues' = venues) as -> by congruence.
  rewrite (add_to_plan_run srv context content venues names st) by assumption.
  cbv zeta.
  assert (existsb
            (fun n => String.eqb n
               (PyStr.lower (default "" (dict_get "name" (parse_venue_info content)))))
            names = true) as ->.
  { apply existsb_exists. eexists. split; [|apply String.eqb_refl].
    eapply mapM_In; eassumption. }
  repeat split.
Qed.

Lemma plan_names_stay_distinct_witness :
  reachable pizza_services planned_guide /\
  distinct_names (plan planned_guide) /\
  fst (add_to_plan pizza_services planned_guide) = Ok "Joe's Pizza is already in your plan!" /\
  plan (snd (add_to_plan pizza_services planned_guide)) = plan planned_guide.
Proof.
  assert (Hreach : reachable pizza_services planned_guide).
  { apply reach_call, reach_call, (reach_start pizza_services Missing Missing []).
    exact I. }
  split; [exact Hreach|].
  destruct (plan_names_stay_distinct pizza_services planned_guide
              "Joe's Pizza, Soho" "Name: Joe's Pizza" Hreach) as [Hdistinct Hdup].
  split; [exact Hdistinct|].
  destruct Hdup as (Hmsg & _ & Hplan & _).
  - reflexivity.
  - discriminate.
  - reflexivity.
  - eexists; eexists. split; [reflexivity|]. split; [left; reflexivity | reflexivity].
  - split; [exact Hmsg | exact Hplan].
Defined.

(** * Further properties of the code *)

(** ** Venue extraction *)

Section Extraction.

Import PyStr PyStrFacts.

Lemma extract_line_entry (info : list (string * string)) (line : string) :
  extract_line info line
  = match line_entry line with
    | Some (k, v) => dict_set k v info
    | None => info
    end.
Proof.
  unfold extract_line, line_entry.
  destruct (contains line ":") eqn:E.
  - now destruct (split_once ":" line) as [[key value]|].
  - destruct (split_once ":" line) as [[key value]|] eqn:Hs; [|reflexivity].
    assert (contains line ":" = true) by (apply split_once_contains; eauto).
    congruence.
Qed.

Lemma split_once_first (k v : string) :
  contains k ":" = false -> split_once ":" (k +:+ ":" +:+ v) = Some (k, v).
Proof.
  induction k as [|c k IH]; intros H; [reflexivity|].
  rewrite contains_unfold in H. apply orb_false_elim in H as [Hc Hk].
  cbn [startswith] in Hc. rewrite andb_true_r, Ascii.eqb_sym in Hc.
  change (String c k +:+ ":" +:+ v) with (String c (k +:+ ":" +:+ v)).
  cbn [split_once]. rewrite Hc, (IH Hk). reflexivity.
Qed.

Lemma split_once_none (line : string) :
  contains line ":" = false -> split_once ":" line = None.
Proof.
  intros H. destruct (split_once ":" line) as [[a b]|] eqn:E; [|reflexivity].
  assert (contains line ":" = true) by (apply split_once_contains; eauto).
  congruence.
Qed.

Lemma dict_set_In {V : Type} (k k' : string) (v v' : V) (d : list (string * V)) :
  In (k', v') (dict_set k v d) -> (k', v') = (k, v) \/ In (k', v') d.
Proof.
  induction d as [|[k0 v0] d IH]; simpl.
  - intros [H|[]]. now left.
  - destruct (String.eqb k0 k); simpl; intros [H|H]; auto.
    destruct (IH H); auto.
Qed.

Lemma dict_set_keys {V : Type} (k : string) (v : V) (d : list (string * V)) :
  map fst (dict_set k v d)
  = if dict_has k d then map fst d else map fst d ++ [k].
Proof.
  unfold dict_has. induction d as [|[k0 v0] d IH]; simpl; [reflexivity|].
  destruct (String.eqb k0 k) eqn:E; simpl.
  - apply String.eqb_eq in E. now subst.
  - rewrite IH. now destruct (dict_get k d).
Qed.

Lemma dict_has_false {V : Type} (k : string) (d : list (string * V)) :
  dict_has k d = false -> ~ In k (map fst d).
Proof.
  unfold dict_has. induction d as [|[k0 v0] d IH]; simpl; [tauto|].
  destruct (String.eqb k0 k) eqn:E; [discriminate|].
  intros H [->|Hin]; [now rewrite String.eqb_refl in E | now apply IH].
Qed.

Lemma dict_set_NoDup {V : Type} (k : string) (v : V) (d : list (string * V)) :
  NoDup (map fst d) -> NoDup (map fst (dict_set k v d)).
Proof.
  intros H. rewrite dict_set_keys. destruct (dict_has k d) eqn:E; [exact H|].
  apply NoDup_app. split; [exact H|]. split; [|apply NoDup_singleton].
  intros x Hx Hx'. apply list_elem_of_In in Hx, Hx'. destruct Hx' as [<-|[]].
  now apply (dict_has_false _ _ E).
Qed.

End Extraction.

(** X1. Whatever the completion service answers, the record that
    [extract_venue_info] builds has pairwise distinct keys, each key is
    stripped and in lower case, and each value is stripped. *)
Theorem extracted_record_is_normalised (content : string) :
  NoDup (map fst (parse_venue_info content)) /\
  forall k v : string,
    In (k, v) (parse_venue_info content) ->
    PyStr.lower k = k /\ PyStr.strip k = k /\ PyStr.strip v = v.
Proof.
  unfold parse_venue_info.
  assert (H : forall (ls : list string) (info : list (string * string)),
             (NoDup (map fst info) /\
              forall k v, In (k, v) info ->
                PyStr.lower k = k /\ PyStr.strip k = k /\ PyStr.strip v = v) ->
             NoDup (map fst (fold_left extract_line ls info)) /\
             forall k v, In (k, v) (fold_left extract_line ls info) ->
               PyStr.lower k = k /\ PyStr.strip k = k /\ PyStr.strip v = v).
  { induction ls as [|line ls IH]; intros info [Hnd Hin]; [now split|].
    cbn [fold_left]. apply IH. rewrite extract_line_entry. unfold line_entry.
    destruct (PyStr.split_once ":" line) as [[key value]|]; [|now split].
    split; [now apply dict_set_NoDup|].
    intros k v Hkv. apply dict_set_In in Hkv. destruct Hkv as [Heq|Hkv]; [|now apply Hin].
    injection Heq as -> ->.
    repeat split.
    - apply PyStrFacts.lower_idem.
    - now rewrite PyStrFacts.strip_lower, PyStrFacts.strip_idem.
    - apply PyStrFacts.strip_idem. }
  apply H. split; [constructor | intros k v []].
Qed.

(** X2. A line of the extraction answer counts only if it has a colon; it
    is split at its first colon, so that a value may itself contain colons;
    and when several lines give the same normalised key, the last one
    wins. *)
Theorem extraction_last_line_wins (content key : string) :
  (forall k v : string,
      PyStr.contains k ":" = false ->
      line_entry (k +:+ ":" +:+ v) = Some (PyStr.lower (PyStr.strip k), PyStr.strip v)) /\
  (forall line : string, PyStr.contains line ":" = false -> line_entry line = None) /\
  dict_get key (parse_venue_info content)
  = option_map snd
      (last (List.filter (fun kv : string * string => String.eqb (fst kv) key)
               (omap line_entry (PyStr.split PyStr.newline content)))).
Proof.
  split; [|split].
  - intros k v H. unfold line_entry. now rewrite split_once_first.
  - intros line H. unfold line_entry. now rewrite split_once_none.
  - unfold parse_venue_info.
    assert (H : forall (ls : list string) (info : list (string * string)),
               dict_get key (fold_left extract_line ls info)
               = match last (List.filter
                               (fun kv : string * string => String.eqb (fst kv) key)
                               (omap line_entry ls)) with
                 | Some kv => Some (snd kv)
                 | None => dict_get key info
                 end).
    { induction ls as [|line ls IH]; intros info; [reflexivity|].
      cbn [fold_left omap list_omap]. rewrite IH, extract_line_entry.
      destruct (line_entry line) as [[k v]|]; [|reflexivity].
      cbn [List.filter fst]. destruct (String.eqb k key) eqn:E.
      - rewrite last_cons. destruct (last _); [reflexivity|].
        apply String.eqb_eq in E as ->. cbn. apply dict_get_set_eq.
      - destruct (last _); [reflexivity|].
        apply String.eqb_neq in E. now apply dict_get_set_ne. }
    rewrite H. now destruct (last _).
Qed.

(** ** Adding to the plan *)

Section Plan_growth.

Variable srv : Services.

Lemma dict_set_set {V : Type} (k : string) (v v' : V) (d : list (string * V)) :
  dict_set k v (dict_set k v' d) = dict_set k v d.
Proof.
  induction d as [|[k0 v0] d IH]; simpl.
  - now rewrite String.eqb_refl.
  - destruct (String.eqb k0 k) eqn:E; simpl.
    + now rewrite String.eqb_refl.
    + now rewrite E, IH.
Qed.

Local Ltac paths :=
  repeat (cbv beta iota;
          match goal with
          | |- context [match ?x with _ => _ end] =>
              match type of x with
              | prod _ _ => fail 1
              | _ => destruct x
              end
          end).

(** The [try] of [add_to_plan]: the preferences are not touched, and either
    the plan and its file are as before, or one entry was appended to the
    venues, the plan saved and the confirmation returned. *)
Lemma add_to_plan_try_outcome (context : string) (st : state) :
  same_preferences st (snd (add_to_plan_try srv context st)) /\
  (same_plan st (snd (add_to_plan_try srv context st)) \/
   exists (venues : list json) (entry : json) (name : string),
     plan_venues st = JList venues /\
     plan (snd (add_to_plan_try srv context st))
     = dict_set "venues" (JList (venues ++ [entry])) (plan st) /\
     plan_file (snd (add_to_plan_try srv context st))
     = Doc (JDict (plan (snd (add_to_plan_try srv context st)))) /\
     fst (add_to_plan_try srv context st)
     = Ok ("Added " +:+ name +:+ " to your NYC plan!")).
Proof.
  unfold add_to_plan_try, extract_venue_info, plan_venues, dict_has, ensure_venues,
    append_venue, save_plan, clock, invoke, bind, gets, lift, modify, ret.
  destruct (complete srv (trace st) (ExtractionPrompt context)) as [content|];
    [|split; [split|left; split]; reflexivity].
  unfold log, set_plan, set_plan_file. cbn [plan plan_file preferences preferences_file trace].
  assert (Hhas : dict_has "venues" (plan st)
                 = match dict_get "venues" (plan st) with Some _ => true | None => false end)
    by reflexivity.
  destruct (dict_get "venues" (plan st)) as [[| | | |venues|]|] eqn:Hv;
    cbn [default from_option id iterate];
    try (split; [split|left; split]; reflexivity).
  - (* a text: its characters have no [get] *)
    destruct (any_same_name _ _) as [[]|];
      try (split; [split|left; split]; reflexivity).
    cbn; rewrite ?Hhas; cbn; rewrite ?Hv; cbn. split; [split|left; split]; reflexivity.
  - (* a list *)
    destruct (any_same_name _ venues) as [[]|];
      try (split; [split|left; split]; reflexivity).
    cbn; rewrite ?Hhas; cbn; rewrite ?Hv; cbn. split; [split; reflexivity|]. right.
    eexists venues, _, _. repeat split.
  - (* a dict: its keys have no [get] *)
    destruct (any_same_name _ _) as [[]|];
      try (split; [split|left; split]; reflexivity).
    cbn; rewrite ?Hhas; cbn; rewrite ?Hv; cbn. split; [split|left; split]; reflexivity.
  - (* no venues key *)
    cbn; rewrite ?Hhas; cbn; rewrite ?dict_get_set_eq; cbn.
    split; [split; reflexivity|]. right.
    eexists [], _, _. split; [reflexivity|]. rewrite dict_set_set. repeat split.
Qed.

End Plan_growth.

(** X3. [add_to_plan] never raises, whatever the services and the stored
    plan are: it returns a message, leaves the preferences and their file
    alone, and either leaves the plan and the plan file as they were or
    appends exactly one entry to the venues, saves the plan and returns the
    confirmation. *)
Theorem add_to_plan_never_raises (srv : Services) (st : state) :
  exists msg : string,
    fst (add_to_plan srv st) = Ok msg /\
    same_preferences st (snd (add_to_plan srv st)) /\
    (same_plan st (snd (add_to_plan srv st)) \/
     exists (venues : list json) (entry : json) (name : string),
       plan_venues st = JList venues /\
       plan (snd (add_to_plan srv st))
       = dict_set "venues" (JList (venues ++ [entry])) (plan st) /\
       plan_file (snd (add_to_plan srv st)) = Doc (JDict (plan (snd (add_to_plan srv st)))) /\
       msg = "Added " +:+ name +:+ " to your NYC plan!").
Proof.
  unfold add_to_plan.
  destruct (negb (truthy_text (last_context st))).
  - exists no_venue_message. split; [reflexivity|]. split; [split|left; split]; reflexivity.
  - unfold catch.
    pose proof (add_to_plan_try_outcome srv (default "" (last_context st)) st) as [Hp Hplan].
    destruct (add_to_plan_try srv (default "" (last_context st)) st) as [[msg|e] st'];
      cbn [fst snd] in *.
    + exists msg. split; [reflexivity|]. split; [exact Hp|].
      destruct Hplan as [Hsame|(venues & entry & name & Hv & Hpl & Hf & Hm)];
        [now left|]. right. exists venues, entry, name.
      injection Hm as ->. now repeat split.
    + exists sorry_add_message. split; [reflexivity|]. split; [exact Hp|].
      destruct Hplan as [Hsame|(venues & entry & name & _ & _ & _ & Hm)];
        [now left | discriminate].
Qed.

Lemma existsb_eqb_not_in (target : string) (names : list string) :
  ~ In target names -> existsb (fun n => String.eqb n target) names = false.
Proof.
  intros H. destruct (existsb _ names) eqn:E; [|reflexivity].
  apply existsb_exists in E as (n & Hn & Heq). apply String.eqb_eq in Heq. now subst.
Qed.

(** X4. When the plan is readable and the extracted name is new, the entry
    that [add_to_plan] appends carries the extracted fields, except that its
    "context" is always [last_context] and its "added_at" the clock's time at
    the add, whatever the extraction answered under those two keys; the plan
    file then holds the new plan and the message names the venue. *)
Theorem added_entry_records_context_and_time
    (srv : Services) (context content : string) (venues : list json)
    (names : list string) (st : state) :
  last_context st = Some context -> context <> "" ->
  complete srv (trace st) (ExtractionPrompt context) = Some content ->
  dict_get "venues" (plan st) = Some (JList venues) ->
  mapM entry_name_lower venues = Ok names ->
  ~ In (PyStr.lower (default "" (dict_get "name" (parse_venue_info content)))) names ->
  exists entry : list (string * json),
    fst (add_to_plan srv st)
    = Ok ("Added " +:+ default "the venue" (dict_get "name" (parse_venue_info content))
            +:+ " to your NYC plan!") /\
    plan_venues (snd (add_to_plan srv st)) = JList (venues ++ [JDict entry]) /\
    plan_file (snd (add_to_plan srv st)) = Doc (JDict (plan (snd (add_to_plan srv st)))) /\
    dict_get "context" entry = Some (JStr context) /\
    dict_get "added_at" entry
    = Some (JStr (now srv (trace st ++ [Invoked (ExtractionPrompt context)]))) /\
    forall k : string,
      k <> "context" -> k <> "added_at" ->
      dict_get k entry = option_map JStr (dict_get k (parse_venue_info content)).
Proof.
  intros Hctx Hne Hsrv Hvenues Hnames Hnew.
  rewrite (add_to_plan_run srv context content venues names st) by assumption.
  cbv zeta. rewrite (existsb_eqb_not_in _ _ Hnew).
  eexists. split; [reflexivity|]. split.
  { unfold plan_venues. cbn [snd plan set_plan set_plan_file].
    rewrite dict_get_set_eq. reflexivity. }
  split; [reflexivity|]. split; [|split].
  - rewrite (dict_get_map JStr), dict_get_set_eq. reflexivity.
  - rewrite (dict_get_map JStr), dict_get_set_ne, dict_get_set_eq by discriminate.
    reflexivity.
  - intros k Hc Ht. rewrite (dict_get_map JStr), !dict_get_set_ne by congruence.
    reflexivity.
Qed.

Lemma added_entry_records_context_and_time_witness :
  exists entry : list (string * json),
    fst (add_to_plan
           (fixed_services None (Some (lines ["Name: Katz's"; "Context: elsewhere"]))
                           None None "2024-05-02T09:30:00")
           (advised_guide "Katz's Deli, Houston St" "Try Katz's"))
    = Ok "Added Katz's to your NYC plan!" /\
    dict_get "context" entry = Some (JStr "Katz's Deli, Houston St") /\
    dict_get "added_at" entry = Some (JStr "2024-05-02T09:30:00") /\
    dict_get "name" entry = Some (JStr "Katz's").
Proof.
  destruct (added_entry_records_context_and_time
              (fixed_services None (Some (lines ["Name: Katz's"; "Context: elsewhere"]))
                              None None "2024-05-02T09:30:00")
              "Katz's Deli, Houston St" (lines ["Name: Katz's"; "Context: elsewhere"])
              [] [] (advised_guide "Katz's Deli, Houston St" "Try Katz's"))
    as (entry & Hmsg & _ & _ & Hc & Ht & Hk); try reflexivity.
  - discriminate.
  - intros [].
  - exists entry. split; [exact Hmsg|]. split; [exact Hc|]. split; [exact Ht|].
    rewrite Hk by discriminate. reflexivity.
Defined.

Lemma extracted_record_is_normalised_witness :
  PyStr.lower "name" = "name" /\ PyStr.strip "name" = "name" /\
  PyStr.strip "Joe's Pizza" = "Joe's Pizza".
Proof.
  apply (proj2 (extracted_record_is_normalised "  NAME : Joe's Pizza  ")).
  left. reflexivity.
Defined.

Lemma extraction_last_line_wins_witness :
  line_entry (" Location" +:+ ":" +:+ " 5th Ave: corner of 42nd ")
  = Some ("location", "5th Ave: corner of 42nd") /\
  dict_get "name" (parse_venue_info (lines ["Name: first"; "no colon here"; "NAME: second"]))
  = Some "second".
Proof.
  destruct (extraction_last_line_wins
              (lines ["Name: first"; "no colon here"; "NAME: second"]) "name")
    as (Hfirst & _ & Hlast).
  split; [apply Hfirst; reflexivity | rewrite Hlast; reflexivity].
Defined.

(** ** The store files follow the memory *)

Global Instance same_preferences_preorder : PreOrder same_preferences.
Proof.
  split; [now intros st | intros a b c (?&?) (?&?)].
  split; congruence.
Qed.

Global Instance keeps_preferences_synced_preorder : PreOrder keeps_preferences_synced.
Proof. split; [now intros st | intros a b c Hab Hbc H; auto]. Qed.

Global Instance keeps_plan_synced_preorder : PreOrder keeps_plan_synced.
Proof. split; [now intros st | intros a b c Hab Hbc H; auto]. Qed.

Section Synced_stores.

Variable srv : Services.

Local Ltac paths :=
  repeat (cbv beta iota;
          match goal with
          | |- context [match ?x with _ => _ end] =>
              match type of x with
              | prod _ _ => fail 1
              | _ => destruct x
              end
          end).

Lemma preferences_synced_silent (st st' : state) :
  preferences st' = preferences st -> preferences_file st' = preferences_file st ->
  keeps_preferences_synced st st'.
Proof. unfold keeps_preferences_synced, preferences_synced. congruence. Qed.

Lemma plan_synced_silent (st st' : state) :
  plan st' = plan st -> plan_file st' = plan_file st -> keeps_plan_synced st st'.
Proof. unfold keeps_plan_synced, plan_synced. intros -> ->. trivial. Qed.

Lemma load_preferences_synced (st : state) : preferences_synced (snd (load_preferences st)).
Proof.
  unfold load_preferences, preferences_synced.
  destruct (preferences_file st) eqn:E; cbn; congruence.
Qed.

Lemma update_preference_synced (t : string) (v : json) :
  keeps keeps_preferences_synced (update_preference t v).
Proof.
  intros st. unfold keeps_preferences_synced, preferences_synced, update_preference,
    save_preferences, bind, gets, lift, modify, setitem.
  paths; cbn; trivial.
Qed.

Lemma add_to_plan_preferences_synced :
  keeps keeps_preferences_synced (add_to_plan srv).
Proof.
  apply (keeps_add_to_plan srv _ (fun _ => True)); try typeclasses eauto;
    try (intros; now apply preferences_synced_silent); trivial.
Qed.

Lemma get_recommendations_preferences_synced (q : string) :
  keeps keeps_preferences_synced (get_recommendations srv q).
Proof.
  intros st. unfold get_recommendations.
  destruct (has_plan_phrase q); [apply add_to_plan_preferences_synced|].
  unfold keeps_preferences_synced, preferences_synced, classify_query,
    update_preference, save_preferences, similarity_search, invoke,
    bind, gets, lift, modify, ret, setitem.
  paths; cbn; trivial.
Qed.

Lemma main_turn_preferences_synced (line : string) :
  keeps keeps_preferences_synced (main_turn srv line).
Proof.
  assert (Hlog : forall (e : event) s, True -> keeps_preferences_synced s (log e s)).
  { intros e s _. now apply preferences_synced_silent. }
  assert (Hsum : keeps keeps_preferences_synced (get_plan_summary srv)).
  { apply (keeps_get_plan_summary srv _ (fun _ => True)); try typeclasses eauto; trivial. }
  assert (Hday : keeps keeps_preferences_synced (generate_day_plan srv)).
  { apply (keeps_generate_day_plan srv _ (fun _ => True)); try typeclasses eauto; trivial. }
  unfold main_turn.
  destruct (in_list _ exit_words); [|destruct (String.eqb _ "show plan")].
  - apply keeps_bind; [typeclasses eauto | apply keeps_gets; typeclasses eauto|].
    intros venues. destruct (truthy venues); [|apply keeps_ret; typeclasses eauto].
    apply keeps_bind; [typeclasses eauto | exact Hsum | intros s].
    apply keeps_bind; [typeclasses eauto | exact Hday | intros d].
    apply keeps_ret; typeclasses eauto.
  - apply keeps_bind; [typeclasses eauto | exact Hsum | intros s].
    apply keeps_ret; typeclasses eauto.
  - apply keeps_bind; [typeclasses eauto | | intros r; apply keeps_ret; typeclasses eauto].
    destruct (String.eqb _ "add to plan"); [apply add_to_plan_preferences_synced|].
    apply keeps_bind; [typeclasses eauto | | intros b].
    + apply (keeps_is_follow_up_question srv _ (fun _ => True));
        try typeclasses eauto; trivial.
    + destruct b; [|apply get_recommendations_preferences_synced].
      apply (keeps_handle_follow_up srv _ (fun _ => True));
        try typeclasses eauto; trivial.
      apply add_to_plan_preferences_synced.
Qed.

Lemma NYCGuide_init_preferences_synced (prefs plans : file) (tr : list event) :
  preferences_synced (NYCGuide_init prefs plans tr).
Proof.
  unfold NYCGuide_init, bind.
  set (st0 := mkState None None None default_plan JNull prefs plans tr).
  pose proof (load_preferences_synced st0) as H.
  destruct (load_preferences st0) as [[[]|e] st1]; cbn [snd] in *; [|exact H].
  revert H. apply (keeps_load_plan keeps_preferences_synced); try typeclasses eauto;
    intros; now apply preferences_synced_silent.
Qed.

Lemma run_preferences_synced (c : call) (st : state) :
  preferences_synced st -> preferences_synced (run srv c st).
Proof.
  assert (Hsilent : forall s s', preferences s' = preferences s ->
                                 preferences_file s' = preferences_file s ->
                                 keeps_preferences_synced s s')
    by apply preferences_synced_silent.
  assert (Hlog : forall (e : event) s, True -> keeps_preferences_synced s (log e s)).
  { intros e s _. now apply Hsilent. }
  revert st. destruct c; cbn [run];
    try match goal with
        | |- forall st, preferences_synced st -> preferences_synced (snd (?m st)) =>
            change (keeps keeps_preferences_synced m)
        end.
  - apply add_to_plan_preferences_synced.
  - apply get_recommendations_preferences_synced.
  - apply (keeps_handle_follow_up srv _ (fun _ => True)); try typeclasses eauto; trivial.
    apply add_to_plan_preferences_synced.
  - apply (keeps_is_follow_up_question srv _ (fun _ => True)); try typeclasses eauto; trivial.
  - apply (keeps_classify_query srv _ (fun _ => True)); try typeclasses eauto; trivial.
  - apply (keeps_extract_venue_info srv _ (fun _ => True)); try typeclasses eauto; trivial.
  - apply (keeps_get_plan_summary srv _ (fun _ => True)); try typeclasses eauto; trivial.
  - apply (keeps_generate_day_plan srv _ (fun _ => True)); try typeclasses eauto; trivial.
  - apply update_preference_synced.
  - intros st _. apply load_preferences_synced.
  - intros st _. reflexivity.
  - apply keeps_load_plan; try typeclasses eauto; intros; now apply Hsilent.
  - apply keeps_save_plan; try typeclasses eauto; intros; now apply Hsilent.
  - apply main_turn_preferences_synced.
  - intros st _. apply NYCGuide_init_preferences_synced.
Qed.

End Synced_stores.

(** X5. In every state a guide can reach, through any calls of its
    methods, turns of the loop and restarts, the preference file holds
    exactly the preferences in memory: nothing changes the preferences
    without rewriting the file, and a new guide reads the same
    preferences back. *)
Theorem preference_file_follows_memory (srv : Services) (st : state) :
  reachable srv st ->
  preferences_file st = Doc (preferences st) /\
  preferences (NYCGuide_init (preferences_file st) (plan_file st) (trace st))
  = preferences st.
Proof.
  intros Hreach.
  assert (Hsync : preferences_synced st).
  { induction Hreach as [prefs plans tr _ | c st _ IH].
    - apply NYCGuide_init_preferences_synced.
    - now apply run_preferences_synced. }
  split; [exact Hsync|].
  unfold NYCGuide_init, bind, load_preferences. cbn [preferences_file].
  rewrite Hsync. cbn [fst snd].
  assert (Hkeep : keeps same_preferences load_plan).
  { apply keeps_load_plan; try typeclasses eauto; intros; now split. }
  destruct (Hkeep (set_preferences (preferences st)
                     (mkState None None None default_plan JNull
                              (Doc (preferences st)) (plan_file st) (trace st))))
    as [Hp _].
  exact Hp.
Qed.

Lemma preference_file_follows_memory_witness :
  reachable pizza_services planned_guide /\
  preferences_file planned_guide = Doc (preferences planned_guide).
Proof.
  assert (Hreach : reachable pizza_services planned_guide).
  { apply reach_call, reach_call, (reach_start pizza_services Missing Missing []).
    exact I. }
  split; [exact Hreach|].
  exact (proj1 (preference_file_follows_memory pizza_services planned_guide Hreach)).
Defined.

Section Synced_plan.

Variable srv : Services.

Lemma load_preferences_returns (st : state) : fst (load_preferences st) = Ok tt.
Proof. unfold load_preferences. now destruct (preferences_file st). Qed.

Lemma add_to_plan_plan_synced : keeps keeps_plan_synced (add_to_plan srv).
Proof.
  intros st Hs. unfold add_to_plan.
  destruct (negb (truthy_text (last_context st))); [exact Hs|].
  unfold catch.
  pose proof (add_to_plan_try_outcome srv (default "" (last_context st)) st) as [_ Hplan].
  assert (Hgoal : plan_synced (snd (add_to_plan_try srv (default "" (last_context st)) st))).
  { destruct Hplan as [[Hp Hf]|(venues & entry & name & _ & Hp & Hf & _)].
    - destruct Hs as [Hfile Hhas]. split; [congruence | now rewrite Hp].
    - split; [exact Hf|]. rewrite Hp. unfold dict_has. now rewrite dict_get_set_eq. }
  destruct (add_to_plan_try srv (default "" (last_context st)) st) as [[msg|e] st'];
    exact Hgoal.
Qed.

Lemma load_plan_plan_synced : keeps keeps_plan_synced load_plan.
Proof.
  intros st [Hfile Hhas]. unfold load_plan. rewrite Hfile, Hhas. now split.
Qed.

Lemma NYCGuide_init_plan_synced (prefs plans : file) (tr : list event) :
  ~ misshapen_plan plans -> plan_synced (NYCGuide_init prefs plans tr).
Proof.
  intros Hshape. unfold NYCGuide_init, bind.
  set (st0 := mkState None None None default_plan JNull prefs plans tr).
  assert (Hkeep : keeps same_plan load_preferences).
  { apply keeps_load_preferences; try typeclasses eauto; intros; now split. }
  assert (Hload : forall s, plan_file s = plans -> plan_synced (snd (load_plan s))).
  { intros s Hs. unfold load_plan. rewrite Hs.
    destruct plans as [| |j]; [now split | now split|].
    destruct j as [| | | | |d];
      try (exfalso; apply Hshape; eexists; split; [reflexivity | discriminate]).
    destruct (dict_has "venues" d) eqn:Hhas.
    - split; [cbn; now rewrite Hs | exact Hhas].
    - exfalso. apply Hshape. eexists. split; [reflexivity|]. now intros d' [= <-]. }
  destruct (Hkeep st0) as [_ Hf].
  pose proof (load_preferences_returns st0) as Hok.
  destruct (load_preferences st0) as [[[]|e] st1]; cbn [fst snd] in *; [|discriminate].
  apply Hload. exact Hf.
Qed.

End Synced_plan.

Section Synced_plan_calls.

Variable srv : Services.

Lemma run_plan_synced (c : call) (st : state) :
  plan_synced st -> plan_synced (run srv c st).
Proof.
  assert (Hsilent : forall s s', plan s' = plan s -> plan_file s' = plan_file s ->
                                 keeps_plan_synced s s') by apply plan_synced_silent.
  assert (Hlog : forall (e : event) s, True -> keeps_plan_synced s (log e s)).
  { intros e s _. now apply Hsilent. }
  revert st. destruct c; cbn [run];
    try match goal with
        | |- forall st, plan_synced st -> plan_synced (snd (?m st)) =>
            change (keeps keeps_plan_synced m)
        end.
  - apply add_to_plan_plan_synced.
  - apply (keeps_get_recommendations srv _ (fun _ => True)); try typeclasses eauto;
      try (intros; now apply Hsilent); trivial. apply add_to_plan_plan_synced.
  - apply (keeps_handle_follow_up srv _ (fun _ => True)); try typeclasses eauto;
      try (intros; now apply Hsilent); trivial. apply add_to_plan_plan_synced.
  - apply (keeps_is_follow_up_question srv _ (fun _ => True)); try typeclasses eauto;
      try (intros; now apply Hsilent); trivial.
  - apply (keeps_classify_query srv _ (fun _ => True)); try typeclasses eauto;
      try (intros; now apply Hsilent); trivial.
  - apply (keeps_extract_venue_info srv _ (fun _ => True)); try typeclasses eauto;
      try (intros; now apply Hsilent); trivial.
  - apply (keeps_get_plan_summary srv _ (fun _ => True)); try typeclasses eauto;
      try (intros; now apply Hsilent); trivial.
  - apply (keeps_generate_day_plan srv _ (fun _ => True)); try typeclasses eauto;
      try (intros; now apply Hsilent); trivial.
  - apply keeps_update_preference; try typeclasses eauto; intros; now apply Hsilent.
  - apply keeps_load_preferences; try typeclasses eauto; intros; now apply Hsilent.
  - apply keeps_save_preferences; try typeclasses eauto; intros; now apply Hsilent.
  - apply load_plan_plan_synced.
  - intros st [_ Hhas]. split; [reflexivity | exact Hhas].
  - apply (keeps_main_turn srv _ (fun _ => True)); try typeclasses eauto;
      try (intros; now apply Hsilent); trivial. apply add_to_plan_plan_synced.
  - intros st [Hfile Hhas]. apply NYCGuide_init_plan_synced.
    rewrite Hfile. intros (j & [= <-] & Hshape).
    rewrite (Hshape _ eq_refl) in Hhas. discriminate.
Qed.

End Synced_plan_calls.

(** X6. A guide created on a plan file that is absent, not JSON, or an
    object with a "venues" key has its plan file equal to the plan in
    memory; every call of a method, turn of the loop and restart keeps it
    so, and a restart reads back the very plan that was in memory. *)
Theorem plan_file_follows_memory
    (srv : Services) (prefs plans : file) (tr : list event) (c : call) (st : state) :
  ~ misshapen_plan plans ->
  plan_synced st ->
  plan_synced (NYCGuide_init prefs plans tr) /\
  plan_synced (run srv c st) /\
  plan (run srv CallRestart st) = plan st.
Proof.
  intros Hshape Hs. split; [now apply NYCGuide_init_plan_synced|].
  split; [now apply run_plan_synced|].
  destruct Hs as [Hfile Hhas]. cbn [run]. unfold NYCGuide_init, bind.
  pose proof (load_preferences_returns
                (mkState None None None default_plan JNull (preferences_file st)
                         (plan_file st) (trace st))) as Hok.
  assert (Hkeep : keeps same_plan load_preferences).
  { apply keeps_load_preferences; try typeclasses eauto; intros; now split. }
  destruct (Hkeep (mkState None None None default_plan JNull (preferences_file st)
                           (plan_file st) (trace st))) as [_ Hf].
  destruct (load_preferences _) as [[[]|e] st1]; cbn [fst snd] in *; [|discriminate].
  unfold load_plan. rewrite Hf. cbn [plan_file]. rewrite Hfile, Hhas. reflexivity.
Qed.

Lemma plan_file_follows_memory_witness :
  plan_synced (run pizza_services CallAddToPlan
                 (run pizza_services (CallGetRecommendations "where to eat?") fresh_guide)) /\
  plan (run pizza_services CallRestart planned_guide) = plan planned_guide.
Proof.
  assert (Hfresh : plan_synced fresh_guide) by (split; reflexivity).
  assert (Hshape : ~ misshapen_plan Missing) by (intros (j & H & _); discriminate).
  destruct (plan_file_follows_memory pizza_services Missing Missing []
              (CallGetRecommendations "where to eat?") fresh_guide Hshape Hfresh)
    as (_ & Hrec & _).
  destruct (plan_file_follows_memory pizza_services Missing Missing [] CallAddToPlan
              _ Hshape Hrec) as (_ & Hadd & _).
  split; [exact Hadd|].
  exact (proj2 (proj2 (plan_file_follows_memory pizza_services Missing Missing []
                         CallRestart planned_guide Hshape Hadd))).
Defined.

(** ** Summary and day plan *)

Section Plan_reports.

Variable srv : Services.

Lemma project_records (venues : list json) :
  all_records venues ->
  exists summary : list json,
    mapM project_venue venues = Ok summary /\
    length summary = length venues /\
    Forall (fun j => exists d : list (string * json),
                j = JDict d /\ map fst d = ["name"; "type"; "location"; "budget"])
           summary.
Proof.
  induction 1 as [|v venues [d ->] _ (summary & Hs & Hl & Hf)].
  - exists []. repeat split. constructor.
  - eexists. cbn [mapM project_venue]. rewrite Hs. split; [reflexivity|].
    split; [cbn; now rewrite Hl|]. constructor; [|exact Hf].
    eexists. split; reflexivity.
Qed.

Lemma project_raises (venues : list json) :
  ~ all_records venues -> mapM project_venue venues = Raised AttributeError.
Proof.
  induction venues as [|v venues IH]; intros H.
  - exfalso. apply H. constructor.
  - destruct v as [| | | | |d]; try reflexivity.
    cbn [mapM project_venue]. rewrite IH; [reflexivity|].
    intros Hrest. apply H. constructor; [now exists d | exact Hrest].
Qed.

Lemma plan_venues_log (e : event) (st : state) : plan_venues (log e st) = plan_venues st.
Proof. reflexivity. Qed.

End Plan_reports.

(** X7. On a plan whose venues are a non-empty list of records,
    [get_plan_summary] and [generate_day_plan] never raise. Each sends the
    service one prompt with, per venue and in plan order, exactly the four
    fields name, type, location and budget. The summary returns the
    service's text, or, when the service fails, the fallback that counts the
    venues; the day plan returns the banner followed by the text, or the
    fixed apology. *)
Theorem plan_reports_on_readable_plan
    (srv : Services) (venues : list json) (st : state) :
  plan_venues st = JList venues -> venues <> [] -> all_records venues ->
  exists summary : list json,
    mapM project_venue venues = Ok summary /\
    length summary = length venues /\
    Forall (fun j => exists d : list (string * json),
                j = JDict d /\ map fst d = ["name"; "type"; "location"; "budget"])
           summary /\
    get_plan_summary srv st
    = (match complete srv (trace st) (SummaryPrompt (JList summary)) with
       | Some text => Ok text
       | None => Ok ("Sorry, I couldn't generate your plan summary. You have "
                       +:+ PyStr.of_Z (Z.of_nat (length venues)) +:+ " venues saved.")
       end,
       log (Invoked (SummaryPrompt (JList summary))) st) /\
    generate_day_plan srv st
    = (match complete srv (trace st) (DayPlanPrompt (JList summary)) with
       | Some text => Ok (day_plan_banner +:+ text)
       | None => Ok sorry_day_plan_message
       end,
       log (Invoked (DayPlanPrompt (JList summary))) st).
Proof.
  intros Hv Hne Hrec.
  destruct (project_records venues Hrec) as (summary & Hs & Hl & Hf).
  exists summary. split; [exact Hs|]. split; [exact Hl|]. split; [exact Hf|].
  assert (Ht : truthy (JList venues) = true) by (destruct venues; [congruence | reflexivity]).
  split.
  - unfold get_plan_summary. rewrite bind_gets, Hv, Ht. cbn [negb iterate].
    rewrite bind_lift_ok, Hs, bind_lift_ok. unfold catch, invoke.
    destruct (complete srv (trace st) (SummaryPrompt (JList summary))); [reflexivity|].
    rewrite bind_gets, plan_venues_log, Hv. reflexivity.
  - unfold generate_day_plan. rewrite bind_gets, Hv, Ht. cbn [negb iterate].
    rewrite bind_lift_ok, Hs, bind_lift_ok. unfold catch, bind, invoke, ret.
    destruct (complete srv (trace st) (DayPlanPrompt (JList summary))); reflexivity.
Qed.

Lemma plan_reports_on_readable_plan_witness :
  fst (get_plan_summary (fixed_services None None None None "t") planned_guide)
  = Ok "Sorry, I couldn't generate your plan summary. You have 1 venues saved." /\
  fst (generate_day_plan (fixed_services None None None None "t") planned_guide)
  = Ok sorry_day_plan_message.
Proof.
  destruct (plan_reports_on_readable_plan
              (fixed_services None None None None "t")
              [JDict [("name", JStr "Joe's Pizza");
                      ("added_at", JStr "2024-05-01T12:00:00");
                      ("context", JStr "Joe's Pizza, Soho")]]
              planned_guide)
    as (summary & _ & _ & _ & Hsum & Hday).
  - reflexivity.
  - discriminate.
  - constructor; [eexists; reflexivity | constructor].
  - rewrite Hsum, Hday. split; reflexivity.
Defined.

(** X8. When the venues of the plan are a list that holds something other
    than a record, [get_plan_summary] and [generate_day_plan] raise
    [AttributeError] before consulting the service and without changing the
    state: the projection runs outside their [try]. *)
Theorem plan_reports_raise_on_unreadable_venue
    (srv : Services) (venues : list json) (st : state) :
  plan_venues st = JList venues -> ~ all_records venues ->
  get_plan_summary srv st = (Raised AttributeError, st) /\
  generate_day_plan srv st = (Raised AttributeError, st).
Proof.
  intros Hv Hrec.
  assert (Ht : truthy (JList venues) = true).
  { destruct venues; [|reflexivity]. exfalso. apply Hrec. constructor. }
  pose proof (project_raises venues Hrec) as Hp.
  split.
  - unfold get_plan_summary. rewrite bind_gets, Hv, Ht. cbn [negb iterate].
    rewrite bind_lift_ok, Hp. reflexivity.
  - unfold generate_day_plan. rewrite bind_gets, Hv, Ht. cbn [negb iterate].
    rewrite bind_lift_ok, Hp. reflexivity.
Qed.

Lemma plan_reports_raise_on_unreadable_venue_witness :
  fst (main_turn pizza_services "show plan"
         (set_plan [("venues", JList [JStr "Joe's Pizza"])] fresh_guide))
  = Raised AttributeError.
Proof.
  assert (H : ~ all_records [JStr "Joe's Pizza"]).
  { intros H. inversion H as [|v l [d Hd] _]. discriminate Hd. }
  destruct (plan_reports_raise_on_unreadable_venue pizza_services [JStr "Joe's Pizza"]
              (set_plan [("venues", JList [JStr "Joe's Pizza"])] fresh_guide)
              eq_refl H) as [Hsum _].
  unfold main_turn. cbn [in_list existsb PyStr.lower PyStr.strip]. 
  change (fst (bind (get_plan_summary pizza_services)
                    (fun summary => ret (Next [answer_line summary]))
                    (set_plan [("venues", JList [JStr "Joe's Pizza"])] fresh_guide))
          = Raised AttributeError).
  unfold bind. rewrite Hsum. reflexivity.
Defined.

(** ** Routing of a turn *)

Section Routing.

Variable srv : Services.

Lemma bind_next_not_stop {A : Type} (m : M A) (f : A -> list string) (st : state)
    (out : list string) :
  fst (bind m (fun r => ret (Next (f r))) st) <> Ok (Stop out).
Proof. unfold bind, ret. destruct (m st) as [[r|e] st']; discriminate. Qed.

Lemma exit_turn_not_next (st : state) (out : list string) :
  fst ((let* venues := gets plan_venues in
        if truthy venues then
          let* summary := get_plan_summary srv in
          let* day_plan := generate_day_plan srv in
          ret (Stop [String PyStr.newline "Here's your final NYC plan:"; summary;
                     String PyStr.newline
                       "Let me organize these places into a day plan for you...";
                     day_plan; farewell])
        else ret (Stop [farewell])) st)
  <> Ok (Next out).
Proof.
  rewrite bind_gets. destruct (truthy (plan_venues st)); [|discriminate].
  unfold bind, ret. destruct (get_plan_summary srv st) as [[s|e] st1]; [|discriminate].
  destruct (generate_day_plan srv st1) as [[d|e] st2]; discriminate.
Qed.

(** An utterance that asks to save a venue is no exit word and is not the
    "show plan" command. *)
Lemma plan_phrase_is_no_command (u : string) :
  has_plan_phrase u = true ->
  in_list u exit_words = false /\ String.eqb u "show plan" = false.
Proof.
  intros H. split.
  - destruct (in_list u exit_words) eqn:E; [|reflexivity].
    apply in_list_iff in E. simpl in E.
    decompose [or] E; subst; try discriminate H. contradiction.
  - destruct (String.eqb u "show plan") eqn:E; [|reflexivity].
    apply String.eqb_eq in E. subst. discriminate H.
Qed.

End Routing.

(** X9. The loop stops on an exit word and on nothing else: a turn that
    returns ends the loop exactly when the normalised line is "quit",
    "exit", "bye" or "done"; and leaving with an empty plan prints only the
    farewell, consults no service and changes nothing. *)
Theorem loop_stops_exactly_on_exit_words
    (srv : Services) (line : string) (st : state) (out : list string) :
  (fst (main_turn srv line st) = Ok (Stop out) ->
   In (PyStr.lower (PyStr.strip line)) exit_words) /\
  (fst (main_turn srv line st) = Ok (Next out) ->
   ~ In (PyStr.lower (PyStr.strip line)) exit_words) /\
  (In (PyStr.lower (PyStr.strip line)) exit_words ->
   truthy (plan_venues st) = false ->
   main_turn srv line st = (Ok (Stop [farewell]), st)).
Proof.
  unfold main_turn. rewrite <- in_list_iff.
  destruct (in_list (PyStr.lower (PyStr.strip line)) exit_words) eqn:E.
  - split; [reflexivity|]. split.
    + intros H. now apply exit_turn_not_next in H.
    + intros _ Ht. rewrite bind_gets, Ht. reflexivity.
  - split; [|split; [discriminate | discriminate]].
    intros H. exfalso. revert H.
    destruct (String.eqb _ "show plan"); apply bind_next_not_stop.
Qed.

Lemma loop_stops_exactly_on_exit_words_witness :
  main_turn pizza_services "  Bye " fresh_guide = (Ok (Stop [farewell]), fresh_guide).
Proof.
  apply (proj2 (proj2 (loop_stops_exactly_on_exit_words
                         pizza_services "  Bye " fresh_guide []))).
  - right. right. left. reflexivity.
  - reflexivity.
Defined.

(** X10. A line whose normal form contains one of the plan-add phrases is
    routed to [add_to_plan] whatever else it says: the turn is [add_to_plan]
    followed by the print of its message, with no classification, be it the
    exact command "add to plan" or a longer sentence. *)
Theorem plan_add_line_is_routed_to_add_to_plan
    (srv : Services) (line : string) (st : state) :
  plan_add_utterance (PyStr.lower (PyStr.strip line)) ->
  main_turn srv line st
  = bind (add_to_plan srv) (fun response => ret (Next [answer_line response])) st.
Proof.
  intros H. apply has_plan_phrase_iff in H.
  destruct (plan_phrase_is_no_command _ H) as [Hexit Hshow].
  unfold main_turn. rewrite Hexit, Hshow.
  destruct (String.eqb _ "add to plan"); [reflexivity|].
  unfold is_follow_up_question, handle_follow_up. rewrite H. reflexivity.
Qed.

Lemma plan_add_line_is_routed_to_add_to_plan_witness :
  main_turn pizza_services "  Could you SAVE THIS for me? "
    (advised_guide "Joe's Pizza, Soho" "Try Joe's")
  = bind (add_to_plan pizza_services)
         (fun response => ret (Next [answer_line response]))
         (advised_guide "Joe's Pizza, Soho" "Try Joe's").
Proof.
  apply plan_add_line_is_routed_to_add_to_plan.
  apply has_plan_phrase_iff. reflexivity.
Defined.

Section Routing_by_category.

Variable srv : Services.

Lemma main_turn_classified (line content : string) (st : state) :
  ~ In (PyStr.lower (PyStr.strip line)) exit_words ->
  PyStr.lower (PyStr.strip line) <> "show plan" ->
  ~ plan_add_utterance (PyStr.lower (PyStr.strip line)) ->
  complete srv (trace st) (ClassificationPrompt (PyStr.lower (PyStr.strip line)))
  = Some content ->
  main_turn srv line st
  = bind (if in_list (field (parse_classification content) "category")
                     follow_up_categories
             && match last_response st with Some _ => true | None => false end
          then handle_follow_up srv (PyStr.lower (PyStr.strip line))
          else get_recommendations srv (PyStr.lower (PyStr.strip line)))
         (fun response => ret (Next [answer_line response]))
         (log (Invoked (ClassificationPrompt (PyStr.lower (PyStr.strip line)))) st).
Proof.
  intros Hexit Hshow Hphrase Hcl.
  set (u := PyStr.lower (PyStr.strip line)) in *.
  unfold main_turn. fold u.
  assert (in_list u exit_words = false) as ->.
  { destruct (in_list u exit_words) eqn:E; [|reflexivity].
    now apply in_list_iff in E. }
  apply String.eqb_neq in Hshow. rewrite Hshow.
  assert (String.eqb u "add to plan" = false) as ->.
  { destruct (String.eqb u "add to plan") eqn:E; [|reflexivity].
    apply String.eqb_eq in E. exfalso. apply Hphrase, has_plan_phrase_iff.
    rewrite E. reflexivity. }
  rewrite bind_bind. unfold is_follow_up_question.
  rewrite (has_plan_phrase_false _ Hphrase).
  rewrite bind_bind, (bind_classify_query _ _ _ _ _ Hcl), bind_bind, bind_gets, bind_ret.
  reflexivity.
Qed.

Local Ltac paths :=
  repeat (cbv beta iota;
          match goal with
          | |- context [match ?x with _ => _ end] =>
              match type of x with
              | prod _ _ => fail 1
              | _ => destruct x
              end
          end).

Lemma get_recommendations_classifies_first (q : string) (st : state) :
  has_plan_phrase q = false ->
  exists rest : list event,
    trace (snd (get_recommendations srv q st))
    = trace st ++ Invoked (ClassificationPrompt q) :: rest.
Proof.
  intros H. unfold get_recommendations. rewrite H.
  unfold classify_query, update_preference, save_preferences, similarity_search,
    invoke, bind, gets, lift, modify, ret.
  paths; eexists; cbn; rewrite <- ?app_assoc; reflexivity.
Qed.

Lemma handle_follow_up_classifies_first (q : string) (st : state) :
  has_plan_phrase q = false ->
  truthy_text (last_response st) = true -> truthy_text (last_context st) = true ->
  exists rest : list event,
    trace (snd (handle_follow_up srv q st))
    = trace st ++ Invoked (ClassificationPrompt q) :: rest.
Proof.
  intros H Hr Hc. unfold handle_follow_up. rewrite H, !bind_gets, Hr, Hc.
  cbn [negb orb]. unfold classify_query, invoke, bind, gets, ret.
  paths; eexists; cbn; rewrite <- ?app_assoc; reflexivity.
Qed.

Lemma snd_bind_ret {A B : Type} (m : M A) (f : A -> B) (st : state) :
  snd (bind m (fun r => ret (f r)) st) = snd (m st).
Proof. unfold bind, ret. now destruct (m st) as [[r|e] st']. Qed.

End Routing_by_category.

(** X11. A line that is neither a command nor a plan-add utterance is first
    classified by [is_follow_up_question]; it then goes to
    [handle_follow_up] exactly when the category is one of
    Location/Navigation, Price/Budget Inquiry, Details/Information and a
    previous response exists, and to [get_recommendations] otherwise. In
    particular, before any recommendation every such line is a new
    recommendation request. *)
Theorem classified_line_is_routed_by_category
    (srv : Services) (line content : string) (st : state) :
  ~ In (PyStr.lower (PyStr.strip line)) exit_words ->
  PyStr.lower (PyStr.strip line) <> "show plan" ->
  ~ plan_add_utterance (PyStr.lower (PyStr.strip line)) ->
  complete srv (trace st) (ClassificationPrompt (PyStr.lower (PyStr.strip line)))
  = Some content ->
  main_turn srv line st
  = bind (if in_list (field (parse_classification content) "category")
                     follow_up_categories
             && match last_response st with Some _ => true | None => false end
          then handle_follow_up srv (PyStr.lower (PyStr.strip line))
          else get_recommendations srv (PyStr.lower (PyStr.strip line)))
         (fun response => ret (Next [answer_line response]))
         (log (Invoked (ClassificationPrompt (PyStr.lower (PyStr.strip line)))) st) /\
  (last_response st = None ->
   main_turn srv line st
   = bind (get_recommendations srv (PyStr.lower (PyStr.strip line)))
          (fun response => ret (Next [answer_line response]))
          (log (Invoked (ClassificationPrompt (PyStr.lower (PyStr.strip line)))) st)).
Proof.
  intros Hexit Hshow Hphrase Hcl.
  pose proof (main_turn_classified srv line content st Hexit Hshow Hphrase Hcl) as Hmain.
  split; [exact Hmain|].
  intros Hnone. rewrite Hmain, Hnone, andb_false_r. reflexivity.
Qed.

Lemma classified_line_is_routed_by_category_witness :
  main_turn pizza_services " How MUCH is it? " fresh_guide
  = bind (get_recommendations pizza_services "how much is it?")
         (fun response => ret (Next [answer_line response]))
         (log (Invoked (ClassificationPrompt "how much is it?")) fresh_guide).
Proof.
  apply (proj2 (classified_line_is_routed_by_category
                  pizza_services " How MUCH is it? " "Category: Food and Dining"
                  fresh_guide
                  ltac:(simpl; intuition discriminate)
                  ltac:(discriminate)
                  ltac:(intros H; apply has_plan_phrase_iff in H; discriminate H)
                  eq_refl)).
  reflexivity.
Defined.

(** X12. A turn that is routed to [get_recommendations], or to a
    [handle_follow_up] that has a previous response and context to answer
    on, asks the completion service to classify the same text twice in a
    row: once to choose the route and once inside the method chosen. *)
Theorem routed_turn_classifies_twice
    (srv : Services) (line content : string) (st : state) :
  ~ In (PyStr.lower (PyStr.strip line)) exit_words ->
  PyStr.lower (PyStr.strip line) <> "show plan" ->
  ~ plan_add_utterance (PyStr.lower (PyStr.strip line)) ->
  complete srv (trace st) (ClassificationPrompt (PyStr.lower (PyStr.strip line)))
  = Some content ->
  last_response st = None \/
  (truthy_text (last_response st) = true /\ truthy_text (last_context st) = true) ->
  exists rest : list event,
    trace (snd (main_turn srv line st))
    = trace st
      ++ Invoked (ClassificationPrompt (PyStr.lower (PyStr.strip line)))
      :: Invoked (ClassificationPrompt (PyStr.lower (PyStr.strip line)))
      :: rest.
Proof.
  intros Hexit Hshow Hphrase Hcl Hmem.
  rewrite (main_turn_classified srv line content st Hexit Hshow Hphrase Hcl).
  rewrite snd_bind_ret.
  pose proof (has_plan_phrase_false _ Hphrase) as Hp.
  set (c := Invoked (ClassificationPrompt (PyStr.lower (PyStr.strip line)))).
  assert (Hgoal : forall st1 rest,
             trace st1 = trace st ++ [Invoked (ClassificationPrompt
                                                 (PyStr.lower (PyStr.strip line)))] ->
             trace st1 ++ Invoked (ClassificationPrompt (PyStr.lower (PyStr.strip line)))
                       :: rest
             = trace st
               ++ Invoked (ClassificationPrompt (PyStr.lower (PyStr.strip line)))
               :: Invoked (ClassificationPrompt (PyStr.lower (PyStr.strip line)))
               :: rest).
  { intros st1 rest ->. now rewrite <- app_assoc. }
  destruct Hmem as [Hnone|[Hr Hc]].
  - rewrite Hnone, andb_false_r.
    destruct (get_recommendations_classifies_first srv _ (log c st) Hp) as [rest Hrest].
    exists rest. rewrite Hrest. now apply Hgoal.
  - destruct (_ && _).
    + destruct (handle_follow_up_classifies_first srv _ (log c st) Hp Hr Hc)
        as [rest Hrest].
      exists rest. rewrite Hrest. now apply Hgoal.
    + destruct (get_recommendations_classifies_first srv _ (log c st) Hp) as [rest Hrest].
      exists rest. rewrite Hrest. now apply Hgoal.
Qed.

Lemma routed_turn_classifies_twice_witness :
  exists rest : list event,
    trace (snd (main_turn pizza_services " How MUCH is it? " fresh_guide))
    = [] ++ Invoked (ClassificationPrompt "how much is it?")
         :: Invoked (ClassificationPrompt "how much is it?") :: rest.
Proof.
  apply (routed_turn_classifies_twice
           pizza_services " How MUCH is it? " "Category: Food and Dining" fresh_guide
           ltac:(simpl; intuition discriminate)
           ltac:(discriminate)
           ltac:(intros H; apply has_plan_phrase_iff in H; discriminate H)
           eq_refl).
  left. reflexivity.
Defined.

(** ** Outcomes of a recommendation turn *)

Lemma update_preference_not_dict (t : string) (v : json) (st : state) :
  (forall d : list (string * json), preferences st <> JDict d) ->
  update_preference t v st = (Raised TypeError, st).
Proof.
  intros Hnd. unfold update_preference. rewrite bind_gets.
  destruct (preferences st) as [| | | | |d] eqn:Hp; try reflexivity.
  exfalso. exact (Hnd d eq_refl).
Qed.

(** X13. A cuisine preference statement makes exactly one external call,
    the classification, and no retrieval. On preferences that are a
    dictionary it sets the "cuisine" key to the classified value, leaves the
    other keys alone, rewrites the preference file and returns the
    acknowledgement that quotes the value; on preferences that are not a
    dictionary it raises [TypeError] and writes nothing. *)
Theorem preference_statement_is_stored
    (srv : Services) (q content : string) (st : state) :
  ~ plan_add_utterance q ->
  complete srv (trace st) (ClassificationPrompt q) = Some content ->
  is_cuisine_preference (parse_classification content) = true ->
  (forall d : list (string * json),
      preferences st = JDict d ->
      get_recommendations srv q st
      = (Ok ("I've noted that you like "
               +:+ field (parse_classification content) "preference_value"
               +:+ " food. I'll remember this for future recommendations!"),
         set_preferences_file
           (Doc (JDict (dict_set "cuisine"
                          (JStr (field (parse_classification content) "preference_value"))
                          d)))
           (set_preferences
              (JDict (dict_set "cuisine"
                        (JStr (field (parse_classification content) "preference_value"))
                        d))
              (set_last_classification (Some (parse_classification content))
                 (log (Invoked (ClassificationPrompt q)) st))))) /\
  ((forall d : list (string * json), preferences st <> JDict d) ->
   get_recommendations srv q st
   = (Raised TypeError,
      set_last_classification (Some (parse_classification content))
        (log (Invoked (ClassificationPrompt q)) st))).
Proof.
  intros Hq Hcl Hpref.
  assert (Hrun : get_recommendations srv q st
                 = bind (update_preference "cuisine"
                           (JStr (field (parse_classification content) "preference_value")))
                        (fun _ => ret ("I've noted that you like "
                                         +:+ field (parse_classification content)
                                               "preference_value"
                                         +:+ " food. I'll remember this for future recommendations!"))
                        (set_last_classification (Some (parse_classification content))
                           (log (Invoked (ClassificationPrompt q)) st))).
  { unfold get_recommendations. rewrite (has_plan_phrase_false _ Hq).
    rewrite (bind_classify_query _ _ _ _ _ Hcl), bind_modify, Hpref. reflexivity. }
  rewrite Hrun. split.
  - intros d Hd. unfold bind at 1.
    rewrite (update_preference_dict _ _ d) by exact Hd. reflexivity.
  - intros Hnd. unfold bind at 1.
    rewrite update_preference_not_dict; [reflexivity | exact Hnd].
Qed.

Lemma preference_statement_is_stored_witness :
  get_recommendations
    (fixed_services (Some (lines ["Is Preference: YES"; "Preference Type: Cuisine";
                                  "Preference Value:  Thai "])) None None None "t")
    "i like thai food"
    (set_preferences (JDict [("budget", JStr "low"); ("cuisine", JNull)]) fresh_guide)
  = (Ok "I've noted that you like thai food. I'll remember this for future recommendations!",
     set_preferences_file
       (Doc (JDict [("budget", JStr "low"); ("cuisine", JStr "thai")]))
       (set_preferences (JDict [("budget", JStr "low"); ("cuisine", JStr "thai")])
          (set_last_classification
             (Some (parse_classification
                      (lines ["Is Preference: YES"; "Preference Type: Cuisine";
                              "Preference Value:  Thai "])))
             (log (Invoked (ClassificationPrompt "i like thai food"))
                (set_preferences (JDict [("budget", JStr "low"); ("cuisine", JNull)])
                   fresh_guide))))).
Proof.
  apply (proj1 (preference_statement_is_stored
                  (fixed_services
                     (Some (lines ["Is Preference: YES"; "Preference Type: Cuisine";
                                   "Preference Value:  Thai "])) None None None "t")
                  "i like thai food"
                  (lines ["Is Preference: YES"; "Preference Type: Cuisine";
                          "Preference Value:  Thai "])
                  (set_preferences (JDict [("budget", JStr "low"); ("cuisine", JNull)])
                     fresh_guide)
                  ltac:(intros H; apply has_plan_phrase_iff in H; discriminate H)
                  eq_refl eq_refl)
               [("budget", JStr "low"); ("cuisine", JNull)]).
  reflexivity.
Defined.

(** X14. [get_recommendations] overwrites [last_context] before it asks for
    the answer: when retrieval found a usable match and the completion
    service then fails, the call raises, [last_context] holds the new
    passages and [last_response] still holds the previous answer. *)
Theorem failed_completion_leaves_new_context
    (srv : Services) (q content qd : string) (results : list (string * float))
    (st : state) :
  ~ plan_add_utterance q ->
  complete srv (trace st) (ClassificationPrompt q) = Some content ->
  is_cuisine_preference (parse_classification content) = false ->
  enhance_query q (parse_classification content) (preferences st) = Ok qd ->
  search srv (trace st ++ [Invoked (ClassificationPrompt q)]) qd 4 = Some results ->
  no_usable_match results = false ->
  complete srv (trace st ++ [Invoked (ClassificationPrompt q)] ++ [Searched qd 4])
    (InitialPrompt (PyStr.join context_separator (map fst results)) q
       (field (parse_classification content) "category")
       (field (parse_classification content) "intent")
       (field (parse_classification content) "key_terms")
       (preferences_to_pass (parse_classification content) (preferences st)))
  = None ->
  fst (get_recommendations srv q st) = Raised ServiceError /\
  last_context (snd (get_recommendations srv q st))
  = Some (PyStr.join context_separator (map fst results)) /\
  last_response (snd (get_recommendations srv q st)) = last_response st.
Proof.
  intros Hq Hcl Hpref Henh Hsearch Hmatch Hfail.
  rewrite (get_recommendations_retrieved srv q content qd results st) by assumption.
  cbv zeta. rewrite Hmatch. rewrite (bind_invoke_raised srv).
  - repeat split.
  - cbn [trace log set_last_context set_last_classification].
    rewrite <- app_assoc. exact Hfail.
Qed.

Lemma failed_completion_leaves_new_context_witness :
  fst (get_recommendations
         (fixed_services (Some "Category: Entertainment") None None
                         (Some [("Smalls Jazz Club", 0.9%float)]) "t")
         "live jazz tonight" (advised_guide "Joe's Pizza, Soho" "Try Joe's"))
  = Raised ServiceError /\
  last_context
    (snd (get_recommendations
            (fixed_services (Some "Category: Entertainment") None None
                            (Some [("Smalls Jazz Club", 0.9%float)]) "t")
            "live jazz tonight" (advised_guide "Joe's Pizza, Soho" "Try Joe's")))
  = Some "Smalls Jazz Club" /\
  last_response
    (snd (get_recommendations
            (fixed_services (Some "Category: Entertainment") None None
                            (Some [("Smalls Jazz Club", 0.9%float)]) "t")
            "live jazz tonight" (advised_guide "Joe's Pizza, Soho" "Try Joe's")))
  = Some "Try Joe's".
Proof.
  apply (failed_completion_leaves_new_context
           (fixed_services (Some "Category: Entertainment") None None
                           (Some [("Smalls Jazz Club", 0.9%float)]) "t")
           "live jazz tonight" "Category: Entertainment" "live jazz tonight"
           [("Smalls Jazz Club", 0.9%float)]
           (advised_guide "Joe's Pizza, Soho" "Try Joe's")
           ltac:(intros H; apply has_plan_phrase_iff in H; discriminate H)
           eq_refl eq_refl eq_refl eq_refl eq_refl eq_refl).
Defined.

(** X15. A successful recommendation makes three external calls in this
    order: the classification, the retrieval with k = 4, the recommendation
    prompt. The prompt is given the joined passages and the question as the
    user typed it, not the augmented retrieval query. Its preferences are
    the stored preferences when the question is generic and of category
    "Food and Dining" or "Recommendations", and the placeholder with a null
    cuisine in every other case. Plan and preferences are not touched. *)
Theorem recommendation_prompt_gets_original_question
    (srv : Services) (q content qd answer : string) (results : list (string * float))
    (st : state) :
  ~ plan_add_utterance q ->
  complete srv (trace st) (ClassificationPrompt q) = Some content ->
  is_cuisine_preference (parse_classification content) = false ->
  enhance_query q (parse_classification content) (preferences st) = Ok qd ->
  search srv (trace st ++ [Invoked (ClassificationPrompt q)]) qd 4 = Some results ->
  no_usable_match results = false ->
  complete srv (trace st ++ [Invoked (ClassificationPrompt q)] ++ [Searched qd 4])
    (InitialPrompt (PyStr.join context_separator (map fst results)) q
       (field (parse_classification content) "category")
       (field (parse_classification content) "intent")
       (field (parse_classification content) "key_terms")
       (preferences_to_pass (parse_classification content) (preferences st)))
  = Some answer ->
  exists payload : json,
    trace (snd (get_recommendations srv q st))
    = trace st
      ++ [Invoked (ClassificationPrompt q); Searched qd 4;
          Invoked (InitialPrompt (PyStr.join context_separator (map fst results)) q
                     (field (parse_classification content) "category")
                     (field (parse_classification content) "intent")
                     (field (parse_classification content) "key_terms")
                     payload)] /\
    (In (field (parse_classification content) "category") recommendation_categories /\
     field (parse_classification content) "is_generic_food_question" = "yes" ->
     payload = preferences st) /\
    (~ (In (field (parse_classification content) "category") recommendation_categories /\
        field (parse_classification content) "is_generic_food_question" = "yes") ->
     payload = JDict [("cuisine", JNull)]) /\
    same_plan st (snd (get_recommendations srv q st)) /\
    same_preferences st (snd (get_recommendations srv q st)).
Proof.
  intros Hq Hcl Hpref Henh Hsearch Hmatch Hans.
  exists (preferences_to_pass (parse_classification content) (preferences st)).
  rewrite (get_recommendations_retrieved srv q content qd results st) by assumption.
  cbv zeta. rewrite Hmatch. rewrite (bind_invoke srv _ answer).
  - split; [cbn; now rewrite <- !app_assoc|].
    split; [|split; [|split; split; reflexivity]].
    + intros [Hcat Hgen]. unfold preferences_to_pass.
      apply in_list_iff in Hcat. apply String.eqb_eq in Hgen.
      now rewrite Hcat, Hgen.
    + intros Hnot. unfold preferences_to_pass.
      destruct (in_list _ recommendation_categories) eqn:Hcat; [|reflexivity].
      destruct (String.eqb _ "yes") eqn:Hgen; [|reflexivity].
      exfalso. apply Hnot. split; [now apply in_list_iff | now apply String.eqb_eq].
  - cbn [trace log set_last_context set_last_classification].
    rewrite <- app_assoc. exact Hans.
Qed.

Lemma recommendation_prompt_gets_original_question_witness :
  trace (snd (get_recommendations
                (fixed_services
                   (Some (lines ["Category: Food and Dining";
                                 "Is Generic Food Question: Yes"]))
                   None (Some "Try the taqueria") (Some [("Taqueria", 0.9%float)]) "t")
                "where can i grab a quick bite?"
                (set_preferences (JDict [("cuisine", JStr "mexican")]) fresh_guide)))
  = [] ++ [Invoked (ClassificationPrompt "where can i grab a quick bite?");
           Searched "where can i grab a quick bite? mexican restaurant" 4;
           Invoked (InitialPrompt "Taqueria" "where can i grab a quick bite?"
                      "Food and Dining" "" "" (JDict [("cuisine", JStr "mexican")]))].
Proof.
  destruct (recommendation_prompt_gets_original_question
              (fixed_services
                 (Some (lines ["Category: Food and Dining";
                               "Is Generic Food Question: Yes"]))
                 None (Some "Try the taqueria") (Some [("Taqueria", 0.9%float)]) "t")
              "where can i grab a quick bite?"
              (lines ["Category: Food and Dining"; "Is Generic Food Question: Yes"])
              "where can i grab a quick bite? mexican restaurant" "Try the taqueria"
              [("Taqueria", 0.9%float)]
              (set_preferences (JDict [("cuisine", JStr "mexican")]) fresh_guide)
              ltac:(intros H; apply has_plan_phrase_iff in H; discriminate H)
              eq_refl eq_refl eq_refl eq_refl eq_refl eq_refl)
    as (payload & Htrace & Hstored & _).
  rewrite Htrace, Hstored; [reflexivity|].
  split; [left; reflexivity | reflexivity].
Defined.

(** X16. Every value of a classification is stripped of surrounding
    whitespace, and the four flags (is_preference, preference_type,
    preference_value, is_generic_food_question) are in lower case, so that
    the tests against "yes" and "cuisine" do not depend on the case or the
    spacing of the service's answer. *)
Theorem classification_values_are_normalised
    (content key label dflt : string) (post : string -> string) :
  In (key, label, dflt, post) classification_fields ->
  PyStr.strip (field (parse_classification content) key)
  = field (parse_classification content) key /\
  (In key lowered_fields ->
   PyStr.lower (field (parse_classification content) key)
   = field (parse_classification content) key).
Proof.
  intros Hin. unfold field, parse_classification.
  rewrite (fold_classify_lookup _ _ _ _ _ _ Hin).
  rewrite (default_classification_lookup _ _ _ _ Hin).
  unfold value_after.
  destruct (last _) as [line|]; cbn [default from_option id];
    unfold classification_fields in Hin; simpl in Hin;
    repeat (destruct Hin as [Hin | Hin]; [inversion Hin; subst; clear Hin|]);
    try contradiction;
    (split;
     [ first [ reflexivity
             | apply PyStrFacts.strip_idem
             | now rewrite PyStrFacts.strip_lower, PyStrFacts.strip_idem ]
     | intros Hl; first [ reflexivity
                        | apply PyStrFacts.lower_idem
                        | exfalso; simpl in Hl; intuition discriminate ] ]).
Qed.

Lemma classification_values_are_normalised_witness :
  is_cuisine_preference
    (parse_classification (lines ["Is Preference:   YES  "; "Preference Type: Cuisine"]))
  = true /\
  PyStr.lower (field (parse_classification
                        (lines ["Is Preference:   YES  "; "Preference Type: Cuisine"]))
                     "is_preference")
  = field (parse_classification
             (lines ["Is Preference:   YES  "; "Preference Type: Cuisine"]))
          "is_preference".
Proof.
  split; [reflexivity|].
  apply (proj2 (classification_values_are_normalised
                  (lines ["Is Preference:   YES  "; "Preference Type: Cuisine"])
                  "is_preference" "Is Preference:" "no" PyStr.lower
                  ltac:(simpl; auto))).
  left. reflexivity.
Defined.

(** X17. When the stored preferences are a dictionary without a "cuisine"
    key, a query classified "Food and Dining" or "Recommendations" raises
    [KeyError] after the classification was stored and before any
    retrieval; a query of any other category does not read the preferences
    and is retrieved unmodified. *)
Theorem missing_cuisine_key_raises
    (srv : Services) (q content : string) (d : list (string * json)) (st : state) :
  ~ plan_add_utterance q ->
  complete srv (trace st) (ClassificationPrompt q) = Some content ->
  is_cuisine_preference (parse_classification content) = false ->
  preferences st = JDict d -> dict_get "cuisine" d = None ->
  (In (field (parse_classification content) "category") recommendation_categories ->
   get_recommendations srv q st
   = (Raised KeyError,
      set_last_classification (Some (parse_classification content))
        (log (Invoked (ClassificationPrompt q)) st))) /\
  (~ In (field (parse_classification content) "category") recommendation_categories ->
   exists rest : list event,
     trace (snd (get_recommendations srv q st))
     = trace st ++ Invoked (ClassificationPrompt q) :: Searched q 4 :: rest).
Proof.
  intros Hq Hcl Hpref Hd Hkey. split; intros Hcat.
  - apply in_list_iff in Hcat.
    unfold get_recommendations. rewrite (has_plan_phrase_false _ Hq).
    rewrite (bind_classify_query _ _ _ _ _ Hcl), bind_modify, Hpref, bind_gets.
    cbn [preferences set_last_classification log].
    unfold enhance_query, getitem. rewrite Hcat, Hd, Hkey. reflexivity.
  - apply (get_recommendations_searches srv q content q st Hq Hcl Hpref).
    unfold enhance_query.
    destruct (in_list _ recommendation_categories) eqn:E; [|reflexivity].
    now apply in_list_iff in E.
Qed.

Lemma missing_cuisine_key_raises_witness :
  get_recommendations
    (fixed_services (Some "Category: Recommendations") None None None "t")
    "what should i do today?" (set_preferences (JDict []) fresh_guide)
  = (Raised KeyError,
     set_last_classification (Some (parse_classification "Category: Recommendations"))
       (log (Invoked (ClassificationPrompt "what should i do today?"))
          (set_preferences (JDict []) fresh_guide))).
Proof.
  apply (proj1 (missing_cuisine_key_raises
                  (fixed_services (Some "Category: Recommendations") None None None "t")
                  "what should i do today?" "Category: Recommendations" []
                  (set_preferences (JDict []) fresh_guide)
                  ltac:(intros H; apply has_plan_phrase_iff in H; discriminate H)
                  eq_refl eq_refl eq_refl eq_refl)).
  right. left. reflexivity.
Defined.
